(** * Kafka utility with Kerberos authentication: configuration, handle cache
      and consume loop of [kafka_kerberos_utility.py]

    The development embeds the class [KafkaKerberosUtility] of
    [kafka_kerberos_utility.py].  Python dictionaries that are only looked
    up ([self.config], [os.environ], a section of the configuration file)
    are finite maps; the two handle caches, which [close] iterates in
    insertion order, are association lists.  Exceptions are values of
    [Exception]; a method that can raise returns a [result]. *)

From Stdlib Require Import ZArith String Ascii List Bool Lia.
From stdpp Require Import base option list gmap strings pretty.

Local Open Scope string_scope.
Local Open Scope Z_scope.

(** ** Python values, truthiness, exceptions *)

(** The objects stored in [self.config]: [str] for everything read from the
    environment or the file, [int] for the three converted settings. *)
Inductive value :=
| VStr (s : string)
| VInt (z : Z).

#[global] Instance value_eq_dec : EqDecision value.
Proof. solve_decision. Defined.

(** [bool(v)]: the empty string and [0] are falsy. *)
Definition truthy (v : value) : bool :=
  match v with
  | VStr s => negb (String.eqb s EmptyString)
  | VInt z => negb (z =? 0)
  end.

(** [str(v)], as the f-strings of the module render a value.  For an
    integer this is its decimal text; CPython refuses to print an integer
    of more than 4300 digits, which is not represented here: the integers
    of a configuration are defaults or results of [int()], which have no
    more digits than that. *)
Definition py_str (v : value) : string :=
  match v with
  | VStr s => s
  | VInt z => pretty z
  end.

(** The exception classes that the module raises or lets through. *)
Inductive ExcType :=
| KafkaKerberosErrorT    (* class KafkaKerberosError(Exception) *)
| ValueErrorT            (* int() on a malformed literal *)
| KeyErrorT              (* d[k] on a missing key *)
| AttributeErrorT        (* a method missing on the object, e.g. int.split *)
| ConfigParserErrorT     (* configparser.Error and subclasses *)
| OSErrorT               (* open() / write() *)
| KafkaErrorT.           (* raised by the kafka client library *)

#[global] Instance ExcType_eq_dec : EqDecision ExcType.
Proof. solve_decision. Defined.

(** An exception object: its class and [str(e)]. *)
Record Exception := Exc { exc_type : ExcType; exc_str : string }.

#[global] Instance Exception_eq_dec : EqDecision Exception.
Proof. solve_decision. Defined.

Definition KafkaKerberosError (msg : string) : Exception :=
  Exc KafkaKerberosErrorT msg.

(** [KeyError(k)]; [str] of a [KeyError] is the [repr] of the key. *)
Definition KeyError (k : string) : Exception :=
  Exc KeyErrorT ("'" +:+ k +:+ "'").

Inductive result (A : Type) :=
| Ok (a : A)
| Raise (e : Exception).
Arguments Ok {A} a.
Arguments Raise {A} e.

Definition rbind {A B} (m : result A) (k : A → result B) : result B :=
  match m with
  | Ok a => k a
  | Raise e => Raise e
  end.

Declare Scope result_scope.
Delimit Scope result_scope with result.
Notation "x <- m ;; k" := (rbind m (fun x => k))
  (at level 100, m at next level, right associativity) : result_scope.

(** ** [int(s)] on a string, and the [ValueError] it raises

    [int] as CPython 3.11 reads a decimal literal: white space around the
    literal is dropped, one sign is allowed, digits may be grouped by
    single underscores, and a literal of more than 4300 digits is refused
    (the default of [sys.int_max_str_digits]).  Only ASCII input is
    covered: CPython also accepts the decimal digits and the white space of
    other scripts. *)

(** [Py_ISSPACE]: tab, line feed, vertical tab, form feed, return, space. *)
Definition is_space (c : ascii) : bool :=
  let n := nat_of_ascii c in
  ((9 <=? n)%nat && (n <=? 13)%nat) || (n =? 32)%nat.

Definition digit_val (c : ascii) : option Z :=
  let n := Z.of_nat (nat_of_ascii c) in
  if (48 <=? n) && (n <=? 57) then Some (n - 48) else None.

Fixpoint lstrip (l : list ascii) : list ascii :=
  match l with
  | [] => []
  | c :: r => if is_space c then lstrip r else l
  end.

(** The run of digits and underscores that [l] starts with: its value,
    the number of its digits, and what follows it.  [prev] tells whether
    the previous character was an underscore: an underscore may neither
    follow another one nor end the run. *)
Fixpoint scan (acc : Z) (count : N) (prev : bool) (l : list ascii)
  : option (Z * N * list ascii) :=
  match l with
  | [] => if prev then None else Some (acc, count, [])
  | c :: r =>
      match digit_val c with
      | Some d => scan (10 * acc + d) (count + 1)%N false r
      | None =>
          if Ascii.eqb c "_" then (if prev then None else scan acc count true r)
          else if prev then None else Some (acc, count, l)
      end
  end.

Definition int_max_str_digits : N := 4300.

(** What [int(s)] does: it returns an integer, or raises one of its two
    [ValueError]s. *)
Inductive IntOutcome :=
| IntValue (z : Z)
| InvalidLiteral
| ExceedsLimit (digits : N).

(** The literal after its sign, in the order of [PyLong_FromString]: no
    underscore first, the run of digits, the limit on their number, at
    least one digit, and nothing but white space after them. *)
Definition int_unsigned (negative : bool) (l : list ascii) : IntOutcome :=
  match l with
  | [] => InvalidLiteral
  | c :: _ =>
      if Ascii.eqb c "_" then InvalidLiteral
      else
        match scan 0 0 false l with
        | None => InvalidLiteral
        | Some (z, count, rest) =>
            if (int_max_str_digits <? count)%N then ExceedsLimit count
            else if (count =? 0)%N then InvalidLiteral
            else
              match lstrip rest with
              | [] => IntValue (if negative then - z else z)
              | _ :: _ => InvalidLiteral
              end
        end
  end.

(** Leading white space is dropped and one sign is read. *)
Definition int_outcome (s : string) : IntOutcome :=
  match lstrip (list_ascii_of_string s) with
  | [] => InvalidLiteral
  | c :: r =>
      if Ascii.eqb c "-" then int_unsigned true r
      else if Ascii.eqb c "+" then int_unsigned false r
      else int_unsigned false (c :: r)
  end.

Definition py_int (s : string) : option Z :=
  match int_outcome s with
  | IntValue z => Some z
  | InvalidLiteral | ExceedsLimit _ => None
  end.
Arguments py_int : simpl never.

(** [repr(s)] of a string, for ASCII text: the quote is the double one
    when the text holds a single quote and no double one; the quote and
    the backslash are escaped, and so are the control characters. *)
Definition hex_digit (n : nat) : ascii :=
  nth n (list_ascii_of_string "0123456789abcdef") "0"%char.

Definition repr_char (quote c : ascii) : string :=
  let n := nat_of_ascii c in
  if Ascii.eqb c quote || Ascii.eqb c "\" then String "\" (String c EmptyString)
  else if (n =? 9)%nat then "\t"
  else if (n =? 10)%nat then "\n"
  else if (n =? 13)%nat then "\r"
  else if (n <? 32)%nat || (n =? 127)%nat then
    "\x" +:+ String (hex_digit (n / 16)) (String (hex_digit (n mod 16)) EmptyString)
  else String c EmptyString.

Definition py_repr (s : string) : string :=
  let l := list_ascii_of_string s in
  let double := ascii_of_nat 34 in
  let quote :=
    if existsb (Ascii.eqb "'") l && negb (existsb (Ascii.eqb double) l)
    then double else "'"%char in
  String quote (foldr (λ c rest, repr_char quote c +:+ rest) (String quote EmptyString) l).

(** The [ValueError] of [int(s)]; the message shows at most 200 characters
    of the text. *)
Definition ValueError (s : string) : Exception :=
  Exc ValueErrorT
    match int_outcome s with
    | ExceedsLimit digits =>
        "Exceeds the limit (" +:+ pretty int_max_str_digits
        +:+ " digits) for integer string conversion: value has " +:+ pretty digits
        +:+ " digits; use sys.set_int_max_str_digits() to increase the limit"
    | IntValue _ | InvalidLiteral =>
        "invalid literal for int() with base 10: " +:+ substring 0 200 (py_repr s)
    end.

(** [int(v)] for a configuration value. *)
Definition int_of_value (v : value) : result Z :=
  match v with
  | VInt z => Ok z
  | VStr s => match py_int s with
              | Some z => Ok z
              | None => Raise (ValueError s)
              end
  end.

(** ** The host: file system, configuration file, environment *)

(** What the module reads from outside: [os.path.exists], the outcome of
    [ConfigParser().read(path)] seen as a mapping from section name to the
    section's options, the process environment at start (after
    [load_dotenv()]), whether [open(path, 'w')] and [write] succeed,
    whether opening a file for appending succeeds, [os.getuid()], and the
    two import flags of the module. *)
Record Host := {
  path_exists : value → bool;
  parser_read : string → result (gmap string (gmap string string));
  getenv : gmap string string;
  write_file : string → string → option Exception;
  open_append : string → option Exception;
  getuid : Z;
  DOTENV_AVAILABLE : bool;
  GSSAPI_AVAILABLE : bool;
}.

(** ** [_load_config] *)

(** The keys of [env_config] with the environment variable each one
    reads, in the order of the dictionary literal. *)
Definition env_config : list (string * string) :=
  [ ("bootstrap_servers", "KAFKA_BOOTSTRAP_SERVERS");
    ("topic", "KAFKA_TOPIC");
    ("keytab_path", "KAFKA_KEYTAB_PATH");
    ("principal", "KAFKA_PRINCIPAL");
    ("service_name", "KAFKA_SERVICE_NAME");
    ("jaas_config_path", "KAFKA_JAAS_CONFIG_PATH");
    ("consumer_group_id", "KAFKA_CONSUMER_GROUP_ID");
    ("auto_offset_reset", "KAFKA_AUTO_OFFSET_RESET");
    ("max_poll_records", "KAFKA_MAX_POLL_RECORDS");
    ("session_timeout_ms", "KAFKA_SESSION_TIMEOUT_MS");
    ("heartbeat_interval_ms", "KAFKA_HEARTBEAT_INTERVAL_MS") ].

(** [if config_file and os.path.exists(config_file): ... if 'kafka' in
    parser: config.update(parser['kafka'])], starting from [{}]. *)
Definition load_file (h : Host) (config_file : option string)
  : result (gmap string value) :=
  match config_file with
  | None => Ok ∅
  | Some path =>
      if truthy (VStr path) && path_exists h (VStr path) then
        (parser <- parser_read h path ;;
         match parser !! "kafka" with
         | Some section => Ok (VStr <$> section)
         | None => Ok ∅
         end)%result
      else Ok ∅
  end.

(** [for key, value in env_config.items(): if value is not None:
    config[key] = value] *)
Definition overlay_env (environ : gmap string string)
    (entries : list (string * string)) (config : gmap string value)
  : gmap string value :=
  foldl (λ cfg '(key, var),
           match environ !! var with
           | Some v => <[key := VStr v]> cfg
           | None => cfg
           end) config entries.

(** [config.setdefault(key, default)] *)
Definition setdefault (key : string) (default : value)
    (config : gmap string value) : gmap string value :=
  match config !! key with
  | Some _ => config
  | None => <[key := default]> config
  end.

Definition set_defaults (config : gmap string value) : gmap string value :=
  setdefault "heartbeat_interval_ms" (VStr "3000")
    (setdefault "session_timeout_ms" (VStr "30000")
      (setdefault "max_poll_records" (VStr "500")
        (setdefault "auto_offset_reset" (VStr "earliest")
          (setdefault "consumer_group_id" (VStr "kafka-utility-group")
            (setdefault "service_name" (VStr "kafka") config))))).

(** [if key in config: config[key] = int(config[key])] *)
Definition convert_int (key : string) (config : gmap string value)
  : result (gmap string value) :=
  match config !! key with
  | Some v => (z <- int_of_value v ;; Ok (<[key := VInt z]> config))%result
  | None => Ok config
  end.

Definition _load_config (h : Host) (config_file : option string)
  : result (gmap string value) :=
  (config <- load_file h config_file ;;
   let config := overlay_env (getenv h) env_config config in
   let config := set_defaults config in
   config <- convert_int "max_poll_records" config ;;
   config <- convert_int "session_timeout_ms" config ;;
   config <- convert_int "heartbeat_interval_ms" config ;;
   Ok config)%result.

(** ** [_validate_config] *)

Definition required_params : list string :=
  ["bootstrap_servers"; "topic"; "keytab_path"; "principal"].

(** [not self.config.get(param)] *)
Definition not_get (config : gmap string value) (param : string) : bool :=
  match config !! param with
  | Some v => negb (truthy v)
  | None => true
  end.

Definition missing_params (config : gmap string value) : list string :=
  List.filter (not_get config) required_params.


(** [', '.join(l)] *)
Fixpoint join (sep : string) (l : list string) : string :=
  match l with
  | [] => EmptyString
  | [x] => x
  | x :: r => x +:+ sep +:+ join sep r
  end.

(** The three failures of [_validate_config], by the message each [raise]
    builds. *)
Definition MissingRequired (fields : list string) : Exception :=
  KafkaKerberosError
    ("Missing required configuration parameters: " +:+ join ", " fields +:+ ". "
     +:+ "Please set the corresponding environment variables or provide them in the config file.").


Definition KeytabNotFound (path : value) : Exception :=
  KafkaKerberosError ("Keytab file not found: " +:+ py_str path).

Definition EmptyBrokerList : Exception :=
  KafkaKerberosError "Bootstrap servers cannot be empty".

(** [config[key]] *)
Definition getitem (config : gmap string value) (key : string) : result value :=
  match config !! key with
  | Some v => Ok v
  | None => Raise (KeyError key)
  end.

Definition _validate_config (h : Host) (config : gmap string value)
  : result unit :=
  match missing_params config with
  | (_ :: _) as missing => Raise (MissingRequired missing)
  | [] =>
      (keytab <- getitem config "keytab_path" ;;
       if negb (path_exists h keytab) then Raise (KeytabNotFound keytab)
       else
         servers <- getitem config "bootstrap_servers" ;;
         if negb (truthy servers) then Raise EmptyBrokerList
         else Ok tt)%result
  end.


(** ** The kafka client library, as the module uses it *)

(** A constructed client object is identified by its position in the list
    of objects constructed so far; two handles are the same object exactly
    when they are equal. *)
Definition Handle := nat.

Inductive Role := Producer | Consumer.

#[global] Instance Role_eq_dec : EqDecision Role.
Proof. solve_decision. Defined.

(** The deserialised payload of a record, kept as its JSON text. *)
Definition Message := string.

(** The attributes of a consumed record that the module reads. *)
Record ConsumerRecord := {
  rec_topic : string;
  rec_partition : Z;
  rec_offset : Z;
  rec_value : Message;
}.

(** What [consumer.poll()] returns: the items of a dictionary from topic
    partition to the records fetched for it, in iteration order.  The empty
    dictionary is [[]]. *)
Definition TopicPartition := (string * Z)%type.
Definition Batch := list (TopicPartition * list ConsumerRecord).

(** [future.get()] of a send. *)
Record RecordMetadata := {
  md_topic : string;
  md_partition : Z;
  md_offset : Z;
}.

(** The dictionary of [_get_producer_config] (the two serialiser lambdas
    are not represented). *)
Record ProducerConfig := {
  p_bootstrap_servers : list string;
  p_security_protocol : string;
  p_sasl_mechanism : string;
  p_sasl_kerberos_service_name : value;
  p_acks : string;
  p_retries : Z;
  p_max_in_flight_requests_per_connection : Z;
}.

(** The dictionary of [_get_consumer_config] (without the two deserialiser
    lambdas). *)
Record ConsumerConfig := {
  c_bootstrap_servers : list string;
  c_security_protocol : string;
  c_sasl_mechanism : string;
  c_sasl_kerberos_service_name : value;
  c_group_id : value;
  c_auto_offset_reset : value;
  c_enable_auto_commit : bool;
  c_auto_commit_interval_ms : Z;
  c_max_poll_records : value;
  c_session_timeout_ms : value;
  c_heartbeat_interval_ms : value;
}.

(** A constructed client: the role, the cache key it was constructed for
    (for a consumer also the topic it subscribes to) and its settings. *)
Record Client := {
  client_role : Role;
  client_topic : value;
  client_settings : ProducerConfig + ConsumerConfig;
}.

(** The behaviour of the client library and of the brokers behind it:
    - [connect c n]: does constructing [c] as the [n]-th object raise;
    - [poll h n timeout_ms]: what the [n]-th call of [poll] on consumer
      [h] returns (numbered from 0);
    - [send h n topic message key]: what the [n]-th send of the session
      resolves to;
    - [close_client h]: does [h.close()] raise. *)
Record Broker := {
  connect : Client → nat → option Exception;
  poll : Handle → nat → Z → result Batch;
  send : Handle → nat → value → Message → option string → result RecordMetadata;
  close_client : Handle → option Exception;
}.

(** ** The state: the attributes of [self] and the process around it *)

Inductive LogRecord :=
| INFO (msg : string)
| WARNING (msg : string)
| ERROR (msg : string).

Record State := {
  config : gmap string value;             (* self.config *)
  _producers : list (value * Handle);     (* self._producers *)
  _consumers : list (value * Handle);     (* self._consumers *)
  os_environ : gmap string string;        (* os.environ *)
  files : gmap string string;             (* files created or written: path to
                                             what the process wrote *)
  log : list LogRecord;                   (* self.logger, oldest first *)
  clients : list Client;                  (* client objects constructed *)
  closed : list Handle;                   (* clients on which close() ran *)
  polled : gmap Handle nat;               (* poll() calls made per consumer *)
  sent : list (Handle * value * Message * option string);
}.

Definition set_config (f : gmap string value → gmap string value) (s : State) : State :=
  {| config := f (config s); _producers := _producers s; _consumers := _consumers s;
     os_environ := os_environ s; files := files s; log := log s;
     clients := clients s; closed := closed s; polled := polled s; sent := sent s |}.

Definition set_producers (f : list (value * Handle) → list (value * Handle)) (s : State) : State :=
  {| config := config s; _producers := f (_producers s); _consumers := _consumers s;
     os_environ := os_environ s; files := files s; log := log s;
     clients := clients s; closed := closed s; polled := polled s; sent := sent s |}.

Definition set_consumers (f : list (value * Handle) → list (value * Handle)) (s : State) : State :=
  {| config := config s; _producers := _producers s; _consumers := f (_consumers s);
     os_environ := os_environ s; files := files s; log := log s;
     clients := clients s; closed := closed s; polled := polled s; sent := sent s |}.

Definition set_environ (f : gmap string string → gmap string string) (s : State) : State :=
  {| config := config s; _producers := _producers s; _consumers := _consumers s;
     os_environ := f (os_environ s); files := files s; log := log s;
     clients := clients s; closed := closed s; polled := polled s; sent := sent s |}.

Definition set_files (f : gmap string string → gmap string string) (s : State) : State :=
  {| config := config s; _producers := _producers s; _consumers := _consumers s;
     os_environ := os_environ s; files := f (files s); log := log s;
     clients := clients s; closed := closed s; polled := polled s; sent := sent s |}.

Definition set_log (f : list LogRecord → list LogRecord) (s : State) : State :=
  {| config := config s; _producers := _producers s; _consumers := _consumers s;
     os_environ := os_environ s; files := files s; log := f (log s);
     clients := clients s; closed := closed s; polled := polled s; sent := sent s |}.

Definition set_clients (f : list Client → list Client) (s : State) : State :=
  {| config := config s; _producers := _producers s; _consumers := _consumers s;
     os_environ := os_environ s; files := files s; log := log s;
     clients := f (clients s); closed := closed s; polled := polled s; sent := sent s |}.

Definition set_closed (f : list Handle → list Handle) (s : State) : State :=
  {| config := config s; _producers := _producers s; _consumers := _consumers s;
     os_environ := os_environ s; files := files s; log := log s;
     clients := clients s; closed := f (closed s); polled := polled s; sent := sent s |}.

Definition set_polled (f : gmap Handle nat → gmap Handle nat) (s : State) : State :=
  {| config := config s; _producers := _producers s; _consumers := _consumers s;
     os_environ := os_environ s; files := files s; log := log s;
     clients := clients s; closed := closed s; polled := f (polled s); sent := sent s |}.

Definition set_sent (f : list (Handle * value * Message * option string) →
                         list (Handle * value * Message * option string)) (s : State) : State :=
  {| config := config s; _producers := _producers s; _consumers := _consumers s;
     os_environ := os_environ s; files := files s; log := log s;
     clients := clients s; closed := closed s; polled := polled s; sent := f (sent s) |}.

(** The process before [__init__] has run: no attribute of [self] is set,
    nothing has been written, logged or constructed. *)
Definition fresh (h : Host) : State :=
  {| config := ∅; _producers := []; _consumers := [];
     os_environ := getenv h; files := ∅; log := [];
     clients := []; closed := []; polled := ∅; sent := [] |}.

(** ** A state and exception monad for the methods *)

Definition M (A : Type) : Type := State → result A * State.

Definition ret {A} (a : A) : M A := λ s, (Ok a, s).

Definition raise {A} (e : Exception) : M A := λ s, (Raise e, s).

Definition bind {A B} (m : M A) (k : A → M B) : M B :=
  λ s, match m s with
       | (Ok a, s') => k a s'
       | (Raise e, s') => (Raise e, s')
       end.

(** [try: m except Exception as e: handler(e)] *)
Definition try_except {A} (m : M A) (handler : Exception → M A) : M A :=
  λ s, match m s with
       | (Ok a, s') => (Ok a, s')
       | (Raise e, s') => handler e s'
       end.

Definition lift {A} (r : result A) : M A := λ s, (r, s).

Definition get : M State := λ s, (Ok s, s).

Definition modify (f : State → State) : M unit := λ s, (Ok tt, f s).

Declare Scope M_scope.
Delimit Scope M_scope with M.
Notation "x <- m ;; k" := (bind m (fun x => k))
  (at level 100, m at next level, right associativity) : M_scope.
Notation "m ;; k" := (bind m (fun _ => k))
  (at level 100, right associativity) : M_scope.

Definition logger_info (msg : string) : M unit := modify (set_log (λ l, (l ++ [INFO msg])%list)).
Definition logger_warning (msg : string) : M unit := modify (set_log (λ l, (l ++ [WARNING msg])%list)).
Definition logger_error (msg : string) : M unit := modify (set_log (λ l, (l ++ [ERROR msg])%list)).

(** [self.config[key]] *)
Definition config_getitem (key : string) : M value :=
  λ s, (getitem (config s) key, s).

(** ** [_setup_kerberos] and [_create_jaas_config] *)

Definition nl : string := String (ascii_of_nat 10) EmptyString.
Definition dquote : string := String (ascii_of_nat 34) EmptyString.

Definition jaas_config_content (keytab principal : value) : string :=
  nl +:+ "KafkaClient {" +:+ nl
  +:+ "    com.sun.security.auth.module.Krb5LoginModule required" +:+ nl
  +:+ "    useKeyTab=true" +:+ nl
  +:+ "    storeKey=true" +:+ nl
  +:+ "    keyTab=" +:+ dquote +:+ py_str keytab +:+ dquote +:+ nl
  +:+ "    principal=" +:+ dquote +:+ py_str principal +:+ dquote +:+ ";" +:+ nl
  +:+ "};" +:+ nl.

Definition jaas_config_path : string := "/tmp/kafka_jaas.conf".

(** [os.environ[key] = value]: the assignment raises when the value holds
    a NUL character, which [putenv] cannot pass on. *)
Definition has_nul (s : string) : bool :=
  existsb (Ascii.eqb zero) (list_ascii_of_string s).

Definition environ_setitem (key value : string) : M unit :=
  if has_nul value then raise (Exc ValueErrorT "embedded null byte")
  else modify (set_environ <[key := value]>).

(** [with open(path, 'w') as f: f.write(content)] *)
Definition open_write (h : Host) (path content : string) : M unit :=
  λ s, match write_file h path content with
       | Some e => (Raise e, s)
       | None => (Ok tt, set_files <[path := content]> s)
       end.

Definition _create_jaas_config (h : Host) : M unit :=
  (keytab <- config_getitem "keytab_path" ;;
   principal <- config_getitem "principal" ;;
   let content := jaas_config_content keytab principal in
   try_except
     (open_write h jaas_config_path content ;;
      environ_setitem "JAVA_OPTS"
        ("-Djava.security.auth.login.config=" +:+ jaas_config_path) ;;
      modify (set_config <["jaas_config_path" := VStr jaas_config_path]>) ;;
      logger_info ("Created JAAS configuration at: " +:+ jaas_config_path))
     (λ e, raise (KafkaKerberosError
                    ("Failed to create JAAS configuration: " +:+ exc_str e))))%M.

Definition _setup_kerberos (h : Host) : M unit :=
  try_except
    ((if GSSAPI_AVAILABLE h then ret tt
      else logger_warning
             ("GSSAPI module not available. Kerberos authentication may not work properly. "
              +:+ "Install gssapi with: pip install gssapi (requires system dependencies)")) ;;
     environ_setitem "KRB5_CONFIG" "/etc/krb5.conf" ;;
     environ_setitem "KRB5CCNAME" ("FILE:/tmp/krb5cc_" +:+ pretty (getuid h)) ;;
     s <- get ;;
     (if not_get (config s) "jaas_config_path" then _create_jaas_config h
      else
        path <- config_getitem "jaas_config_path" ;;
        environ_setitem "JAVA_OPTS"
          ("-Djava.security.auth.login.config=" +:+ py_str path)) ;;
     logger_info "Kerberos authentication environment configured successfully")%M
    (λ e, raise (KafkaKerberosError
                   ("Failed to setup Kerberos authentication: " +:+ exc_str e))).

(** ** [_setup_logging] and [__init__] *)

Definition log_file : string := "kafka_kerberos_utility.log".

(** [logging.FileHandler(path)]: the file is opened for appending, which
    creates it when it does not exist and fails when it cannot be opened;
    nothing is written to it yet. *)
Definition FileHandler (h : Host) (path : string) : M unit :=
  λ s, match open_append h path with
       | Some e => (Raise e, s)
       | None =>
           (Ok tt,
            set_files (λ fs, match fs !! path with
                             | Some _ => fs
                             | None => <[path := EmptyString]> fs
                             end) s)
       end.

(** The two handlers are constructed, the second one on the log file,
    and handed to [logging.basicConfig]; [self.logger] is then the logger
    whose records [log] keeps. *)
Definition _setup_logging (h : Host) : M unit := FileHandler h log_file.

(** When [python-dotenv] is missing the constructor uses [self.logger]
    before [_setup_logging] has assigned it. *)
Definition __init__ (h : Host) (config_file : option string) : M unit :=
  ((if DOTENV_AVAILABLE h then ret tt
    else raise (Exc AttributeErrorT
                  "'KafkaKerberosUtility' object has no attribute 'logger'")) ;;
   cfg <- lift (_load_config h config_file) ;;
   modify (set_config (λ _, cfg)) ;;
   _setup_logging h ;;
   modify (set_producers (λ _, [])) ;;
   modify (set_consumers (λ _, [])) ;;
   s <- get ;;
   lift (_validate_config h (config s)) ;;
   _setup_kerberos h)%M.

(** What [_setup_logging] does to the process when it succeeds: the log
    file is there, created empty if it was not. *)
Definition log_opened (s : State) : State :=
  set_files (λ fs, match fs !! log_file with
                   | Some _ => fs
                   | None => <[log_file := EmptyString]> fs
                   end) s.

(** The state in which [__init__] validates a configuration it has
    loaded: the log file has been opened and the caches are empty; nothing
    else has happened to the process. *)
Definition loaded (h : Host) (cfg : gmap string value) : State :=
  set_consumers (λ _, [])
    (set_producers (λ _, []) (log_opened (set_config (λ _, cfg) (fresh h)))).

(** ** The two configuration views *)

(** [s.split(sep)] for a one-character separator. *)
Fixpoint split_on (sep : ascii) (s : string) : list string :=
  match s with
  | EmptyString => [EmptyString]
  | String c r =>
      if Ascii.eqb c sep then EmptyString :: split_on sep r
      else match split_on sep r with
           | x :: xs => String c x :: xs
           | [] => [String c EmptyString]
           end
  end.

(** [v.split(',')] *)
Definition split_servers (v : value) : result (list string) :=
  match v with
  | VStr s => Ok (split_on "," s)
  | VInt _ => Raise (Exc AttributeErrorT "'int' object has no attribute 'split'")
  end.

Definition _get_producer_config : M ProducerConfig :=
  (servers <- config_getitem "bootstrap_servers" ;;
   servers <- lift (split_servers servers) ;;
   service <- config_getitem "service_name" ;;
   ret {| p_bootstrap_servers := servers;
          p_security_protocol := "SASL_PLAINTEXT";
          p_sasl_mechanism := "GSSAPI";
          p_sasl_kerberos_service_name := service;
          p_acks := "all";
          p_retries := 3;
          p_max_in_flight_requests_per_connection := 1 |})%M.

Definition _get_consumer_config : M ConsumerConfig :=
  (servers <- config_getitem "bootstrap_servers" ;;
   servers <- lift (split_servers servers) ;;
   service <- config_getitem "service_name" ;;
   group <- config_getitem "consumer_group_id" ;;
   reset <- config_getitem "auto_offset_reset" ;;
   records <- config_getitem "max_poll_records" ;;
   session <- config_getitem "session_timeout_ms" ;;
   heartbeat <- config_getitem "heartbeat_interval_ms" ;;
   ret {| c_bootstrap_servers := servers;
          c_security_protocol := "SASL_PLAINTEXT";
          c_sasl_mechanism := "GSSAPI";
          c_sasl_kerberos_service_name := service;
          c_group_id := group;
          c_auto_offset_reset := reset;
          c_enable_auto_commit := true;
          c_auto_commit_interval_ms := 1000;
          c_max_poll_records := records;
          c_session_timeout_ms := session;
          c_heartbeat_interval_ms := heartbeat |})%M.

(** ** The handle caches: [get_producer], [get_consumer] *)

(** [cache.get(topic)]: the caches are dictionaries in insertion order. *)
Fixpoint cache_get (cache : list (value * Handle)) (topic : value) : option Handle :=
  match cache with
  | [] => None
  | (k, c) :: rest => if decide (k = topic) then Some c else cache_get rest topic
  end.

(** [cache[topic] = c] *)
Fixpoint cache_set (cache : list (value * Handle)) (topic : value) (c : Handle)
  : list (value * Handle) :=
  match cache with
  | [] => [(topic, c)]
  | (k, c') :: rest =>
      if decide (k = topic) then (k, c) :: rest
      else (k, c') :: cache_set rest topic c
  end.

(** [cache[topic]] *)
Definition cache_getitem (cache : list (value * Handle)) (topic : value) : result Handle :=
  match cache_get cache topic with
  | Some c => Ok c
  | None => Raise (KeyError (py_str topic))
  end.

(** [topic or self.config['topic']] *)
Definition topic_or_default (topic : option value) : M value :=
  match topic with
  | Some t => if truthy t then ret t else config_getitem "topic"
  | None => config_getitem "topic"
  end.

(** Calling a client class: the object is constructed, or the call raises
    and nothing is constructed. *)
Definition new_client (br : Broker) (c : Client) : M Handle :=
  λ s, let n := length (clients s) in
       match connect br c n with
       | Some e => (Raise e, s)
       | None => (Ok n, set_clients (λ l, (l ++ [c])%list) s)
       end.

(** The call of [KafkaProducer] with the producer settings as keyword
    arguments; the object is recorded with the topic it is being
    constructed for. *)
Definition KafkaProducer (br : Broker) (topic : value) (cfg : ProducerConfig) : M Handle :=
  new_client br {| client_role := Producer; client_topic := topic;
                   client_settings := inl cfg |}.

(** The call of [KafkaConsumer] with the topic and the consumer settings
    as keyword arguments. *)
Definition KafkaConsumer (br : Broker) (topic : value) (cfg : ConsumerConfig) : M Handle :=
  new_client br {| client_role := Consumer; client_topic := topic;
                   client_settings := inr cfg |}.

(** The [try] statement of [get_producer], run when the topic is not in
    the cache. *)
Definition try_create_producer (br : Broker) (topic : value) : M unit :=
  try_except
    (producer_config <- _get_producer_config ;;
     producer <- KafkaProducer br topic producer_config ;;
     modify (set_producers (λ cache, cache_set cache topic producer)) ;;
     logger_info ("Created producer for topic: " +:+ py_str topic))%M
    (λ e, raise (KafkaKerberosError
                   ("Failed to create producer for topic " +:+ py_str topic
                    +:+ ": " +:+ exc_str e))).

Definition get_producer (br : Broker) (topic : option value) : M Handle :=
  (topic <- topic_or_default topic ;;
   s <- get ;;
   match cache_get (_producers s) topic with
   | None => try_create_producer br topic
   | Some _ => ret tt
   end ;;
   s <- get ;;
   lift (cache_getitem (_producers s) topic))%M.

(** The [try] statement of [get_consumer], run when the topic is not in
    the cache. *)
Definition try_create_consumer (br : Broker) (topic : value) : M unit :=
  try_except
    (consumer_config <- _get_consumer_config ;;
     consumer <- KafkaConsumer br topic consumer_config ;;
     modify (set_consumers (λ cache, cache_set cache topic consumer)) ;;
     logger_info ("Created consumer for topic: " +:+ py_str topic))%M
    (λ e, raise (KafkaKerberosError
                   ("Failed to create consumer for topic " +:+ py_str topic
                    +:+ ": " +:+ exc_str e))).

Definition get_consumer (br : Broker) (topic : option value) : M Handle :=
  (topic <- topic_or_default topic ;;
   s <- get ;;
   match cache_get (_consumers s) topic with
   | None => try_create_consumer br topic
   | Some _ => ret tt
   end ;;
   s <- get ;;
   lift (cache_getitem (_consumers s) topic))%M.

(** The specification's [get_handle(role, topic)]. *)
Definition get_handle (br : Broker) (role : Role) (topic : option value) : M Handle :=
  match role with
  | Producer => get_producer br topic
  | Consumer => get_consumer br topic
  end.

(** The cache of a role. *)
Definition cache_of (role : Role) (s : State) : list (value * Handle) :=
  match role with
  | Producer => _producers s
  | Consumer => _consumers s
  end.

(** ** [produce_message] *)

Definition produce_message (br : Broker) (message : Message) (key : option string)
    (topic : option value) : M bool :=
  (topic <- topic_or_default topic ;;
   try_except
     (producer <- get_producer br (Some topic) ;;
      s <- get ;;
      modify (set_sent (λ l, (l ++ [(producer, topic, message, key)])%list)) ;;
      record_metadata <- lift (send br producer (length (sent s)) topic message key) ;;
      logger_info ("Message sent successfully to topic " +:+ md_topic record_metadata
                   +:+ " partition " +:+ pretty (md_partition record_metadata)
                   +:+ " offset " +:+ pretty (md_offset record_metadata)) ;;
      ret true)
     (λ e,
        logger_error ("Failed to produce message to topic " +:+ py_str topic
                      +:+ ": " +:+ exc_str e) ;;
        raise (KafkaKerberosError ("Message production failed: " +:+ exc_str e))))%M.

(** ** [consume_messages] *)

(** A message handler is a callable with effects of its own: it runs on
    its own state [H] and either returns or raises an [Exception]. *)
Definition Handler (H : Type) : Type :=
  Message → ConsumerRecord → H → H * option Exception.

(** The two local variables of the loop. *)
Record Locals := {
  messages : list Message;
  message_count : Z;
}.

(** [max_messages and message_count >= max_messages] *)
Definition cap_reached (max_messages : option Z) (message_count : Z) : bool :=
  match max_messages with
  | Some m => negb (m =? 0) && (m <=? message_count)
  | None => false
  end.

(** [consumer.poll(timeout_ms=timeout_ms)] *)
Definition consumer_poll (br : Broker) (consumer : Handle) (timeout_ms : Z) : M Batch :=
  λ s, let n := default 0%nat (polled s !! consumer) in
       (poll br consumer n timeout_ms, set_polled <[consumer := S n]> s).

Section consume.
Context {H : Type}.
Variable br : Broker.
Variable message_handler : option (Handler H).
Variable max_messages : option Z.

(** The body of [for record in records], up to the test that may leave
    the loop. *)
Definition consume_record (record : ConsumerRecord) (l : Locals) (hs : H) (s : State)
  : Locals * H * State :=
  let message := rec_value record in
  let l := {| messages := (messages l ++ [message])%list;
              message_count := message_count l + 1 |} in
  let s := set_log (λ lg, (lg ++ [INFO ("Received message from topic " +:+ rec_topic record
                                        +:+ " partition " +:+ pretty (rec_partition record)
                                        +:+ " offset " +:+ pretty (rec_offset record)
                                        +:+ ": " +:+ message)])%list) s in
  match message_handler with
  | Some handler =>
      match handler message record hs with
      | (hs, Some e) =>
          (l, hs, set_log (λ lg, (lg ++ [ERROR ("Message handler error: " +:+ exc_str e)])%list) s)
      | (hs, None) => (l, hs, s)
      end
  | None => (l, hs, s)
  end.

(** [for record in records: ...; if max_messages and message_count >=
    max_messages: break] *)
Fixpoint consume_records (records : list ConsumerRecord) (l : Locals) (hs : H) (s : State)
  : Locals * H * State :=
  match records with
  | [] => (l, hs, s)
  | record :: rest =>
      let '(l, hs, s) := consume_record record l hs s in
      if cap_reached max_messages (message_count l) then (l, hs, s)
      else consume_records rest l hs s
  end.

(** [for tp, records in message_batch.items(): ...] *)
Fixpoint consume_batch (message_batch : Batch) (l : Locals) (hs : H) (s : State)
  : Locals * H * State :=
  match message_batch with
  | [] => (l, hs, s)
  | (tp, records) :: rest =>
      let '(l, hs, s) := consume_records records l hs s in
      consume_batch rest l hs s
  end.

(** [while True: ...]; [fuel] bounds the number of iterations, and the
    result is [None] when it does not suffice. *)
Fixpoint consume_loop (fuel : nat) (consumer : Handle) (timeout_ms : Z)
    (l : Locals) (hs : H) (s : State) : option (result Locals * H * State) :=
  match fuel with
  | O => None
  | S fuel =>
      if cap_reached max_messages (message_count l) then Some (Ok l, hs, s)
      else
        match consumer_poll br consumer timeout_ms s with
        | (Raise e, s) => Some (Raise e, hs, s)
        | (Ok message_batch, s) =>
            let '(l, hs, s) := consume_batch message_batch l hs s in
            match message_batch with
            | [] => Some (Ok l, hs, s)
            | _ :: _ => consume_loop fuel consumer timeout_ms l hs s
            end
        end
  end.

(** [except Exception as e] of [consume_messages] *)
Definition consume_failed (topic : value) (e : Exception) : M (list Message) :=
  (logger_error ("Failed to consume messages from topic " +:+ py_str topic
                 +:+ ": " +:+ exc_str e) ;;
   raise (KafkaKerberosError ("Message consumption failed: " +:+ exc_str e)))%M.

Definition consume_messages (fuel : nat) (topic : option value) (timeout_ms : Z)
    (hs : H) (s : State) : option (result (list Message) * H * State) :=
  match topic_or_default topic s with
  | (Raise e, s) => Some (Raise e, hs, s)
  | (Ok topic, s) =>
      match get_consumer br (Some topic) s with
      | (Raise e, s) =>
          let '(r, s) := consume_failed topic e s in Some (r, hs, s)
      | (Ok consumer, s) =>
          match consume_loop fuel consumer timeout_ms
                  {| messages := []; message_count := 0 |} hs s with
          | None => None
          | Some (Ok l, hs, s) => Some (Ok (messages l), hs, s)
          | Some (Raise e, hs, s) =>
              let '(r, s) := consume_failed topic e s in Some (r, hs, s)
          end
      end
  end.
End consume.

(** ** [close] *)

Fixpoint close_each (br : Broker) (kind : string) (cache : list (value * Handle)) : M unit :=
  match cache with
  | [] => ret tt
  | (topic, c) :: rest =>
      ((λ s, match close_client br c with
             | Some e => (Raise e, s)
             | None => (Ok tt, set_closed (λ l, (l ++ [c])%list) s)
             end) ;;
       logger_info ("Closed " +:+ kind +:+ " for topic: " +:+ py_str topic) ;;
       close_each br kind rest)%M
  end.

Definition close (br : Broker) : M unit :=
  try_except
    (s <- get ;;
     close_each br "producer" (_producers s) ;;
     close_each br "consumer" (_consumers s) ;;
     modify (set_producers (λ _, [])) ;;
     modify (set_consumers (λ _, [])))%M
    (λ e, logger_error ("Error closing connections: " +:+ exc_str e)).

(** ** A concrete host and broker, for evaluating the model *)

Definition demo_host : Host :=
  {| path_exists := λ v, bool_decide (v = VStr "/etc/security/app.keytab");
     parser_read := λ _, Ok ∅;
     getenv := {[ "KAFKA_BOOTSTRAP_SERVERS" := "broker1:9092,broker2:9092";
                  "KAFKA_TOPIC" := "events";
                  "KAFKA_KEYTAB_PATH" := "/etc/security/app.keytab";
                  "KAFKA_PRINCIPAL" := "app@EXAMPLE.COM" ]};
     write_file := λ _ _, None;
     open_append := λ _, None;
     getuid := 1000;
     DOTENV_AVAILABLE := true;
     GSSAPI_AVAILABLE := true |}.

(** A broker that accepts every connection and serves the given batches to
    successive polls, then empty batches. *)
Definition demo_broker (batches : list Batch) : Broker :=
  {| connect := λ _ _, None;
     poll := λ _ n _, Ok (nth n batches []);
     send := λ _ n topic _ _,
       Ok {| md_topic := py_str topic; md_partition := 0; md_offset := Z.of_nat n |};
     close_client := λ _, None |}.

Definition demo_record (partition offset : Z) (payload : Message) : ConsumerRecord :=
  {| rec_topic := "events"; rec_partition := partition; rec_offset := offset;
     rec_value := payload |}.

(** The session of [demo_host] after [__init__]. *)
Definition demo_session : State := snd (__init__ demo_host None (fresh demo_host)).

Definition two_partitions : Batch :=
  [ (("events", 0), [demo_record 0 0 "a"; demo_record 0 1 "b"]);
    (("events", 1), [demo_record 1 0 "c"; demo_record 1 1 "d"]) ].


(** * Configuration resolution *)

(** ** What the sources say, independently of [_load_config] *)

(** The options of the [kafka] section of the configuration file, empty
    when no file is read or the section is missing. *)
Definition kafka_section (h : Host) (config_file : option string) : gmap string string :=
  match config_file with
  | Some path =>
      if truthy (VStr path) && path_exists h (VStr path) then
        match parser_read h path with
        | Ok parser => default ∅ (parser !! "kafka")
        | Raise _ => ∅
        end
      else ∅
  | None => ∅
  end.

(** The documented defaults, as the strings the settings start from. *)
Definition default_value (key : string) : option string :=
  if decide (key = "service_name") then Some "kafka"
  else if decide (key = "consumer_group_id") then Some "kafka-utility-group"
  else if decide (key = "auto_offset_reset") then Some "earliest"
  else if decide (key = "max_poll_records") then Some "500"
  else if decide (key = "session_timeout_ms") then Some "30000"
  else if decide (key = "heartbeat_interval_ms") then Some "3000"
  else None.

(** Environment first, then file, then default. *)
Definition chosen (h : Host) (config_file : option string) (key var : string)
  : option string :=
  match getenv h !! var with
  | Some v => Some v
  | None =>
      match kafka_section h config_file !! key with
      | Some v => Some v
      | None => default_value key
      end
  end.

Definition numeric_keys : list string :=
  ["max_poll_records"; "session_timeout_ms"; "heartbeat_interval_ms"].

(** The value a chosen string becomes: an integer for the three numeric
    settings, the string itself otherwise. *)
Definition coerce (key : string) (s : string) : option value :=
  if bool_decide (key ∈ numeric_keys) then VInt <$> py_int s else Some (VStr s).


(** The configuration that [demo_host] resolves to. *)
Definition demo_config : gmap string value :=
  match _load_config demo_host None with
  | Ok cfg => cfg
  | Raise _ => ∅
  end.

(** The host of [test_empty_bootstrap_servers]: the broker list is set to
    the empty string, the other required settings are in order. *)
Definition empty_broker_host : Host :=
  {| path_exists := path_exists demo_host;
     parser_read := parser_read demo_host;
     getenv := <["KAFKA_BOOTSTRAP_SERVERS" := EmptyString]> (getenv demo_host);
     write_file := write_file demo_host;
     open_append := open_append demo_host;
     getuid := getuid demo_host;
     DOTENV_AVAILABLE := true;
     GSSAPI_AVAILABLE := true |}.

Definition empty_broker_config : gmap string value :=
  match _load_config empty_broker_host None with
  | Ok cfg => cfg
  | Raise _ => ∅
  end.



(** A host whose environment gives a poll size that is not a number. *)
Definition bad_numeric_host : Host :=
  {| path_exists := path_exists demo_host;
     parser_read := parser_read demo_host;
     getenv := <["KAFKA_MAX_POLL_RECORDS" := "many"]> (getenv demo_host);
     write_file := write_file demo_host;
     open_append := open_append demo_host;
     getuid := getuid demo_host;
     DOTENV_AVAILABLE := true;
     GSSAPI_AVAILABLE := true |}.

(** ** Vocabulary for the statements about [consume_messages] *)

(** A state with its log forgotten: two states with the same [erase_log]
    differ at most in what has been logged. *)
Definition erase_log (s : State) : State := set_log (λ _, []) s.

(** The number of [poll] calls made so far on a consumer. *)
Definition polls_made (s : State) (consumer : Handle) : nat :=
  default 0%nat (polled s !! consumer).

(** The records of a batch, partition after partition, and of a sequence
    of batches, in the order of arrival. *)
Definition batch_records (b : Batch) : list ConsumerRecord :=
  concat (map snd b).

Definition records_of (batches : list Batch) : list ConsumerRecord :=
  concat (map batch_records batches).

Definition payloads (records : list ConsumerRecord) : list Message :=
  map rec_value records.

(** What a caller can tell of an outcome of [consume_messages] without
    reading the log or the handler's own state. *)
Definition observable {A H : Type} (o : option (A * H * State)) : option (A * State) :=
  match o with
  | Some (a, _, s) => Some (a, erase_log s)
  | None => None
  end.

(** The state right after a client has been constructed for [topic] and
    cached, with the line logged for it. *)
Definition constructed (role : Role) (topic : value)
    (settings : ProducerConfig + ConsumerConfig) (s : State) : State :=
  let handle := length (clients s) in
  let s := set_clients (λ l, (l ++ [{| client_role := role; client_topic := topic;
                                      client_settings := settings |}])%list) s in
  match role with
  | Producer =>
      set_log (λ l, (l ++ [INFO ("Created producer for topic: " +:+ py_str topic)])%list)
        (set_producers (λ cache, cache_set cache topic handle) s)
  | Consumer =>
      set_log (λ l, (l ++ [INFO ("Created consumer for topic: " +:+ py_str topic)])%list)
        (set_consumers (λ cache, cache_set cache topic handle) s)
  end.

(** Three records arriving one per poll. *)
Definition three_polls : list Batch :=
  [ [ (("events", 0), [demo_record 0 0 "a"]) ];
    [ (("events", 0), [demo_record 0 1 "b"]) ];
    [ (("events", 1), [demo_record 1 0 "c"]) ] ].



(** Two records in one poll. *)
Definition two_records : list Batch :=
  [ [ (("events", 0), [demo_record 0 0 "a"; demo_record 0 1 "b"]) ] ].

(** The state once the consumer for the default topic has been obtained. *)
Definition demo_consuming (batches : list Batch) : State :=
  snd (get_consumer (demo_broker batches) None demo_session).

(** What [consume_messages] returns or raises, when it ends. *)
Definition returned {H : Type} (o : option (result (list Message) * H * State))
  : option (result (list Message)) :=
  match o with
  | Some (r, _, _) => Some r
  | None => None
  end.

(** A handler that fails on every message, counting its calls. *)
Definition failing_handler : Handler nat :=
  λ message record calls, (S calls, Some (Exc ValueErrorT "cannot process")).

(** ** Vocabulary for the statements about a session *)

(** The part of the state that belongs to the session object proper and
    to the clients constructed for it. *)
Definition session_view (s : State)
  : gmap string value * list (value * Handle) * list (value * Handle) * list Client :=
  (config s, _producers s, _consumers s, clients s).


(** One operation of a session that is in use: obtaining a handle,
    producing, consuming (when it returns). *)
Inductive session_step (br : Broker) : State → State → Prop :=
| step_get_handle role topic s :
    session_step br s (snd (get_handle br role topic s))
| step_produce_message message key topic s :
    session_step br s (snd (produce_message br message key topic s))
| step_consume_messages (H : Type) (handler : option (Handler H)) max_messages
    fuel topic timeout_ms hs s r hs' s' :
    consume_messages br handler max_messages fuel topic timeout_ms hs s
    = Some (r, hs', s') →
    session_step br s s'.



(** The session of [demo_host] once its producer has been obtained. *)
Definition demo_producing : State :=
  snd (get_handle (demo_broker []) Producer None demo_session).


(** * The rest of the class: views, sessions, the context manager *)

(** ** Vocabulary for the configuration views *)

(** The text has no occurrence of the character. *)
Definition free_of (sep : ascii) (s : string) : bool :=
  forallb (λ c, negb (Ascii.eqb c sep)) (list_ascii_of_string s).

(** The number of occurrences of a character in a text. *)
Definition occurrences (sep : ascii) (s : string) : nat :=
  length (List.filter (Ascii.eqb sep) (list_ascii_of_string s)).

(** A configuration as a session works with it: the four required
    settings are non-empty strings, the settings with a string default are
    strings, the three numeric settings are integers. *)
Definition ready (cfg : gmap string value) : Prop :=
  (∀ p, p ∈ required_params → ∃ s, cfg !! p = Some (VStr s) ∧ s ≠ EmptyString)
  ∧ (∀ k, k ∈ ["service_name"; "consumer_group_id"; "auto_offset_reset"] →
          ∃ s, cfg !! k = Some (VStr s))
  ∧ (∀ k, k ∈ numeric_keys → ∃ z, cfg !! k = Some (VInt z)).

(** The settings a client of a role is constructed with in a state, when
    the view can be computed. *)
Definition settings_of (role : Role) (s : State)
  : option (ProducerConfig + ConsumerConfig) :=
  match role with
  | Producer =>
      match fst (_get_producer_config s) with
      | Ok cfg => Some (inl cfg)
      | Raise _ => None
      end
  | Consumer =>
      match fst (_get_consumer_config s) with
      | Ok cfg => Some (inr cfg)
      | Raise _ => None
      end
  end.

(** The word the messages of the module use for a role. *)
Definition role_name (role : Role) : string :=
  match role with
  | Producer => "producer"
  | Consumer => "consumer"
  end.

(** ** Vocabulary for the constructor *)

(** The state after the statements of [_setup_kerberos] that come before
    the JAAS file: the warning about [gssapi], if it is missing, and the
    two Kerberos variables of the process environment. *)
Definition kerberos_environment (h : Host) (s : State) : State :=
  set_environ <["KRB5CCNAME" := "FILE:/tmp/krb5cc_" +:+ pretty (getuid h)]>
    (set_environ <["KRB5_CONFIG" := "/etc/krb5.conf"]>
       (if GSSAPI_AVAILABLE h then s
        else set_log
               (λ l, (l ++ [WARNING
                              ("GSSAPI module not available. Kerberos authentication may not work properly. "
                               +:+ "Install gssapi with: pip install gssapi (requires system dependencies)")])%list)
               s)).


(** ** The context manager *)

(** [__enter__] returns [self]. *)
Definition __enter__ : M unit := ret tt.

(** [__exit__] closes the session and returns [None], which a [with]
    statement reads as false: an exception of the body is not suppressed. *)
Definition __exit__ (br : Broker) (exc : option Exception) : M bool :=
  (close br ;; ret false)%M.

(** [with self as kafka: body] on a constructed session.  The value is
    [None] when [__exit__] suppresses an exception of the body. *)
Definition with_statement {A} (br : Broker) (body : M A) : M (option A) :=
  (__enter__ ;;
   (λ s, match body s with
         | (Ok a, s) => (__exit__ br None ;; ret (Some a)) s
         | (Raise e, s) =>
             (suppress <- __exit__ br (Some e) ;;
              if suppress then ret None else raise e) s
         end))%M.

(** [with KafkaKerberosUtility(config_file) as kafka: body] *)
Definition with_utility {A} (h : Host) (br : Broker) (config_file : option string)
    (body : M A) : M (option A) :=
  (__init__ h config_file ;; with_statement br body)%M.

(** The lines [close] logs for the clients of a cache it has closed. *)
Definition closing_lines (kind : string) (cache : list (value * Handle))
  : list LogRecord :=
  map (λ entry, INFO ("Closed " +:+ kind +:+ " for topic: " +:+ py_str entry.1)) cache.

(** ** Sessions that are also closed *)

(** One operation on a session: one of the uses of [session_step], or
    [close]. *)
Inductive session_op (br : Broker) : State → State → Prop :=
| op_use s s' : session_step br s s' → session_op br s s'
| op_close s : session_op br s (snd (close br s)).

(** Every cached handle was constructed for the role and topic it is
    cached under, with the settings the configuration gives. *)
Definition cache_sound (s : State) : Prop :=
  ∀ role topic c,
    cache_get (cache_of role s) topic = Some c →
    ∃ settings,
      settings_of role s = Some settings
      ∧ clients s !! c = Some {| client_role := role; client_topic := topic;
                                 client_settings := settings |}.

(** No handle in a cache has been closed, and what is cached or closed
    is a client that has been constructed. *)
Definition cache_live (s : State) : Prop :=
  (∀ role topic c, (topic, c) ∈ cache_of role s →
                   (c ∉ closed s) ∧ (c < length (clients s))%nat)
  ∧ (∀ c, c ∈ closed s → (c < length (clients s))%nat).

(** ** Handlers and hosts for evaluating the model *)

(** A handler that records the messages it is called with, and fails on
    those that [fails] selects. *)
Definition recording_handler (fails : Message → option Exception)
  : Handler (list Message) :=
  λ message record seen, ((seen ++ [message])%list, fails message).

(** [demo_host] with a configuration file next to the environment. *)
Definition file_host : Host :=
  {| path_exists := λ v, bool_decide (v ∈ [VStr "/etc/security/app.keytab";
                                           VStr "kafka_config.ini"]);
     parser_read := λ _,
       Ok {[ "kafka" := {[ "topic" := "from-file";
                           "service_name" := "kafka-prod";
                           "client_id" := "app-1" ]} ]};
     getenv := getenv demo_host;
     write_file := write_file demo_host;
     open_append := open_append demo_host;
     getuid := getuid demo_host;
     DOTENV_AVAILABLE := true;
     GSSAPI_AVAILABLE := true |}.

(** The configuration that [file_host] resolves to with its file. *)
Definition file_config : gmap string value :=
  match _load_config file_host (Some "kafka_config.ini") with
  | Ok cfg => cfg
  | Raise _ => ∅
  end.

(** [demo_host] with the poll size set in the environment: to nothing,
    and to a number. *)
Definition blank_numeric_host : Host :=
  {| path_exists := path_exists demo_host;
     parser_read := parser_read demo_host;
     getenv := <["KAFKA_MAX_POLL_RECORDS" := EmptyString]> (getenv demo_host);
     write_file := write_file demo_host;
     open_append := open_append demo_host;
     getuid := getuid demo_host;
     DOTENV_AVAILABLE := true;
     GSSAPI_AVAILABLE := true |}.

Definition tuned_host : Host :=
  {| path_exists := path_exists demo_host;
     parser_read := parser_read demo_host;
     getenv := <["KAFKA_MAX_POLL_RECORDS" := "250"]> (getenv demo_host);
     write_file := write_file demo_host;
     open_append := open_append demo_host;
     getuid := getuid demo_host;
     DOTENV_AVAILABLE := true;
     GSSAPI_AVAILABLE := true |}.

Definition tuned_config : gmap string value :=
  match _load_config tuned_host None with
  | Ok cfg => cfg
  | Raise _ => ∅
  end.

(** [demo_host] on a file system where [/tmp] cannot be written. *)
Definition readonly_host : Host :=
  {| path_exists := path_exists demo_host;
     parser_read := parser_read demo_host;
     getenv := getenv demo_host;
     write_file := λ path _,
       Some (Exc OSErrorT ("[Errno 13] Permission denied: '" +:+ path +:+ "'"));
     open_append := open_append demo_host;
     getuid := getuid demo_host;
     DOTENV_AVAILABLE := true;
     GSSAPI_AVAILABLE := true |}.

(** [demo_host] with the JAAS file given by the environment. *)
Definition jaas_host : Host :=
  {| path_exists := path_exists demo_host;
     parser_read := parser_read demo_host;
     getenv := <["KAFKA_JAAS_CONFIG_PATH" := "/etc/kafka/jaas.conf"]> (getenv demo_host);
     write_file := write_file readonly_host;
     open_append := open_append demo_host;
     getuid := getuid demo_host;
     DOTENV_AVAILABLE := true;
     GSSAPI_AVAILABLE := false |}.

(** The configuration that [jaas_host] resolves to. *)
Definition jaas_config : gmap string value :=
  match _load_config jaas_host None with
  | Ok cfg => cfg
  | Raise _ => ∅
  end.

(** [demo_host] with a configuration file that gives a path of the JAAS
    file with a NUL character in it. *)
Definition nul_path_host : Host :=
  {| path_exists := λ v, bool_decide (v ∈ [VStr "/etc/security/app.keytab";
                                           VStr "kafka_config.ini"]);
     parser_read := λ _,
       Ok {[ "kafka" := {[ "jaas_config_path"
                           := "/etc/kafka/jaas" +:+ String zero ".conf" ]} ]};
     getenv := getenv demo_host;
     write_file := write_file demo_host;
     open_append := open_append demo_host;
     getuid := getuid demo_host;
     DOTENV_AVAILABLE := true;
     GSSAPI_AVAILABLE := true |}.

Definition nul_path_config : gmap string value :=
  match _load_config nul_path_host (Some "kafka_config.ini") with
  | Ok cfg => cfg
  | Raise _ => ∅
  end.

(** [demo_host] without [python-dotenv]. *)
Definition bare_host : Host :=
  {| path_exists := path_exists demo_host;
     parser_read := parser_read demo_host;
     getenv := getenv demo_host;
     write_file := write_file demo_host;
     open_append := open_append demo_host;
     getuid := getuid demo_host;
     DOTENV_AVAILABLE := false;
     GSSAPI_AVAILABLE := true |}.

(** [demo_host] with a keytab path that names no file. *)
Definition lost_keytab_host : Host :=
  {| path_exists := λ _, false;
     parser_read := parser_read demo_host;
     getenv := getenv demo_host;
     write_file := write_file demo_host;
     open_append := open_append demo_host;
     getuid := getuid demo_host;
     DOTENV_AVAILABLE := true;
     GSSAPI_AVAILABLE := true |}.


(** A broker no client can connect to. *)
Definition unreachable_broker : Broker :=
  {| connect := λ _ _, Some (Exc KafkaErrorT "NoBrokersAvailable");
     poll := poll (demo_broker []);
     send := send (demo_broker []);
     close_client := close_client (demo_broker []) |}.

(** A broker that serves the given batches and then fails every poll and
    every send. *)
Definition failing_broker (batches : list Batch) : Broker :=
  {| connect := connect (demo_broker batches);
     poll := λ _ n _,
       if decide (n < length batches)%nat then Ok (nth n batches [])
       else Raise (Exc KafkaErrorT "KafkaTimeoutError");
     send := λ _ _ _ _ _, Raise (Exc KafkaErrorT "KafkaTimeoutError");
     close_client := close_client (demo_broker batches) |}.

(** A broker whose clients cannot be closed. *)
Definition stuck_broker : Broker :=
  {| connect := connect (demo_broker []);
     poll := poll (demo_broker []);
     send := send (demo_broker []);
     close_client := λ _, Some (Exc KafkaErrorT "close timed out") |}.

(** The session of [demo_host] with a producer and a consumer for the
    default topic. *)
Definition demo_both : State :=
  snd (get_handle (demo_broker []) Consumer None demo_producing).
(** * Theorems *)

(** ** Lookups through the stages of [_load_config] *)

Lemma load_file_section h config_file cfg :
  load_file h config_file = Ok cfg → cfg = VStr <$> kafka_section h config_file.
Proof.
  unfold load_file, kafka_section.
  destruct config_file as [path|]; [|intros [= <-]; by rewrite fmap_empty].
  destruct (truthy (VStr path) && path_exists h (VStr path));
    [|intros [= <-]; by rewrite fmap_empty].
  destruct (parser_read h path) as [parser|e]; simpl; [|discriminate].
  destruct (parser !! "kafka") as [section|]; simpl; intros [= <-];
    [done | by rewrite fmap_empty].
Qed.

Lemma overlay_env_notin environ entries (cfg : gmap string value) key :
  key ∉ entries.*1 → overlay_env environ entries cfg !! key = cfg !! key.
Proof.
  revert cfg. induction entries as [|[k var] entries IH]; intros cfg Hnot; [done|].
  simpl in *. apply not_elem_of_cons in Hnot as [Hne Hnot].
  unfold overlay_env in *. simpl. rewrite IH by done.
  destruct (environ !! var); [by rewrite lookup_insert_ne | done].
Qed.

Lemma overlay_env_in environ entries (cfg : gmap string value) key var :
  NoDup entries.*1 → (key, var) ∈ entries →
  overlay_env environ entries cfg !! key =
    match environ !! var with
    | Some v => Some (VStr v)
    | None => cfg !! key
    end.
Proof.
  revert cfg. induction entries as [|[k w] entries IH]; intros cfg Hnd Hin.
  - by apply elem_of_nil in Hin.
  - simpl in Hnd. apply NoDup_cons in Hnd as [Hk Hnd].
    apply elem_of_cons in Hin as [[= -> ->]|Hin].
    + change (overlay_env environ ((k, w) :: entries) cfg)
        with (overlay_env environ entries
                (match environ !! w with Some v => <[k:=VStr v]> cfg | None => cfg end)).
      rewrite overlay_env_notin by done.
      destruct (environ !! w); [by rewrite lookup_insert_eq | done].
    + change (overlay_env environ ((k, w) :: entries) cfg)
        with (overlay_env environ entries
                (match environ !! w with Some v => <[k:=VStr v]> cfg | None => cfg end)).
      rewrite IH by done.
      assert (k ≠ key) as Hne.
      { intros ->. apply Hk. apply list_elem_of_fmap. by exists (key, var). }
      destruct (environ !! var); [done|].
      destruct (environ !! w); [by rewrite lookup_insert_ne | done].
Qed.

Lemma env_config_NoDup : NoDup env_config.*1.
Proof. apply (bool_decide_unpack _). by vm_compute. Qed.

Lemma setdefault_lookup key d (cfg : gmap string value) k :
  setdefault key d cfg !! k =
    match cfg !! k with
    | Some v => Some v
    | None => if decide (key = k) then Some d else None
    end.
Proof.
  unfold setdefault. destruct (cfg !! key) as [v|] eqn:E.
  - destruct (cfg !! k) eqn:Ek; [done|]. case_decide; [|done]. congruence.
  - case_decide as Hk.
    + subst. by rewrite lookup_insert_eq, E.
    + rewrite lookup_insert_ne by done. by destruct (cfg !! k).
Qed.

Lemma set_defaults_lookup (cfg : gmap string value) k :
  set_defaults cfg !! k =
    match cfg !! k with
    | Some v => Some v
    | None => VStr <$> default_value k
    end.
Proof.
  unfold set_defaults. rewrite !setdefault_lookup.
  destruct (cfg !! k); [done|]. unfold default_value.
  repeat (case_decide; [subst; try done|]); try done.
Qed.

Lemma before_conversion h config_file cfg key var :
  load_file h config_file = Ok cfg →
  (key, var) ∈ env_config →
  set_defaults (overlay_env (getenv h) env_config cfg) !! key
  = VStr <$> chosen h config_file key var.
Proof.
  intros Hfile Hin.
  rewrite set_defaults_lookup.
  rewrite (overlay_env_in _ _ _ _ _ env_config_NoDup Hin).
  apply load_file_section in Hfile. subst cfg. rewrite lookup_fmap.
  unfold chosen. destruct (getenv h !! var); [done|].
  by destruct (kafka_section h config_file !! key).
Qed.

Lemma convert_int_Ok key (cfg cfg' : gmap string value) :
  convert_int key cfg = Ok cfg' →
  (∀ k, k ≠ key → cfg' !! k = cfg !! k)
  ∧ match cfg !! key with
    | Some v => ∃ z, int_of_value v = Ok z ∧ cfg' !! key = Some (VInt z)
    | None => cfg' !! key = None
    end.
Proof.
  unfold convert_int. destruct (cfg !! key) as [v|] eqn:E.
  - destruct (int_of_value v) as [z|e] eqn:Ez; cbn [rbind]; [|discriminate].
    intros [= <-]. split.
    + intros k Hk. by rewrite lookup_insert_ne.
    + exists z. by rewrite lookup_insert_eq.
  - intros [= <-]. by rewrite E.
Qed.

Lemma convert_int_Raise key (cfg : gmap string value) e :
  convert_int key cfg = Raise e →
  ∃ s, cfg !! key = Some (VStr s) ∧ py_int s = None ∧ e = ValueError s.
Proof.
  unfold convert_int. destruct (cfg !! key) as [[s|z]|]; cbn [rbind int_of_value];
    try discriminate.
  destruct (py_int s) eqn:E; [discriminate|]. intros [= <-]. by exists s.
Qed.

Lemma int_of_value_VStr s z : int_of_value (VStr s) = Ok z ↔ py_int s = Some z.
Proof.
  cbn [int_of_value]. destruct (py_int s); split; congruence.
Qed.

(** The stages of a successful [_load_config]. *)
Lemma load_config_stages h config_file cfg :
  _load_config h config_file = Ok cfg →
  ∃ c0 c1 c2,
    load_file h config_file = Ok c0
    ∧ convert_int "max_poll_records"
        (set_defaults (overlay_env (getenv h) env_config c0)) = Ok c1
    ∧ convert_int "session_timeout_ms" c1 = Ok c2
    ∧ convert_int "heartbeat_interval_ms" c2 = Ok cfg.
Proof.
  unfold _load_config.
  destruct (load_file h config_file) as [c0|]; cbn [rbind]; [|discriminate].
  destruct (convert_int "max_poll_records" _) as [c1|] eqn:E1; cbn [rbind]; [|discriminate].
  destruct (convert_int "session_timeout_ms" c1) as [c2|] eqn:E2; cbn [rbind]; [|discriminate].
  destruct (convert_int "heartbeat_interval_ms" c2) as [c3|] eqn:E3; cbn [rbind]; [|discriminate].
  intros [= <-]. exists c0, c1, c2. auto.
Qed.

Lemma coerce_string key s :
  key ∉ numeric_keys → coerce key s = Some (VStr s).
Proof. intros Hk. unfold coerce. by rewrite bool_decide_eq_false_2. Qed.

Lemma coerce_numeric key s :
  key ∈ numeric_keys → coerce key s = VInt <$> py_int s.
Proof. intros Hk. unfold coerce. by rewrite bool_decide_eq_true_2. Qed.

(** Where the three conversions leave each key. *)
Lemma conversions_lookup (pre c1 c2 cfg : gmap string value) key :
  convert_int "max_poll_records" pre = Ok c1 →
  convert_int "session_timeout_ms" c1 = Ok c2 →
  convert_int "heartbeat_interval_ms" c2 = Ok cfg →
  cfg !! key =
    match pre !! key with
    | Some v =>
        if bool_decide (key ∈ numeric_keys) then
          match int_of_value v with
          | Ok z => Some (VInt z)
          | Raise _ => None
          end
        else Some v
    | None => None
    end.
Proof.
  intros H1 H2 H3.
  apply convert_int_Ok in H1 as [H1o H1k].
  apply convert_int_Ok in H2 as [H2o H2k].
  apply convert_int_Ok in H3 as [H3o H3k].
  destruct (decide (key = "heartbeat_interval_ms")) as [->|N3].
  { rewrite H2o, H1o in H3k by done.
    rewrite bool_decide_eq_true_2 by (apply (bool_decide_unpack _); by vm_compute).
    destruct (pre !! "heartbeat_interval_ms"); [|done].
    destruct H3k as (z & -> & ->). done. }
  rewrite H3o by done.
  destruct (decide (key = "session_timeout_ms")) as [->|N2].
  { rewrite H1o in H2k by done.
    rewrite bool_decide_eq_true_2 by (apply (bool_decide_unpack _); by vm_compute).
    destruct (pre !! "session_timeout_ms"); [|done].
    destruct H2k as (z & -> & ->). done. }
  rewrite H2o by done.
  destruct (decide (key = "max_poll_records")) as [->|N1].
  { rewrite bool_decide_eq_true_2 by (apply (bool_decide_unpack _); by vm_compute).
    destruct (pre !! "max_poll_records"); [|done].
    destruct H1k as (z & -> & ->). done. }
  rewrite H1o by done.
  rewrite bool_decide_eq_false_2; [by destruct (pre !! key)|].
  unfold numeric_keys. rewrite !not_elem_of_cons. split_and!; try done.
  apply not_elem_of_nil.
Qed.

(** The resolved value of a recognised key, for any successful load. *)
Lemma load_config_lookup h config_file cfg key var :
  _load_config h config_file = Ok cfg →
  (key, var) ∈ env_config →
  cfg !! key = chosen h config_file key var ≫= coerce key.
Proof.
  intros Hload Hin.
  destruct (load_config_stages _ _ _ Hload) as (c0 & c1 & c2 & H0 & H1 & H2 & H3).
  rewrite (conversions_lookup _ _ _ _ key H1 H2 H3).
  rewrite (before_conversion h config_file c0 key var H0 Hin).
  destruct (chosen h config_file key var) as [s|]; [|done].
  change (VStr <$> Some s) with (Some (VStr s)).
  change (Some s ≫= coerce key) with (coerce key s).
  unfold coerce. cbn [int_of_value].
  destruct (bool_decide (key ∈ numeric_keys)); [|done].
  by destruct (py_int s).
Qed.

(** A result that evaluates to [Ok] is [Ok] of its payload; this keeps large
    states out of the terms that evaluation has to compare. *)
Lemma result_is_Ok {A} (r : result A) (d : A) :
  match r with Ok _ => true | Raise _ => false end = true →
  r = Ok (match r with Ok a => a | Raise _ => d end).
Proof. destruct r; [reflexivity | discriminate]. Qed.

Lemma pair_of_fst {A B} (p : A * B) (a : A) : fst p = a → p = (a, snd p).
Proof. destruct p. simpl. by intros ->. Qed.




(** * Validation *)


Lemma missing_params_elem cfg p :
  p ∈ missing_params cfg ↔ p ∈ required_params ∧ not_get cfg p = true.
Proof.
  unfold missing_params. rewrite !list_elem_of_In. apply filter_In.
Qed.

(** The four tests behind [missing_params]. *)
Lemma missing_params_nil cfg :
  missing_params cfg = [] ↔ ∀ p, p ∈ required_params → not_get cfg p = false.
Proof.
  split.
  - intros Hnil p Hp. destruct (not_get cfg p) eqn:E; [|done].
    assert (p ∈ missing_params cfg) as Hin by (by apply missing_params_elem).
    rewrite Hnil in Hin. by apply elem_of_nil in Hin.
  - intros Hall. destruct (missing_params cfg) as [|p l] eqn:E; [done|].
    assert (p ∈ missing_params cfg) as Hin by (rewrite E; left).
    apply missing_params_elem in Hin as [Hp Ht]. by rewrite Hall in Ht.
Qed.

Lemma validate_missing h cfg :
  missing_params cfg ≠ [] →
  _validate_config h cfg = Raise (MissingRequired (missing_params cfg)).
Proof.
  unfold _validate_config. by destruct (missing_params cfg).
Qed.




(** The [if not self.config['bootstrap_servers']] test is never the one
    that fails. *)
Lemma validate_never_EmptyBrokerList h cfg :
  _validate_config h cfg ≠ Raise EmptyBrokerList.
Proof.
  unfold _validate_config.
  destruct (missing_params cfg) as [|p l] eqn:E.
  - pose proof (proj1 (missing_params_nil cfg) E "bootstrap_servers") as Hb.
    unfold not_get in Hb. unfold getitem.
    destruct (cfg !! "keytab_path") as [kp|]; cbn [rbind]; [|discriminate].
    destruct (path_exists h kp); cbn [negb].
    + destruct (cfg !! "bootstrap_servers") as [bs|]; cbn [rbind]; [|discriminate].
      rewrite Hb by (unfold required_params; left). discriminate.
    + unfold KeytabNotFound, EmptyBrokerList, KafkaKerberosError.
      intros [= H]; simpl in H; discriminate H.
  - unfold MissingRequired, EmptyBrokerList, KafkaKerberosError.
    intros [= H]; simpl in H; discriminate H.
Qed.

(** In a resolved configuration the required settings are strings. *)
Lemma required_is_string h config_file cfg p v :
  _load_config h config_file = Ok cfg →
  p ∈ required_params → cfg !! p = Some v → ∃ s, v = VStr s.
Proof.
  intros Hload Hp Hv.
  assert (∃ var, (p, var) ∈ env_config ∧ p ∉ numeric_keys) as (var & Hin & Hnum).
  { unfold required_params in Hp.
    repeat (apply elem_of_cons in Hp as [->|Hp]);
      [ exists "KAFKA_BOOTSTRAP_SERVERS" | exists "KAFKA_TOPIC"
      | exists "KAFKA_KEYTAB_PATH" | exists "KAFKA_PRINCIPAL"
      | by apply elem_of_nil in Hp ];
      (split; apply (bool_decide_unpack _); by vm_compute). }
  rewrite (load_config_lookup h config_file cfg p var Hload Hin) in Hv.
  destruct (chosen h config_file p var) as [s|]; [|discriminate].
  change (coerce p s = Some v) in Hv. rewrite coerce_string in Hv by done.
  exists s. congruence.
Qed.





(** C3, as the code has it.  A configuration whose broker list is the
    empty string, the other three required settings being present and
    non-empty, fails validation with the missing-parameters error naming
    exactly [bootstrap_servers]; and no configuration at all makes
    [_validate_config] raise the empty-broker-list error. *)
Theorem empty_broker_list_is_missing h cfg :
  cfg !! "bootstrap_servers" = Some (VStr EmptyString) →
  (∀ p, p ∈ ["topic"; "keytab_path"; "principal"] →
        ∃ v, cfg !! p = Some v ∧ truthy v = true) →
  _validate_config h cfg = Raise (MissingRequired ["bootstrap_servers"])
  ∧ ∀ h' cfg', _validate_config h' cfg' ≠ Raise EmptyBrokerList.
Proof.
  intros Hb Hothers. split; [|intros; apply validate_never_EmptyBrokerList].
  assert (missing_params cfg = ["bootstrap_servers"]) as Hm.
  { unfold missing_params, required_params. cbn [List.filter].
    unfold not_get at 1. rewrite Hb. cbn [truthy String.eqb negb].
    destruct (Hothers "topic") as (v1 & E1 & T1); [set_solver|].
    destruct (Hothers "keytab_path") as (v2 & E2 & T2); [set_solver|].
    destruct (Hothers "principal") as (v3 & E3 & T3); [set_solver|].
    unfold not_get. by rewrite E1, E2, E3, T1, T2, T3. }
  rewrite <- Hm. apply validate_missing. by rewrite Hm.
Qed.

Lemma empty_broker_list_is_missing_witness :
  empty_broker_config !! "bootstrap_servers" = Some (VStr EmptyString)
  ∧ _validate_config demo_host empty_broker_config
    = Raise (MissingRequired ["bootstrap_servers"]).
Proof.
  assert (∀ p, p ∈ ["topic"; "keytab_path"; "principal"] →
               ∃ v, empty_broker_config !! p = Some v ∧ truthy v = true) as Hothers.
  { intros p Hp.
    repeat (apply elem_of_cons in Hp as [->|Hp]).
    - exists (VStr "events"). split; vm_compute; reflexivity.
    - exists (VStr "/etc/security/app.keytab"). split; vm_compute; reflexivity.
    - exists (VStr "app@EXAMPLE.COM"). split; vm_compute; reflexivity.
    - exfalso. exact (proj1 (elem_of_nil p) Hp). }
  assert (empty_broker_config !! "bootstrap_servers" = Some (VStr EmptyString)) as Hb
    by (vm_compute; reflexivity).
  split; [exact Hb|].
  exact (proj1 (empty_broker_list_is_missing demo_host empty_broker_config Hb Hothers)).
Defined.

(** C3 as stated fails: in the configuration resolved from the environment
    of [test_empty_bootstrap_servers] the broker list is present and empty,
    the keytab exists, and validation raises the missing-parameters error,
    which is not the empty-broker-list error. *)
Lemma empty_broker_list_counterexample :
  _load_config empty_broker_host None = Ok empty_broker_config
  ∧ empty_broker_config !! "bootstrap_servers" = Some (VStr EmptyString)
  ∧ empty_broker_config !! "topic" = Some (VStr "events")
  ∧ empty_broker_config !! "principal" = Some (VStr "app@EXAMPLE.COM")
  ∧ empty_broker_config !! "keytab_path" = Some (VStr "/etc/security/app.keytab")
  ∧ path_exists empty_broker_host (VStr "/etc/security/app.keytab") = true
  ∧ _validate_config empty_broker_host empty_broker_config
    = Raise (MissingRequired ["bootstrap_servers"])
  ∧ _validate_config empty_broker_host empty_broker_config ≠ Raise EmptyBrokerList.
Proof.
  split; [apply (result_is_Ok _ ∅); vm_compute; reflexivity|].
  repeat (split; [vm_compute; reflexivity|]).
  apply validate_never_EmptyBrokerList.
Qed.

(** * Numeric settings *)

Lemma conversions_raise (pre : gmap string value) key s :
  key ∈ numeric_keys → pre !! key = Some (VStr s) → py_int s = None →
  ∃ s', py_int s' = None
        ∧ (c1 <- convert_int "max_poll_records" pre ;;
           c2 <- convert_int "session_timeout_ms" c1 ;;
           c3 <- convert_int "heartbeat_interval_ms" c2 ;;
           Ok c3)%result = Raise (ValueError s').
Proof.
  intros Hkey Hpre Hpy.
  destruct (convert_int "max_poll_records" pre) as [c1|e1] eqn:E1; cbn [rbind].
  2: { apply convert_int_Raise in E1 as (s' & _ & Hs' & ->). eauto. }
  destruct (convert_int "session_timeout_ms" c1) as [c2|e2] eqn:E2; cbn [rbind].
  2: { apply convert_int_Raise in E2 as (s' & _ & Hs' & ->). eauto. }
  destruct (convert_int "heartbeat_interval_ms" c2) as [c3|e3] eqn:E3; cbn [rbind].
  2: { apply convert_int_Raise in E3 as (s' & _ & Hs' & ->). eauto. }
  exfalso.
  apply convert_int_Ok in E1 as [H1o H1k].
  apply convert_int_Ok in E2 as [H2o H2k].
  apply convert_int_Ok in E3 as [H3o H3k].
  unfold numeric_keys in Hkey.
  repeat (apply elem_of_cons in Hkey as [->|Hkey]).
  - rewrite Hpre in H1k. destruct H1k as (z & Hz & _).
    apply int_of_value_VStr in Hz. congruence.
  - rewrite H1o, Hpre in H2k by done. destruct H2k as (z & Hz & _).
    apply int_of_value_VStr in Hz. congruence.
  - rewrite H2o, H1o, Hpre in H3k by done. destruct H3k as (z & Hz & _).
    apply int_of_value_VStr in Hz. congruence.
  - by apply elem_of_nil in Hkey.
Qed.

Lemma convert_int_string (cfg : gmap string value) key s z :
  cfg !! key = Some (VStr s) → py_int s = Some z →
  convert_int key cfg = Ok (<[key := VInt z]> cfg).
Proof.
  intros Hk Hz. unfold convert_int. rewrite Hk. cbn [int_of_value].
  by rewrite Hz.
Qed.

Lemma conversions_ok (pre : gmap string value) :
  (∀ key, key ∈ numeric_keys → ∃ s z, pre !! key = Some (VStr s) ∧ py_int s = Some z) →
  ∃ cfg, (c1 <- convert_int "max_poll_records" pre ;;
          c2 <- convert_int "session_timeout_ms" c1 ;;
          c3 <- convert_int "heartbeat_interval_ms" c2 ;;
          Ok c3)%result = Ok cfg
         ∧ ∀ key, key ∈ numeric_keys → ∃ z, cfg !! key = Some (VInt z).
Proof.
  intros Hall.
  destruct (Hall "max_poll_records") as (s1 & z1 & E1 & Z1);
    [unfold numeric_keys; set_solver|].
  destruct (Hall "session_timeout_ms") as (s2 & z2 & E2 & Z2);
    [unfold numeric_keys; set_solver|].
  destruct (Hall "heartbeat_interval_ms") as (s3 & z3 & E3 & Z3);
    [unfold numeric_keys; set_solver|].
  rewrite (convert_int_string pre _ s1 z1) by done. cbn [rbind].
  rewrite (convert_int_string _ "session_timeout_ms" s2 z2)
    by (by rewrite ?lookup_insert_ne by done). cbn [rbind].
  rewrite (convert_int_string _ "heartbeat_interval_ms" s3 z3)
    by (by rewrite ?lookup_insert_ne by done). cbn [rbind].
  eexists. split; [reflexivity|].
  intros key Hkey. unfold numeric_keys in Hkey.
  repeat (apply elem_of_cons in Hkey as [->|Hkey]).
  - exists z1. rewrite !lookup_insert_ne by done. by rewrite lookup_insert_eq.
  - exists z2. rewrite lookup_insert_ne by done. by rewrite lookup_insert_eq.
  - exists z3. by rewrite lookup_insert_eq.
  - by apply elem_of_nil in Hkey.
Qed.

Lemma load_config_conversions h config_file c0 :
  load_file h config_file = Ok c0 →
  _load_config h config_file =
    (c1 <- convert_int "max_poll_records"
             (set_defaults (overlay_env (getenv h) env_config c0)) ;;
     c2 <- convert_int "session_timeout_ms" c1 ;;
     c3 <- convert_int "heartbeat_interval_ms" c2 ;;
     Ok c3)%result.
Proof. intros H0. unfold _load_config. rewrite H0. reflexivity. Qed.

(** The numeric settings always have a chosen string: each has a default. *)
Lemma chosen_numeric h config_file key var :
  key ∈ numeric_keys → ∃ s, chosen h config_file key var = Some s.
Proof.
  intros Hkey. unfold chosen.
  destruct (getenv h !! var) as [v|]; [eauto|].
  destruct (kafka_section h config_file !! key) as [v|]; [eauto|].
  unfold numeric_keys in Hkey.
  repeat (apply elem_of_cons in Hkey as [->|Hkey]);
    [eexists; reflexivity..|by apply elem_of_nil in Hkey].
Qed.

Lemma numeric_entry key :
  key ∈ numeric_keys → ∃ var, (key, var) ∈ env_config.
Proof.
  intros Hkey. unfold numeric_keys in Hkey.
  repeat (apply elem_of_cons in Hkey as [->|Hkey]).
  - exists "KAFKA_MAX_POLL_RECORDS". apply (bool_decide_unpack _). by vm_compute.
  - exists "KAFKA_SESSION_TIMEOUT_MS". apply (bool_decide_unpack _). by vm_compute.
  - exists "KAFKA_HEARTBEAT_INTERVAL_MS". apply (bool_decide_unpack _). by vm_compute.
  - by apply elem_of_nil in Hkey.
Qed.

(** [__init__] has no handler around [_load_config]: what it raises
    reaches the caller as it is. *)
Lemma init_load_raises h config_file e :
  DOTENV_AVAILABLE h = true →
  _load_config h config_file = Raise e →
  fst (__init__ h config_file (fresh h)) = Raise e.
Proof.
  intros Hd Hl. unfold __init__, bind. rewrite Hd. unfold ret, lift.
  rewrite Hl. reflexivity.
Qed.

(** C4, as the code has it.  Provided the configuration file (if any)
    loads: when the string chosen for one of [max_poll_records],
    [session_timeout_ms], [heartbeat_interval_ms] is not an integer
    literal, [_load_config] raises the [ValueError] of [int()] on such a
    string, and [__init__] lets that same exception through to the caller:
    it is not a [KafkaKerberosError]; when all three are integer literals,
    [_load_config] returns a configuration in which the three settings are
    integers. *)
Theorem invalid_numeric_raises_ValueError h config_file c0 :
  load_file h config_file = Ok c0 →
  ((∃ key var s, (key, var) ∈ env_config ∧ key ∈ numeric_keys
                 ∧ chosen h config_file key var = Some s ∧ py_int s = None) →
   ∃ s', py_int s' = None
         ∧ _load_config h config_file = Raise (ValueError s')
         ∧ (DOTENV_AVAILABLE h = true →
            fst (__init__ h config_file (fresh h)) = Raise (ValueError s'))
         ∧ ∀ msg, ValueError s' ≠ KafkaKerberosError msg)
  ∧ ((∀ key var s, (key, var) ∈ env_config → key ∈ numeric_keys →
                   chosen h config_file key var = Some s → py_int s ≠ None) →
     ∃ cfg, _load_config h config_file = Ok cfg
            ∧ ∀ key, key ∈ numeric_keys → ∃ z, cfg !! key = Some (VInt z)).
Proof.
  intros H0.
  pose proof (load_config_conversions h config_file c0 H0) as G.
  pose proof (before_conversion h config_file c0) as Hpre.
  set (pre := set_defaults (overlay_env (getenv h) env_config c0)) in *.
  clearbody pre. split.
  - intros (key & var & s & Hin & Hkey & Hch & Hpy).
    destruct (conversions_raise pre key s Hkey) as (s' & Hs' & Hr); [|done|].
    { rewrite (Hpre key var H0 Hin), Hch. done. }
    rewrite <- G in Hr.
    exists s'. split; [done|]. split; [done|]. split.
    + intros Hd. by apply init_load_raises.
    + intros msg. discriminate.
  - intros Hall. rewrite G. apply conversions_ok. intros key Hkey.
    destruct (numeric_entry key Hkey) as [var Hin].
    destruct (chosen_numeric h config_file key var Hkey) as [s Hch].
    destruct (py_int s) as [z|] eqn:Hz.
    + exists s, z. by rewrite (Hpre key var H0 Hin), Hch.
    + by destruct (Hall key var s Hin Hkey Hch).
Qed.

Lemma invalid_numeric_raises_ValueError_witness :
  (load_file bad_numeric_host None = Ok ∅
   ∧ ∃ s', py_int s' = None
           ∧ _load_config bad_numeric_host None = Raise (ValueError s')
           ∧ (DOTENV_AVAILABLE bad_numeric_host = true →
              fst (__init__ bad_numeric_host None (fresh bad_numeric_host))
              = Raise (ValueError s'))
           ∧ ∀ msg, ValueError s' ≠ KafkaKerberosError msg)
  ∧ (load_file demo_host None = Ok ∅
     ∧ ∃ cfg, _load_config demo_host None = Ok cfg
              ∧ ∀ key, key ∈ numeric_keys → ∃ z, cfg !! key = Some (VInt z)).
Proof.
  split.
  - refine (conj eq_refl
              (proj1 (invalid_numeric_raises_ValueError bad_numeric_host None ∅ eq_refl) _)).
    exists "max_poll_records", "KAFKA_MAX_POLL_RECORDS", "many".
    split; [apply (bool_decide_unpack _); vm_compute; reflexivity|].
    split; [apply (bool_decide_unpack _); vm_compute; reflexivity|].
    split; vm_compute; reflexivity.
  - refine (conj eq_refl
              (proj2 (invalid_numeric_raises_ValueError demo_host None ∅ eq_refl) _)).
    pose (coercible := λ kv : string * string,
            if bool_decide (kv.1 ∈ numeric_keys)
            then match chosen demo_host None kv.1 kv.2 with
                 | Some s => match py_int s with Some _ => true | None => false end
                 | None => true
                 end
            else true).
    assert (forallb coercible env_config = true) as Hall by (vm_compute; reflexivity).
    intros key var s Hin Hkey Hch.
    pose proof (proj1 (forallb_forall coercible env_config) Hall (key, var)
                  (proj1 (list_elem_of_In _ _) Hin)) as Hb.
    unfold coercible in Hb. cbn [fst snd] in Hb.
    rewrite (bool_decide_eq_true_2 _ Hkey), Hch in Hb.
    intros E. rewrite E in Hb. discriminate Hb.
Defined.

(** C4 as stated fails: with [KAFKA_MAX_POLL_RECORDS] set to a word,
    constructing the utility ends in the [ValueError] of [int()], which is
    no [KafkaKerberosError]. *)
Lemma invalid_numeric_counterexample :
  getenv bad_numeric_host !! "KAFKA_MAX_POLL_RECORDS" = Some "many"
  ∧ py_int "many" = None
  ∧ fst (__init__ bad_numeric_host None (fresh bad_numeric_host))
    = Raise (ValueError "many")
  ∧ exc_type (ValueError "many") = ValueErrorT
  ∧ ¬ ∃ msg, fst (__init__ bad_numeric_host None (fresh bad_numeric_host))
             = Raise (KafkaKerberosError msg).
Proof.
  assert (fst (__init__ bad_numeric_host None (fresh bad_numeric_host))
          = Raise (ValueError "many")) as E by (vm_compute; reflexivity).
  split; [vm_compute; reflexivity|].
  split; [vm_compute; reflexivity|].
  split; [exact E|].
  split; [reflexivity|].
  intros [msg Hmsg]. rewrite E in Hmsg. clear E. discriminate Hmsg.
Qed.

(** * The consume loop *)

Lemma erase_log_set_log f s : erase_log (set_log f s) = erase_log s.
Proof. reflexivity. Qed.

Lemma polls_made_erase s s' c :
  erase_log s' = erase_log s → polls_made s' c = polls_made s c.
Proof.
  intros E. unfold polls_made.
  change (polled s') with (polled (erase_log s')).
  by rewrite E.
Qed.

Lemma cap_reached_mono max_messages c c' :
  c ≤ c' → cap_reached max_messages c = true → cap_reached max_messages c' = true.
Proof.
  unfold cap_reached. destruct max_messages as [m|]; [|done].
  rewrite !andb_true_iff, !Z.leb_le. intros ? [? ?]. split; [done|lia].
Qed.

Lemma cap_reached_Some m c :
  cap_reached (Some m) c = true ↔ m ≠ 0 ∧ m ≤ c.
Proof.
  unfold cap_reached.
  rewrite andb_true_iff, negb_true_iff, Z.eqb_neq, Z.leb_le. done.
Qed.

Section loop.
Context {H : Type}.
Variable br : Broker.
Variable message_handler : option (Handler H).
Variable max_messages : option Z.

(** One record: the payload is appended, the count goes up by one, and
    the state changes in its log only. *)
Lemma consume_record_spec record l hs s :
  ∃ hs' s',
    consume_record message_handler record l hs s
    = ({| messages := (messages l ++ [rec_value record])%list;
          message_count := message_count l + 1 |}, hs', s')
    ∧ erase_log s' = erase_log s.
Proof.
  unfold consume_record.
  destruct message_handler as [handler|]; [|by eexists _, _].
  destruct (handler (rec_value record) record hs) as [hs' [e|]]; by eexists _, _.
Qed.

(** A partition's records are all taken as long as the cap is not reached
    before the last of them. *)
Lemma consume_records_all records l hs s :
  (∀ j, 0 < j < Z.of_nat (length records) →
        cap_reached max_messages (message_count l + j) = false) →
  ∃ hs' s',
    consume_records message_handler max_messages records l hs s
    = ({| messages := (messages l ++ payloads records)%list;
          message_count := message_count l + Z.of_nat (length records) |}, hs', s')
    ∧ erase_log s' = erase_log s.
Proof.
  revert l hs s. induction records as [|r rest IH]; intros l hs s Hcap.
  - exists hs, s. split; [|done]. cbn [consume_records payloads map length].
    rewrite app_nil_r, Z.add_0_r. by destruct l.
  - cbn [consume_records].
    destruct (consume_record_spec r l hs s) as (hs1 & s1 & -> & E1).
    cbn [message_count messages].
    destruct rest as [|r' rest'].
    + assert (consume_records message_handler max_messages [] {| messages := (messages l ++ [rec_value r])%list;
                                    message_count := message_count l + 1 |} hs1 s1
              = ({| messages := (messages l ++ [rec_value r])%list;
                    message_count := message_count l + 1 |}, hs1, s1)) as Enil
        by reflexivity.
      exists hs1, s1. split; [|done].
      destruct (cap_reached max_messages (message_count l + 1)); [done|].
      exact Enil.
    + rewrite Hcap by (cbn [length]; lia).
      destruct (IH {| messages := (messages l ++ [rec_value r])%list;
                      message_count := message_count l + 1 |} hs1 s1)
        as (hs2 & s2 & -> & E2).
      { intros j Hj. cbn [message_count].
        replace (message_count l + 1 + j) with (message_count l + (1 + j)) by lia.
        apply Hcap. cbn [length] in *. lia. }
      exists hs2, s2. split; [|congruence].
      cbn [messages message_count].
      rewrite <- app_assoc.
      replace (message_count l + 1 + Z.of_nat (length (r' :: rest')))
        with (message_count l + Z.of_nat (length (r :: r' :: rest')))
        by (cbn [length]; lia).
      reflexivity.
Qed.

(** Whatever the cap, a partition's records leave the state unchanged but
    for the log, never lower the count, and either all of them are taken
    or the cap is reached. *)
Lemma consume_records_any records l hs s :
  ∃ l' hs' s',
    consume_records message_handler max_messages records l hs s = (l', hs', s')
    ∧ erase_log s' = erase_log s
    ∧ message_count l ≤ message_count l'
    ∧ (message_count l' = message_count l + Z.of_nat (length records)
       ∨ cap_reached max_messages (message_count l') = true).
Proof.
  revert l hs s. induction records as [|r rest IH]; intros l hs s.
  - exists l, hs, s. cbn [consume_records length]. split_and!; [done..|left; lia].
  - cbn [consume_records].
    destruct (consume_record_spec r l hs s) as (hs1 & s1 & -> & E1).
    cbn [message_count].
    destruct (cap_reached max_messages (message_count l + 1)) eqn:Ecap.
    + eexists _, hs1, s1. split; [reflexivity|]. cbn [message_count].
      split_and!; [done|lia|by right].
    + destruct (IH {| messages := (messages l ++ [rec_value r])%list;
                      message_count := message_count l + 1 |} hs1 s1)
        as (l2 & hs2 & s2 & -> & E2 & Hle & Hor).
      cbn [message_count] in Hle, Hor.
      exists l2, hs2, s2. split; [done|]. split; [congruence|]. split; [lia|].
      destruct Hor as [->|?]; [left; cbn [length]; lia | by right].
Qed.

Lemma consume_batch_any (b : Batch) l hs s :
  ∃ l' hs' s',
    consume_batch message_handler max_messages b l hs s = (l', hs', s')
    ∧ erase_log s' = erase_log s
    ∧ message_count l ≤ message_count l'
    ∧ (message_count l' = message_count l + Z.of_nat (length (batch_records b))
       ∨ cap_reached max_messages (message_count l') = true).
Proof.
  revert l hs s. induction b as [|[tp records] rest IH]; intros l hs s.
  - exists l, hs, s. cbn [consume_batch]. split_and!; [done..|left].
    unfold batch_records. cbn [map concat length]. lia.
  - cbn [consume_batch].
    destruct (consume_records_any records l hs s)
      as (l1 & hs1 & s1 & -> & E1 & Hle1 & Hor1).
    destruct (IH l1 hs1 s1) as (l2 & hs2 & s2 & -> & E2 & Hle2 & Hor2).
    exists l2, hs2, s2. split; [done|]. split; [congruence|]. split; [lia|].
    destruct Hor2 as [Hex|?]; [|by right].
    destruct Hor1 as [Hex1|Hcap1].
    + left. unfold batch_records in *. cbn [map concat snd].
      rewrite length_app. lia.
    + right. by apply (cap_reached_mono _ (message_count l1)).
Qed.

(** A batch is taken whole as long as the cap is not reached before its
    last record. *)
Lemma consume_batch_all (b : Batch) l hs s :
  (∀ j, 0 < j < Z.of_nat (length (batch_records b)) →
        cap_reached max_messages (message_count l + j) = false) →
  ∃ hs' s',
    consume_batch message_handler max_messages b l hs s
    = ({| messages := (messages l ++ payloads (batch_records b))%list;
          message_count := message_count l + Z.of_nat (length (batch_records b)) |},
       hs', s')
    ∧ erase_log s' = erase_log s.
Proof.
  revert l hs s. induction b as [|[tp records] rest IH]; intros l hs s Hcap.
  - exists hs, s. split; [|done]. cbn [consume_batch].
    unfold batch_records, payloads. cbn [map concat length].
    rewrite app_nil_r, Z.add_0_r. by destruct l.
  - cbn [consume_batch].
    assert (batch_records ((tp, records) :: rest)
            = (records ++ batch_records rest)%list) as Eb by reflexivity.
    rewrite Eb in Hcap |- *. rewrite length_app in Hcap |- *.
    destruct (consume_records_all records l hs s) as (hs1 & s1 & -> & E1).
    { intros j Hj. apply Hcap. lia. }
    destruct (IH {| messages := (messages l ++ payloads records)%list;
                    message_count := message_count l + Z.of_nat (length records) |}
                 hs1 s1) as (hs2 & s2 & -> & E2).
    { intros j Hj. cbn [message_count].
      replace (message_count l + Z.of_nat (length records) + j)
        with (message_count l + (Z.of_nat (length records) + j)) by lia.
      apply Hcap. lia. }
    exists hs2, s2. split; [|congruence].
    cbn [messages message_count]. unfold payloads.
    rewrite map_app, <- app_assoc.
    replace (message_count l + Z.of_nat (length records)
             + Z.of_nat (length (batch_records rest)))
      with (message_count l
            + Z.of_nat (length records + length (batch_records rest))) by lia.
    reflexivity.
Qed.

(** A poll advances the consumer by one call and touches nothing else. *)
Lemma consumer_poll_spec consumer timeout_ms s :
  ∃ s', consumer_poll br consumer timeout_ms s
        = (poll br consumer (polls_made s consumer) timeout_ms, s')
        ∧ polls_made s' consumer = S (polls_made s consumer)
        ∧ config s' = config s ∧ _producers s' = _producers s
        ∧ _consumers s' = _consumers s ∧ clients s' = clients s.
Proof.
  eexists. split; [reflexivity|]. split; [|done].
  unfold polls_made. cbn [polled set_polled]. by rewrite lookup_insert_eq.
Qed.

Lemma records_of_cons b (bs : list Batch) :
  records_of (b :: bs) = (batch_records b ++ records_of bs)%list.
Proof. reflexivity. Qed.

(** As long as the cap is out of reach, the loop takes the batches that
    successive polls return, whole and in order, one poll per batch. *)
Lemma consume_loop_prefix consumer timeout_ms (bs : list Batch) :
  ∀ limit l hs s fuel,
    (∀ i, (i < length bs)%nat →
          poll br consumer (polls_made s consumer + i) timeout_ms = Ok (nth i bs [])) →
    Forall (λ b, b ≠ []) bs →
    (∀ j, 0 ≤ j < limit → cap_reached max_messages (message_count l + j) = false) →
    (∀ k, (k < length bs)%nat → Z.of_nat (length (records_of (take k bs))) < limit) →
    Z.of_nat (length (records_of bs)) ≤ limit →
    ∃ hs' s',
      consume_loop br message_handler max_messages (length bs + fuel)
        consumer timeout_ms l hs s
      = consume_loop br message_handler max_messages fuel consumer timeout_ms
          {| messages := (messages l ++ payloads (records_of bs))%list;
             message_count := message_count l + Z.of_nat (length (records_of bs)) |}
          hs' s'
      ∧ polls_made s' consumer = (polls_made s consumer + length bs)%nat
      ∧ config s' = config s ∧ _producers s' = _producers s
      ∧ _consumers s' = _consumers s ∧ clients s' = clients s.
Proof.
  induction bs as [|b bs' IH]; intros limit l hs s fuel Hpoll Hne Hcap Hk Htot.
  - exists hs, s. split; [|by rewrite Nat.add_0_r].
    change (length [] + fuel)%nat with fuel.
    change (records_of []) with (@nil ConsumerRecord).
    cbn [payloads map length]. rewrite app_nil_r, Z.add_0_r. by destruct l.
  - change (length (b :: bs') + fuel)%nat with (S (length bs' + fuel)).
    cbn [consume_loop].
    rewrite records_of_cons in Htot. rewrite length_app, Nat2Z.inj_add in Htot.
    assert (cap_reached max_messages (message_count l) = false) as Hc0.
    { rewrite <- (Z.add_0_r (message_count l)). apply Hcap.
      specialize (Hk 0%nat). cbn [take length] in Hk.
      change (records_of []) with (@nil ConsumerRecord) in Hk. cbn [length] in Hk. lia. }
    rewrite Hc0.
    destruct (consumer_poll_spec consumer timeout_ms s)
      as (s1 & -> & Hp1 & Hf1 & Hf2 & Hf3 & Hf4).
    pose proof (Hpoll 0%nat) as Hp0. rewrite Nat.add_0_r in Hp0.
    rewrite Hp0 by (cbn [length]; lia). cbn [nth].
    apply Forall_cons in Hne as [Hb Hne].
    destruct (consume_batch_all b l hs s1) as (hs2 & s2 & -> & E2).
    { intros j Hj. apply Hcap. lia. }
    destruct b as [|x b0]; [done|].
    destruct (IH (limit - Z.of_nat (length (batch_records (x :: b0))))
                 {| messages := (messages l ++ payloads (batch_records (x :: b0)))%list;
                    message_count := message_count l
                                     + Z.of_nat (length (batch_records (x :: b0))) |}
                 hs2 s2 fuel)
      as (hs3 & s3 & -> & Hp3 & Hg1 & Hg2 & Hg3 & Hg4).
    + intros i Hi. rewrite (polls_made_erase _ _ _ E2), Hp1.
      replace (S (polls_made s consumer) + i)%nat
        with (polls_made s consumer + S i)%nat by lia.
      rewrite Hpoll by (cbn [length]; lia). reflexivity.
    + done.
    + intros j Hj. cbn [message_count].
      replace (message_count l + Z.of_nat (length (batch_records (x :: b0))) + j)
        with (message_count l + (Z.of_nat (length (batch_records (x :: b0))) + j)) by lia.
      apply Hcap. lia.
    + intros k Hlt. specialize (Hk (S k)). cbn [take length] in Hk.
      rewrite records_of_cons, length_app, Nat2Z.inj_add in Hk. lia.
    + lia.
    + exists hs3, s3. split.
      * cbn [messages message_count]. rewrite records_of_cons.
        unfold payloads. rewrite map_app, length_app, Nat2Z.inj_add.
        rewrite <- app_assoc, Z.add_assoc. reflexivity.
      * rewrite Hp3, (polls_made_erase _ _ _ E2), Hp1.
        split; [cbn [length]; lia|].
        rewrite Hg1, Hg2, Hg3, Hg4, <- Hf1, <- Hf2, <- Hf3, <- Hf4.
        split_and!.
        -- exact (f_equal config E2).
        -- exact (f_equal _producers E2).
        -- exact (f_equal _consumers E2).
        -- exact (f_equal clients E2).
Qed.

(** One iteration of [while True]. *)
Lemma consume_loop_S fuel consumer timeout_ms l hs s :
  consume_loop br message_handler max_messages (S fuel) consumer timeout_ms l hs s
  = if cap_reached max_messages (message_count l) then Some (Ok l, hs, s)
    else
      match consumer_poll br consumer timeout_ms s with
      | (Raise e, s) => Some (Raise e, hs, s)
      | (Ok message_batch, s) =>
          let '(l, hs, s) :=
            consume_batch message_handler max_messages message_batch l hs s in
          match message_batch with
          | [] => Some (Ok l, hs, s)
          | _ :: _ =>
              consume_loop br message_handler max_messages fuel consumer timeout_ms l hs s
          end
      end.
Proof. reflexivity. Qed.

(** However the loop ends, it has changed nothing of the session but the
    log and the consumer's position. *)
Lemma consume_loop_frame fuel consumer timeout_ms :
  ∀ l hs s r hs' s',
    consume_loop br message_handler max_messages fuel consumer timeout_ms l hs s
    = Some (r, hs', s') →
    config s' = config s ∧ _producers s' = _producers s
    ∧ _consumers s' = _consumers s ∧ clients s' = clients s
    ∧ (polls_made s consumer ≤ polls_made s' consumer)%nat.
Proof.
  induction fuel as [|fuel IH]; intros l hs s r hs' s'; [discriminate|].
  cbn [consume_loop].
  destruct (cap_reached max_messages (message_count l)).
  { intros [= <- <- <-]. split_and!; done. }
  destruct (consumer_poll_spec consumer timeout_ms s)
    as (s1 & -> & Hp1 & Hf1 & Hf2 & Hf3 & Hf4).
  destruct (poll br consumer (polls_made s consumer) timeout_ms) as [b|e].
  2: { intros [= <- <- <-]. split_and!; [done..|lia]. }
  destruct (consume_batch_any b l hs s1) as (l2 & hs2 & s2 & -> & E2 & _).
  assert (config s2 = config s ∧ _producers s2 = _producers s
          ∧ _consumers s2 = _consumers s ∧ clients s2 = clients s
          ∧ (polls_made s consumer ≤ polls_made s2 consumer)%nat) as Hs2.
  { rewrite (polls_made_erase _ _ _ E2), Hp1, <- Hf1, <- Hf2, <- Hf3, <- Hf4.
    split_and!; [exact (f_equal config E2) | exact (f_equal _producers E2)
                | exact (f_equal _consumers E2) | exact (f_equal clients E2) | lia]. }
  destruct b as [|x b0].
  - by intros [= <- <- <-].
  - intros Hloop. apply IH in Hloop.
    destruct Hs2 as (A1 & A2 & A3 & A4 & A5), Hloop as (B1 & B2 & B3 & B4 & B5).
    split_and!; [congruence..|lia].
Qed.

(** The loop ends at the latest with the first poll that returns the
    empty batch. *)
Lemma consume_loop_stops_at_empty consumer timeout_ms n :
  ∀ l hs s,
    poll br consumer (polls_made s consumer + n) timeout_ms = Ok [] →
    ∃ r hs' s',
      consume_loop br message_handler max_messages (S n) consumer timeout_ms l hs s
      = Some (r, hs', s')
      ∧ (polls_made s' consumer ≤ polls_made s consumer + S n)%nat.
Proof.
  induction n as [|n IH]; intros l hs s Hempty.
  - rewrite Nat.add_0_r in Hempty. cbn [consume_loop].
    destruct (cap_reached max_messages (message_count l)).
    { eexists _, _, _. split; [reflexivity|lia]. }
    destruct (consumer_poll_spec consumer timeout_ms s) as (s1 & -> & Hp1 & _).
    rewrite Hempty. cbn [consume_batch].
    eexists _, _, _. split; [reflexivity|lia].
  - rewrite consume_loop_S.
    destruct (cap_reached max_messages (message_count l)).
    { eexists _, _, _. split; [reflexivity|lia]. }
    destruct (consumer_poll_spec consumer timeout_ms s) as (s1 & -> & Hp1 & _).
    destruct (poll br consumer (polls_made s consumer) timeout_ms) as [b|e].
    2: { eexists _, _, _. split; [reflexivity|lia]. }
    destruct (consume_batch_any b l hs s1) as (l2 & hs2 & s2 & -> & E2 & _).
    pose proof (polls_made_erase _ _ consumer E2) as Hp2.
    destruct b as [|x b0].
    { eexists _, _, _. split; [reflexivity|lia]. }
    destruct (IH l2 hs2 s2) as (r & hs3 & s3 & -> & Hle).
    { rewrite Hp2, Hp1.
      replace (S (polls_made s consumer) + n)%nat
        with (polls_made s consumer + S n)%nat by lia. done. }
    eexists _, _, _. split; [reflexivity|lia].
Qed.

(** The loop ends once the batches polled hold enough records to reach
    the cap. *)
Lemma consume_loop_stops_at_cap consumer timeout_ms m (bs : list Batch) :
  max_messages = Some m → 0 < m →
  ∀ l hs s,
    (∀ i, (i < length bs)%nat →
          poll br consumer (polls_made s consumer + i) timeout_ms = Ok (nth i bs [])) →
    m ≤ message_count l + Z.of_nat (length (records_of bs)) →
    ∃ r hs' s',
      consume_loop br message_handler max_messages (S (length bs))
        consumer timeout_ms l hs s
      = Some (r, hs', s').
Proof.
  intros Hmax Hm.
  induction bs as [|b bs' IH]; intros l hs s Hpoll Htot.
  - cbn [consume_loop length].
    change (records_of []) with (@nil ConsumerRecord) in Htot. cbn [length] in Htot.
    assert (cap_reached max_messages (message_count l) = true) as ->.
    { rewrite Hmax. apply cap_reached_Some. lia. }
    by eexists _, _, _.
  - change (S (length (b :: bs'))) with (S (S (length bs'))).
    rewrite consume_loop_S.
    destruct (cap_reached max_messages (message_count l)); [by eexists _, _, _|].
    destruct (consumer_poll_spec consumer timeout_ms s) as (s1 & -> & Hp1 & _).
    pose proof (Hpoll 0%nat) as Hp0. rewrite Nat.add_0_r in Hp0.
    rewrite Hp0 by (cbn [length]; lia). cbn [nth].
    destruct (consume_batch_any b l hs s1)
      as (l2 & hs2 & s2 & -> & E2 & Hle & Hor).
    pose proof (polls_made_erase _ _ consumer E2) as Hp2.
    destruct b as [|x b0]; [by eexists _, _, _|].
    apply IH.
    + intros i Hi. rewrite Hp2, Hp1.
      replace (S (polls_made s consumer) + i)%nat
        with (polls_made s consumer + S i)%nat by lia.
      rewrite Hpoll by (cbn [length]; lia). reflexivity.
    + rewrite records_of_cons, length_app, Nat2Z.inj_add in Htot.
      destruct Hor as [->|Hcap]; [lia|].
      rewrite Hmax in Hcap. apply cap_reached_Some in Hcap. lia.
Qed.
End loop.

(** ** Two handlers side by side *)

Section two_handlers.
Context {H1 H2 : Type}.
Variable br : Broker.
Variable handler1 : option (Handler H1).
Variable handler2 : option (Handler H2).
Variable max_messages : option Z.

Lemma consume_records_indep records :
  ∀ l hs1 hs2 s1 s2,
    erase_log s1 = erase_log s2 →
    ∃ l' hs1' hs2' s1' s2',
      consume_records handler1 max_messages records l hs1 s1 = (l', hs1', s1')
      ∧ consume_records handler2 max_messages records l hs2 s2 = (l', hs2', s2')
      ∧ erase_log s1' = erase_log s2'.
Proof.
  induction records as [|r rest IH]; intros l hs1 hs2 s1 s2 E.
  - by exists l, hs1, hs2, s1, s2.
  - cbn [consume_records].
    destruct (consume_record_spec handler1 r l hs1 s1) as (h1 & t1 & -> & E1).
    destruct (consume_record_spec handler2 r l hs2 s2) as (h2 & t2 & -> & E2).
    cbn [message_count].
    destruct (cap_reached max_messages (message_count l + 1)).
    + eexists _, h1, h2, t1, t2. split_and!; [done..|congruence].
    + apply IH. congruence.
Qed.

Lemma consume_batch_indep (b : Batch) :
  ∀ l hs1 hs2 s1 s2,
    erase_log s1 = erase_log s2 →
    ∃ l' hs1' hs2' s1' s2',
      consume_batch handler1 max_messages b l hs1 s1 = (l', hs1', s1')
      ∧ consume_batch handler2 max_messages b l hs2 s2 = (l', hs2', s2')
      ∧ erase_log s1' = erase_log s2'.
Proof.
  induction b as [|[tp records] rest IH]; intros l hs1 hs2 s1 s2 E.
  - by exists l, hs1, hs2, s1, s2.
  - cbn [consume_batch].
    destruct (consume_records_indep records l hs1 hs2 s1 s2 E)
      as (l' & h1 & h2 & t1 & t2 & -> & -> & E').
    by apply IH.
Qed.

Lemma consumer_poll_indep consumer timeout_ms s1 s2 :
  erase_log s1 = erase_log s2 →
  fst (consumer_poll br consumer timeout_ms s1)
  = fst (consumer_poll br consumer timeout_ms s2)
  ∧ erase_log (snd (consumer_poll br consumer timeout_ms s1))
    = erase_log (snd (consumer_poll br consumer timeout_ms s2)).
Proof.
  intros E. unfold consumer_poll. cbn [fst snd].
  change (polled s1) with (polled (erase_log s1)).
  change (polled s2) with (polled (erase_log s2)).
  rewrite E. split; [done|].
  change (erase_log (set_polled ?f s1)) with (set_polled f (erase_log s1)).
  by rewrite E.
Qed.

Lemma consume_loop_indep fuel consumer timeout_ms :
  ∀ l hs1 hs2 s1 s2,
    erase_log s1 = erase_log s2 →
    observable (consume_loop br handler1 max_messages fuel consumer timeout_ms l hs1 s1)
    = observable (consume_loop br handler2 max_messages fuel consumer timeout_ms l hs2 s2).
Proof.
  induction fuel as [|fuel IH]; intros l hs1 hs2 s1 s2 E; [done|].
  rewrite !consume_loop_S.
  destruct (cap_reached max_messages (message_count l)).
  { cbn [observable]. by rewrite E. }
  destruct (consumer_poll_indep consumer timeout_ms s1 s2 E) as [Er Es].
  destruct (consumer_poll br consumer timeout_ms s1) as [r1 t1].
  destruct (consumer_poll br consumer timeout_ms s2) as [r2 t2].
  cbn [fst snd] in Er, Es. subst r2.
  destruct r1 as [b|e]; [|cbn [observable]; by rewrite Es].
  destruct (consume_batch_indep b l hs1 hs2 t1 t2 Es)
    as (l' & h1 & h2 & u1 & u2 & -> & -> & E').
  destruct b; [cbn [observable]; by rewrite E'|].
  by apply IH.
Qed.
End two_handlers.

(** * The handle caches *)

Lemma cache_get_set cache topic c : cache_get (cache_set cache topic c) topic = Some c.
Proof.
  induction cache as [|[k c'] rest IH]; cbn [cache_set cache_get].
  - by rewrite decide_True.
  - destruct (decide (k = topic)) as [->|Hne]; cbn [cache_get].
    + by rewrite decide_True.
    + by rewrite decide_False.
Qed.

Lemma cache_get_set_ne cache topic topic' c :
  topic ≠ topic' → cache_get (cache_set cache topic c) topic' = cache_get cache topic'.
Proof.
  intros Hne. induction cache as [|[k c'] rest IH]; cbn [cache_set cache_get].
  - by rewrite decide_False.
  - destruct (decide (k = topic)) as [->|Hk]; cbn [cache_get].
    + by rewrite !decide_False.
    + by rewrite IH.
Qed.

Lemma topic_or_default_state topic s :
  snd (topic_or_default topic s) = s.
Proof.
  unfold topic_or_default. destruct topic as [t|]; [destruct (truthy t)|]; reflexivity.
Qed.

(** A topic that has been resolved resolves to itself. *)
Lemma topic_or_default_idem topic s t :
  fst (topic_or_default topic s) = Ok t →
  topic_or_default (Some t) s = (Ok t, s).
Proof.
  unfold topic_or_default.
  destruct topic as [t'|].
  - destruct (truthy t') eqn:Et.
    + cbn [fst ret]. intros [= ->]. by rewrite Et.
    + unfold config_getitem. cbn [fst]. intros Hg.
      destruct (truthy t); [done|]. by rewrite Hg.
  - unfold config_getitem. cbn [fst]. intros Hg.
    destruct (truthy t); [done|]. by rewrite Hg.
Qed.

Lemma get_producer_config_state s : snd (_get_producer_config s) = s.
Proof.
  unfold _get_producer_config, bind, config_getitem, lift, ret.
  repeat match goal with
         | |- context [getitem ?c ?k] => destruct (getitem c k)
         | |- context [split_servers ?v] => destruct (split_servers v)
         end; reflexivity.
Qed.

Lemma get_consumer_config_state s : snd (_get_consumer_config s) = s.
Proof.
  unfold _get_consumer_config, bind, config_getitem, lift, ret.
  repeat match goal with
         | |- context [getitem ?c ?k] => destruct (getitem c k)
         | |- context [split_servers ?v] => destruct (split_servers v)
         end; reflexivity.
Qed.

(** The [try] statement either raises, leaving the state as it was, or
    constructs one client and caches it. *)
Lemma try_create_producer_cases br topic s :
  (∃ e, try_create_producer br topic s = (Raise e, s))
  ∨ (∃ cfg, try_create_producer br topic s
            = (Ok tt, constructed Producer topic (inl cfg) s)).
Proof.
  unfold try_create_producer, try_except, bind.
  pose proof (get_producer_config_state s) as Hs.
  destruct (_get_producer_config s) as [[cfg|e] s0]; cbn [snd] in Hs; subst s0.
  2: { left. eexists. reflexivity. }
  unfold KafkaProducer, new_client.
  destruct (connect br _ (length (clients s))) as [e|].
  - left. eexists. reflexivity.
  - right. exists cfg. reflexivity.
Qed.

Lemma try_create_consumer_cases br topic s :
  (∃ e, try_create_consumer br topic s = (Raise e, s))
  ∨ (∃ cfg, try_create_consumer br topic s
            = (Ok tt, constructed Consumer topic (inr cfg) s)).
Proof.
  unfold try_create_consumer, try_except, bind.
  pose proof (get_consumer_config_state s) as Hs.
  destruct (_get_consumer_config s) as [[cfg|e] s0]; cbn [snd] in Hs; subst s0.
  2: { left. eexists. reflexivity. }
  unfold KafkaConsumer, new_client.
  destruct (connect br _ (length (clients s))) as [e|].
  - left. eexists. reflexivity.
  - right. exists cfg. reflexivity.
Qed.

(** The three ways [get_handle] can go: it raises and leaves the state as
    it was; it finds the topic in the cache and leaves the state as it
    was; or it constructs one client, caches it and returns it. *)
Lemma get_handle_cases br role topic s :
  (∃ e, get_handle br role topic s = (Raise e, s))
  ∨ (∃ t c, fst (topic_or_default topic s) = Ok t
            ∧ cache_get (cache_of role s) t = Some c
            ∧ get_handle br role topic s = (Ok c, s))
  ∨ (∃ t settings, fst (topic_or_default topic s) = Ok t
                   ∧ cache_get (cache_of role s) t = None
                   ∧ get_handle br role topic s
                     = (Ok (length (clients s)), constructed role t settings s)).
Proof.
  pose proof (topic_or_default_state topic s) as Hs.
  destruct role; unfold get_handle, get_producer, get_consumer, bind, get;
    destruct (topic_or_default topic s) as [[t|e] s0]; cbn [snd] in Hs; subst s0;
    try (left; eexists; reflexivity); cbn [cache_of fst].
  - destruct (cache_get (_producers s) t) as [c|] eqn:Ec.
    + right. left. exists t, c. split; [done|]. split; [done|].
      unfold ret, lift, cache_getitem. by rewrite Ec.
    + destruct (try_create_producer_cases br t s) as [[e ->]|[cfg ->]].
      * left. by eexists.
      * right. right. exists t, (inl cfg). split; [done|]. split; [done|].
        unfold lift, cache_getitem, constructed. cbn [_producers set_log set_producers].
        by rewrite cache_get_set.
  - destruct (cache_get (_consumers s) t) as [c|] eqn:Ec.
    + right. left. exists t, c. split; [done|]. split; [done|].
      unfold ret, lift, cache_getitem. by rewrite Ec.
    + destruct (try_create_consumer_cases br t s) as [[e ->]|[cfg ->]].
      * left. by eexists.
      * right. right. exists t, (inr cfg). split; [done|]. split; [done|].
        unfold lift, cache_getitem, constructed. cbn [_consumers set_log set_consumers].
        by rewrite cache_get_set.
Qed.

Lemma constructed_cache role topic settings s :
  cache_of role (constructed role topic settings s)
  = cache_set (cache_of role s) topic (length (clients s)).
Proof. by destruct role. Qed.

Lemma constructed_config role topic settings s :
  config (constructed role topic settings s) = config s.
Proof. by destruct role. Qed.

Lemma constructed_polls role topic settings s c :
  polls_made (constructed role topic settings s) c = polls_made s c.
Proof. by destruct role. Qed.

Lemma topic_or_default_config_only topic s s' :
  config s' = config s → fst (topic_or_default topic s') = fst (topic_or_default topic s).
Proof.
  intros E. unfold topic_or_default, config_getitem.
  destruct topic as [t|]; [destruct (truthy t)|]; cbn [fst ret]; by rewrite ?E.
Qed.

(** A successful [get_handle] leaves the topic cached with the handle it
    returned. *)
Lemma get_handle_Ok br role topic s c s1 :
  get_handle br role topic s = (Ok c, s1) →
  ∃ t, fst (topic_or_default topic s) = Ok t
       ∧ cache_get (cache_of role s1) t = Some c
       ∧ config s1 = config s
       ∧ ∀ c', polls_made s1 c' = polls_made s c'.
Proof.
  intros Hget.
  destruct (get_handle_cases br role topic s)
    as [[e He]|[(t & c' & Ht & Hc & He)|(t & st & Ht & Hc & He)]];
    rewrite He in Hget; [discriminate| |]; injection Hget as <- <-.
  - exists t. done.
  - exists t. split; [done|]. rewrite constructed_cache, cache_get_set.
    split; [done|]. split; [apply constructed_config|].
    intros c. apply constructed_polls.
Qed.

(** * [consume_messages] *)

Lemma get_consumer_resolved br topic s t :
  fst (topic_or_default topic s) = Ok t →
  get_consumer br (Some t) s = get_consumer br topic s.
Proof.
  intros Ht. pose proof (topic_or_default_idem topic s t Ht) as Hidem.
  pose proof (topic_or_default_state topic s) as Hs.
  unfold get_consumer, bind. rewrite Hidem.
  destruct (topic_or_default topic s) as [r s0]. cbn [fst snd] in Ht, Hs.
  by subst r s0.
Qed.

(** With the consumer at hand, [consume_messages] is the loop, with its
    outcome returned or wrapped. *)
Lemma consume_messages_ready {H} br (handler : option (Handler H)) max_messages
    fuel topic timeout_ms hs s c s1 :
  get_consumer br topic s = (Ok c, s1) →
  ∃ t,
    consume_messages br handler max_messages fuel topic timeout_ms hs s
    = match consume_loop br handler max_messages fuel c timeout_ms
              {| messages := []; message_count := 0 |} hs s1 with
      | None => None
      | Some (Ok l, hs, s) => Some (Ok (messages l), hs, s)
      | Some (Raise e, hs, s) =>
          let '(r, s) := consume_failed t e s in Some (r, hs, s)
      end.
Proof.
  intros Hget.
  destruct (get_handle_Ok br Consumer topic s c s1 Hget) as (t & Ht & _).
  exists t. unfold consume_messages.
  pose proof (topic_or_default_state topic s) as Hs.
  pose proof (get_consumer_resolved br topic s t Ht) as Hres.
  destruct (topic_or_default topic s) as [r s0]. cbn [fst snd] in Ht, Hs.
  subst r s0. by rewrite Hres, Hget.
Qed.

Lemma records_of_app (a b : list Batch) :
  records_of (a ++ b) = (records_of a ++ records_of b)%list.
Proof. unfold records_of. by rewrite map_app, concat_app. Qed.

Lemma records_of_take_le (bs : list Batch) n :
  (length (records_of (take n bs)) ≤ length (records_of bs))%nat.
Proof.
  rewrite <- (take_drop n bs) at 2. rewrite records_of_app, length_app. lia.
Qed.







(** The outcome of [consume_messages] once the loop has ended. *)
Lemma consume_messages_ends {H} br (handler : option (Handler H)) max_messages
    fuel topic timeout_ms hs s c s1 r hs' s' :
  get_consumer br topic s = (Ok c, s1) →
  consume_loop br handler max_messages fuel c timeout_ms
    {| messages := []; message_count := 0 |} hs s1 = Some (r, hs', s') →
  ∃ r' s'',
    consume_messages br handler max_messages fuel topic timeout_ms hs s
    = Some (r', hs', s'')
    ∧ erase_log s'' = erase_log s'
    ∧ ∀ l, r = Ok l → r' = Ok (messages l) ∧ s'' = s'.
Proof.
  intros Hget Hloop.
  destruct (consume_messages_ready br handler max_messages fuel topic timeout_ms
              hs s c s1 Hget) as [t ->].
  rewrite Hloop. destruct r as [l|e].
  - eexists _, _. split; [reflexivity|]. split; [done|]. by intros ? [= <-].
  - eexists _, _. split; [reflexivity|]. split; [done|]. discriminate.
Qed.

(** C8.  With the consumer at hand: if the polls return the batches of a
    schedule, none of them empty, and the next poll returns the empty
    batch, then [consume_messages] returns having polled no further than
    that empty poll; when the cap is not reached by then (it is absent, or
    zero, or larger than the number of records) the result is everything
    accumulated, and the empty poll was the last one; so with
    [max_messages=5] and two records in all it returns two messages.  And
    if the batches polled hold enough records to reach a positive cap,
    [consume_messages] returns as well. *)
Theorem consume_stops_at_first_empty_poll {H} br (handler : option (Handler H))
    max_messages topic timeout_ms hs s c s1 (batches : list Batch) :
  get_consumer br topic s = (Ok c, s1) →
  ((∀ i, (i ≤ length batches)%nat →
         poll br c (polls_made s1 c + i) timeout_ms = Ok (nth i batches [])) →
   Forall (λ b, b ≠ []) batches →
   (∃ r hs' s',
      consume_messages br handler max_messages (S (length batches))
        topic timeout_ms hs s = Some (r, hs', s')
      ∧ (polls_made s' c ≤ polls_made s1 c + S (length batches))%nat)
   ∧ ((∀ j, 0 ≤ j ≤ Z.of_nat (length (records_of batches)) →
            cap_reached max_messages j = false) →
      ∃ hs' s',
        consume_messages br handler max_messages (S (length batches))
          topic timeout_ms hs s
        = Some (Ok (payloads (records_of batches)), hs', s')
        ∧ polls_made s' c = (polls_made s1 c + S (length batches))%nat)
   ∧ (max_messages = Some 5 → length (records_of batches) = 2%nat →
      ∃ msgs hs' s',
        consume_messages br handler max_messages (S (length batches))
          topic timeout_ms hs s = Some (Ok msgs, hs', s')
        ∧ length msgs = 2%nat))
  ∧ (∀ m, max_messages = Some m → 0 < m →
          (∀ i, (i < length batches)%nat →
                poll br c (polls_made s1 c + i) timeout_ms = Ok (nth i batches [])) →
          m ≤ Z.of_nat (length (records_of batches)) →
          ∃ r hs' s',
            consume_messages br handler max_messages (S (length batches))
              topic timeout_ms hs s = Some (r, hs', s')).
Proof.
  intros Hget. split.
  - intros Hpoll Hne.
    assert ((∀ j, 0 ≤ j ≤ Z.of_nat (length (records_of batches)) →
                  cap_reached max_messages j = false) →
            ∃ hs' s',
              consume_messages br handler max_messages (S (length batches))
                topic timeout_ms hs s
              = Some (Ok (payloads (records_of batches)), hs', s')
              ∧ polls_made s' c = (polls_made s1 c + S (length batches))%nat) as Hexact.
    { intros Hcap.
      destruct (consume_loop_prefix br handler max_messages c timeout_ms batches
                  (Z.of_nat (length (records_of batches)) + 1)
                  {| messages := []; message_count := 0 |} hs s1 1)
        as (hs' & s' & Eloop & Hpolls & _).
      { intros i Hi. apply Hpoll. lia. }
      { done. }
      { intros j Hj. cbn [message_count]. rewrite Z.add_0_l. apply Hcap. lia. }
      { intros k Hk. pose proof (records_of_take_le batches k). lia. }
      { lia. }
      rewrite Nat.add_1_r in Eloop.
      rewrite (consume_loop_S br handler max_messages 0 c timeout_ms _ hs' s') in Eloop.
      cbn [message_count messages] in Eloop.
      rewrite Z.add_0_l, Hcap in Eloop by lia.
      destruct (consumer_poll_spec br c timeout_ms s') as (s2 & Ep & Hp2 & _).
      rewrite Ep, Hpolls, Hpoll in Eloop by lia.
      rewrite nth_overflow in Eloop by lia. cbn [consume_batch] in Eloop.
      destruct (consume_messages_ends br handler max_messages _ topic timeout_ms
                  hs s c s1 _ _ _ Hget Eloop) as (r' & s'' & -> & _ & Hok).
      destruct (Hok _ eq_refl) as [-> ->].
      exists hs', s2. split; [reflexivity|]. lia. }
    split; [|split; [exact Hexact|]].
    + destruct (consume_loop_stops_at_empty br handler max_messages c timeout_ms
                  (length batches) {| messages := []; message_count := 0 |} hs s1)
        as (r & hs' & s' & Eloop & Hle).
      { rewrite Hpoll by lia. by rewrite nth_overflow by lia. }
      destruct (consume_messages_ends br handler max_messages _ topic timeout_ms
                  hs s c s1 _ _ _ Hget Eloop) as (r' & s'' & -> & Eer & _).
      exists r', hs', s''. split; [done|].
      by rewrite (polls_made_erase _ _ _ Eer).
    + intros -> Htwo. destruct Hexact as (hs' & s' & -> & _).
      { intros j Hj. destruct (cap_reached (Some 5) j) eqn:E; [|done].
        apply cap_reached_Some in E. lia. }
      eexists _, hs', s'. split; [reflexivity|].
      unfold payloads. by rewrite length_map.
  - intros m Hmax Hm Hpoll Htot.
    destruct (consume_loop_stops_at_cap br handler max_messages c timeout_ms m batches
                Hmax Hm {| messages := []; message_count := 0 |} hs s1 Hpoll)
      as (r & hs' & s' & Eloop).
    { cbn [message_count]. lia. }
    destruct (consume_messages_ends br handler max_messages _ topic timeout_ms
                hs s c s1 _ _ _ Hget Eloop) as (r' & s'' & -> & _).
    by eexists _, _, _.
Qed.

Lemma consume_stops_at_first_empty_poll_witness :
  (∃ msgs hs' s',
     consume_messages (demo_broker two_records) (None : option (Handler unit))
       (Some 5) (S (length two_records)) None 1000 tt demo_session
     = Some (Ok msgs, hs', s')
     ∧ length msgs = 2%nat)
  ∧ (∃ r hs' s',
       consume_messages (demo_broker two_records) (None : option (Handler unit))
         (Some 1) (S (length two_records)) None 1000 tt demo_session
       = Some (r, hs', s')).
Proof.
  assert (0 < 1) as Hpos by lia.
  assert (1 ≤ Z.of_nat (length (records_of two_records))) as Htot
    by (vm_compute; discriminate).
  assert (Forall (λ b : Batch, b ≠ []) two_records) as Hne.
  { unfold two_records.
    repeat apply Forall_cons_2; try apply Forall_nil_2; intros E; inversion E. }
  assert (fst (get_consumer (demo_broker two_records) None demo_session) = Ok 0%nat)
    as Hf by (vm_compute; reflexivity).
  pose proof (pair_of_fst _ _ Hf
              : get_consumer (demo_broker two_records) None demo_session
                = (Ok 0%nat, demo_consuming two_records)) as Hget.
  assert (polls_made (demo_consuming two_records) 0%nat = 0%nat) as Hp
    by (vm_compute; reflexivity).
  assert (∀ i, (i ≤ length two_records)%nat →
               poll (demo_broker two_records) 0%nat
                 (polls_made (demo_consuming two_records) 0%nat + i) 1000
               = Ok (nth i two_records [])) as Hpoll.
  { intros i _. rewrite Hp. reflexivity. }
  assert (∀ i, (i < length two_records)%nat →
               poll (demo_broker two_records) 0%nat
                 (polls_made (demo_consuming two_records) 0%nat + i) 1000
               = Ok (nth i two_records [])) as Hpoll'.
  { intros i _. rewrite Hp. reflexivity. }
  split.
  - exact (proj2 (proj2 (proj1 (consume_stops_at_first_empty_poll
                                  (demo_broker two_records) None (Some 5) None 1000 tt
                                  demo_session 0%nat (demo_consuming two_records)
                                  two_records Hget) Hpoll Hne))
             eq_refl eq_refl).
  - exact (proj2 (consume_stops_at_first_empty_poll
                    (demo_broker two_records) None (Some 1) None 1000 tt
                    demo_session 0%nat (demo_consuming two_records)
                    two_records Hget) 1 eq_refl Hpos Hpoll' Htot).
Defined.

(** C9.  The outcome of [consume_messages] (the messages returned, or the
    exception raised, and the state apart from the log) is the same
    whatever the handler: one that raises on some records, one that never
    raises, or none.  And when the handler raises on a record, the record
    is still appended and counted, and the failure is logged as an error
    after the line for the record. *)
Theorem handler_failures_are_swallowed {H1 H2} br
    (handler1 : option (Handler H1)) (handler2 : option (Handler H2))
    max_messages fuel topic timeout_ms hs1 hs2 s :
  observable (consume_messages br handler1 max_messages fuel topic timeout_ms hs1 s)
  = observable (consume_messages br handler2 max_messages fuel topic timeout_ms hs2 s)
  ∧ ∀ (handler : Handler H1) record l hs st hs' e,
      handler (rec_value record) record hs = (hs', Some e) →
      ∃ st',
        consume_record (Some handler) record l hs st
        = ({| messages := (messages l ++ [rec_value record])%list;
              message_count := message_count l + 1 |}, hs', st')
        ∧ erase_log st' = erase_log st
        ∧ ∃ line, log st'
                  = (log st ++ [INFO line;
                                ERROR ("Message handler error: " +:+ exc_str e)])%list.
Proof.
  split.
  - unfold consume_messages.
    destruct (topic_or_default topic s) as [[t|e] s0]; [|done].
    destruct (get_consumer br (Some t) s0) as [[c|e] s1]; [|done].
    pose proof (consume_loop_indep br handler1 handler2 max_messages fuel c timeout_ms
                  {| messages := []; message_count := 0 |} hs1 hs2 s1 s1 eq_refl) as Hobs.
    destruct (consume_loop br handler1 _ _ _ _ _ _ _) as [[[r1 h1] t1]|];
      destruct (consume_loop br handler2 _ _ _ _ _ _ _) as [[[r2 h2] t2]|];
      cbn [observable] in Hobs; try discriminate; [|done].
    apply (inj Some), pair_equal_spec in Hobs. destruct Hobs as [-> Et].
    destruct r2 as [l|e]; cbn [observable]; [by rewrite Et|].
    unfold consume_failed, bind, logger_error, modify, raise.
    cbn [observable]. rewrite !erase_log_set_log. by rewrite Et.
  - intros handler record l hs st hs' e Hh.
    unfold consume_record. rewrite Hh.
    eexists. split; [reflexivity|]. split; [reflexivity|].
    eexists. cbn [log set_log]. by rewrite <- app_assoc.
Qed.

Lemma handler_failures_are_swallowed_witness :
  observable (consume_messages (demo_broker two_records) (Some failing_handler)
                (Some 5) 2 None 1000 0%nat demo_session)
  = observable (consume_messages (demo_broker two_records)
                  (None : option (Handler unit)) (Some 5) 2 None 1000 tt demo_session)
  ∧ returned (consume_messages (demo_broker two_records) (Some failing_handler)
                (Some 5) 2 None 1000 0%nat demo_session)
    = Some (Ok ["a"; "b"])
  ∧ ∃ st',
      consume_record (Some failing_handler) (demo_record 0 0 "a")
        {| messages := []; message_count := 0 |} 0%nat demo_session
      = ({| messages := ["a"]; message_count := 1 |}, 1%nat, st')
      ∧ erase_log st' = erase_log demo_session
      ∧ ∃ line, log st'
                = (log demo_session
                   ++ [INFO line; ERROR "Message handler error: cannot process"])%list.
Proof.
  pose proof (handler_failures_are_swallowed (demo_broker two_records)
                (Some failing_handler) (None : option (Handler unit))
                (Some 5) 2 None 1000 0%nat tt demo_session) as [Hsame Hlogged].
  split; [exact Hsame|]. split; [vm_compute; reflexivity|].
  exact (Hlogged failing_handler (demo_record 0 0 "a")
           {| messages := []; message_count := 0 |} 0%nat demo_session 1%nat
           (Exc ValueErrorT "cannot process") eq_refl).
Defined.

(** ** The cap *)

Section cap.
Context {H : Type}.
Variable br : Broker.
Variable message_handler : option (Handler H).
Variables max1 max2 : option Z.
Hypothesis same_test : ∀ n, cap_reached max1 n = cap_reached max2 n.

Lemma consume_records_same_test records :
  ∀ l hs s,
    consume_records message_handler max1 records l hs s
    = consume_records message_handler max2 records l hs s.
Proof.
  induction records as [|r rest IH]; intros l hs s; [done|].
  cbn [consume_records].
  destruct (consume_record message_handler r l hs s) as [[l' hs'] s'].
  rewrite same_test. by rewrite IH.
Qed.

Lemma consume_batch_same_test (b : Batch) :
  ∀ l hs s,
    consume_batch message_handler max1 b l hs s
    = consume_batch message_handler max2 b l hs s.
Proof.
  induction b as [|[tp records] rest IH]; intros l hs s; [done|].
  cbn [consume_batch]. rewrite consume_records_same_test.
  destruct (consume_records message_handler max2 records l hs s) as [[l' hs'] s'].
  apply IH.
Qed.

Lemma consume_loop_same_test fuel consumer timeout_ms :
  ∀ l hs s,
    consume_loop br message_handler max1 fuel consumer timeout_ms l hs s
    = consume_loop br message_handler max2 fuel consumer timeout_ms l hs s.
Proof.
  induction fuel as [|fuel IH]; intros l hs s; [done|].
  rewrite !consume_loop_S, same_test.
  destruct (cap_reached max2 (message_count l)); [done|].
  destruct (consumer_poll br consumer timeout_ms s) as [[b|e] s1]; [|done].
  rewrite consume_batch_same_test.
  destruct (consume_batch message_handler max2 b l hs s1) as [[l' hs'] s'].
  destruct b; [done|]. apply IH.
Qed.

Lemma consume_messages_same_test fuel topic timeout_ms hs s :
  consume_messages br message_handler max1 fuel topic timeout_ms hs s
  = consume_messages br message_handler max2 fuel topic timeout_ms hs s.
Proof.
  unfold consume_messages.
  destruct (topic_or_default topic s) as [[t|e] s0]; [|done].
  destruct (get_consumer br (Some t) s0) as [[c|e] s1]; [|done].
  by rewrite consume_loop_same_test.
Qed.
End cap.

(** C10.  The cap is tested after each record but leaves only the loop
    over one partition's records: with one poll that returns two records
    under each of two partitions and [max_messages=1], [consume_messages]
    returns two messages, the first of each partition.  And
    [max_messages=0] is no cap: [consume_messages] then behaves as with no
    [max_messages] at all, so on that same poll it returns all four
    messages, having gone on until the empty poll. *)
Theorem cap_is_per_partition_and_zero_is_no_cap :
  (∃ msgs,
     returned (consume_messages (demo_broker [two_partitions])
                 (None : option (Handler unit)) (Some 1) 2 None 1000 tt demo_session)
     = Some (Ok msgs)
     ∧ msgs = ["a"; "c"] ∧ (1 < length msgs)%nat
     ∧ length two_partitions = 2%nat)
  ∧ (∀ H br (handler : option (Handler H)) fuel topic timeout_ms hs s,
       consume_messages br handler (Some 0) fuel topic timeout_ms hs s
       = consume_messages br handler None fuel topic timeout_ms hs s)
  ∧ returned (consume_messages (demo_broker [two_partitions])
                (None : option (Handler unit)) (Some 0) 2 None 1000 tt demo_session)
    = Some (Ok ["a"; "b"; "c"; "d"]).
Proof.
  split; [|split].
  - exists ["a"; "c"]. split; [vm_compute; reflexivity|].
    split; [reflexivity|]. split; [cbn [length]; lia | reflexivity].
  - intros H br handler fuel topic timeout_ms hs s.
    apply consume_messages_same_test. intros n. reflexivity.
  - vm_compute. reflexivity.
Qed.

(** * The session: configuration and caches *)

Lemma get_handle_hit br role topic s t c :
  fst (topic_or_default topic s) = Ok t →
  cache_get (cache_of role s) t = Some c →
  get_handle br role topic s = (Ok c, s).
Proof.
  intros Ht Hc.
  destruct (get_handle_cases br role topic s)
    as [[e He]|[(t' & c' & Ht' & Hc' & He)|(t' & st & Ht' & Hc' & He)]].
  - exfalso. pose proof (topic_or_default_state topic s) as Hs.
    destruct role; unfold get_handle, get_producer, get_consumer, bind, get in He;
      destruct (topic_or_default topic s) as [r s0]; cbn [fst snd] in Ht, Hs;
      subst r s0; cbn [cache_of] in Hc; rewrite Hc in He;
      unfold ret, lift, cache_getitem in He; rewrite Hc in He; discriminate.
  - congruence.
  - congruence.
Qed.

Lemma get_handle_config br role topic s :
  config (snd (get_handle br role topic s)) = config s.
Proof.
  destruct (get_handle_cases br role topic s)
    as [[e ->]|[(t & c & _ & _ & ->)|(t & st & _ & _ & ->)]]; cbn [snd]; try done.
  apply constructed_config.
Qed.

(** What an operation does to the session is what obtaining a handle
    does, or nothing. *)
Lemma produce_message_view br message key topic s :
  session_view (snd (produce_message br message key topic s)) = session_view s
  ∨ ∃ t, session_view (snd (produce_message br message key topic s))
         = session_view (snd (get_handle br Producer (Some t) s)).
Proof.
  unfold produce_message, bind, try_except.
  pose proof (topic_or_default_state topic s) as Hs.
  destruct (topic_or_default topic s) as [[t|e] s0]; cbn [snd] in Hs; subst s0;
    [|by left].
  right. exists t. cbn [get_handle].
  destruct (get_producer br (Some t) s) as [[p|e] s1]; [|reflexivity].
  unfold get, modify, lift. cbn [snd].
  destruct (send br p _ t message key); reflexivity.
Qed.

Lemma consume_messages_view {H} br (handler : option (Handler H)) max_messages
    fuel topic timeout_ms hs s r hs' s' :
  consume_messages br handler max_messages fuel topic timeout_ms hs s
  = Some (r, hs', s') →
  session_view s' = session_view s
  ∨ ∃ t, session_view s' = session_view (snd (get_handle br Consumer (Some t) s)).
Proof.
  unfold consume_messages.
  pose proof (topic_or_default_state topic s) as Hs.
  destruct (topic_or_default topic s) as [[t|e] s0]; cbn [snd] in Hs; subst s0.
  2: { intros [= <- <- <-]. by left. }
  intros Hc. right. exists t. cbn [get_handle].
  destruct (get_consumer br (Some t) s) as [[c|e] s1].
  2: { injection Hc as <- <- <-. reflexivity. }
  destruct (consume_loop br handler max_messages fuel c timeout_ms _ hs s1)
    as [[[r1 h1] t1]|] eqn:Eloop; [|discriminate].
  apply consume_loop_frame in Eloop as (E1 & E2 & E3 & E4 & _).
  assert (session_view t1 = session_view s1) as Ev
    by (unfold session_view; by rewrite E1, E2, E3, E4).
  destruct r1; injection Hc as <- <- <-; cbn [snd]; exact Ev.
Qed.

Lemma session_step_view br s s' :
  session_step br s s' →
  session_view s' = session_view s
  ∨ ∃ role topic, session_view s' = session_view (snd (get_handle br role topic s)).
Proof.
  intros [role topic s0|message key topic s0|H handler mx fuel topic tm hs s0 r hs' s1 Hc].
  - right. by exists role, topic.
  - destruct (produce_message_view br message key topic s0) as [?|[t ?]]; [by left|].
    right. by exists Producer, (Some t).
  - destruct (consume_messages_view br handler mx fuel topic tm hs s0 r hs' s1 Hc)
      as [?|[t ?]]; [by left|].
    right. by exists Consumer, (Some t).
Qed.

Lemma session_step_config br s s' : session_step br s s' → config s' = config s.
Proof.
  intros Hstep.
  destruct (session_step_view br s s' Hstep) as [E|(role & topic & E)].
  - exact (f_equal (λ v, v.1.1.1) E).
  - rewrite <- (get_handle_config br role topic s).
    exact (f_equal (λ v, v.1.1.1) E).
Qed.

Lemma session_view_eq s s' :
  session_view s' = session_view s ↔
  config s' = config s ∧ _producers s' = _producers s
  ∧ _consumers s' = _consumers s ∧ clients s' = clients s.
Proof.
  unfold session_view. split.
  - intros [= -> -> -> ->]. done.
  - intros (-> & -> & -> & ->). done.
Qed.

(** ** Assignments to [os.environ] *)

Lemma has_nul_app a b : has_nul (a +:+ b) = has_nul a || has_nul b.
Proof.
  unfold has_nul. generalize (Ascii.eqb zero). intros f.
  induction a as [|c a IH]; [reflexivity|].
  simpl. rewrite IH. apply orb_assoc.
Qed.

Lemma has_nul_false s :
  Forall (λ c, Ascii.eqb zero c = false) (list_ascii_of_string s) →
  has_nul s = false.
Proof.
  unfold has_nul. induction 1 as [|c l Hc _ IH]; [reflexivity|].
  cbn [existsb]. by rewrite Hc, IH.
Qed.

Lemma pretty_N_char_cases (P : ascii → Prop) :
  P "0"%char → P "1"%char → P "2"%char → P "3"%char → P "4"%char →
  P "5"%char → P "6"%char → P "7"%char → P "8"%char → P "9"%char →
  ∀ d, P (pretty_N_char d).
Proof.
  intros. unfold pretty_N_char.
  repeat match goal with |- P (match ?x with _ => _ end) => destruct x end;
    assumption.
Qed.

(** A property of the ten digits holds of every character that [str]
    writes for a natural number. *)
Lemma pretty_N_go_Forall (P : ascii → Prop) :
  (∀ d, P (pretty_N_char d)) →
  ∀ x s,
    Forall P (list_ascii_of_string s) →
    Forall P (list_ascii_of_string (pretty_N_go x s)).
Proof.
  intros HP x. induction (N.lt_wf_0 x) as [x _ IH]; intros s Hs.
  destruct (decide (x = 0%N)) as [->|Hx]; [by rewrite pretty_N_go_0|].
  rewrite pretty_N_go_step by lia.
  apply IH; [apply N.div_lt; lia|].
  cbn [list_ascii_of_string]. by constructor.
Qed.

Lemma pretty_Z_Forall (P : ascii → Prop) (z : Z) :
  (∀ d, P (pretty_N_char d)) → P "-"%char →
  Forall P (list_ascii_of_string (pretty z)).
Proof.
  intros HP Hminus.
  destruct z as [|p|p]; unfold pretty, pretty_Z, pretty, pretty_positive, pretty,
    pretty_N.
  - repeat constructor. exact (HP 0%N).
  - rewrite decide_False by done. apply pretty_N_go_Forall; [exact HP|constructor].
  - rewrite decide_False by done.
    change (list_ascii_of_string ("-" +:+ ?s))
      with ("-"%char :: list_ascii_of_string s).
    constructor; [exact Hminus|].
    apply pretty_N_go_Forall; [exact HP|constructor].
Qed.

Lemma has_nul_pretty (z : Z) : has_nul (pretty z) = false.
Proof.
  apply has_nul_false, pretty_Z_Forall; [|reflexivity].
  apply (pretty_N_char_cases (λ c, Ascii.eqb zero c = false)); reflexivity.
Qed.

Lemma environ_setitem_clean key value s :
  has_nul value = false →
  environ_setitem key value s = (Ok tt, set_environ <[key := value]> s).
Proof. unfold environ_setitem. by intros ->. Qed.

Lemma environ_setitem_nul key value s :
  has_nul value = true →
  environ_setitem key value s = (Raise (Exc ValueErrorT "embedded null byte"), s).
Proof. unfold environ_setitem. by intros ->. Qed.

Lemma environ_KRB5CCNAME h s :
  environ_setitem "KRB5CCNAME" ("FILE:/tmp/krb5cc_" +:+ pretty (getuid h)) s
  = (Ok tt, set_environ <["KRB5CCNAME" := "FILE:/tmp/krb5cc_" +:+ pretty (getuid h)]> s).
Proof.
  apply environ_setitem_clean. rewrite has_nul_app, has_nul_pretty. reflexivity.
Qed.

Lemma environ_setitem_view key value s :
  session_view (snd (environ_setitem key value s)) = session_view s.
Proof. unfold environ_setitem. by destruct (has_nul value). Qed.

(** [_create_jaas_config] leaves the configuration as it was (when it
    raises) or records the path of the file it wrote. *)
Lemma create_jaas_config_effect h s :
  session_view (snd (_create_jaas_config h s)) = session_view s
  ∨ session_view (snd (_create_jaas_config h s))
    = session_view (set_config <["jaas_config_path" := VStr jaas_config_path]> s).
Proof.
  unfold _create_jaas_config, bind, try_except, config_getitem.
  destruct (getitem (config s) "keytab_path") as [keytab|e]; [|by left].
  destruct (getitem (config s) "principal") as [principal|e]; [|by left].
  unfold open_write.
  destruct (write_file h jaas_config_path _) as [e|]; [by left|].
  rewrite environ_setitem_clean by (vm_compute; reflexivity).
  by right.
Qed.

Lemma setup_kerberos_effect h s :
  session_view (snd (_setup_kerberos h s)) = session_view s
  ∨ (not_get (config s) "jaas_config_path" = true
     ∧ session_view (snd (_setup_kerberos h s))
       = session_view (set_config <["jaas_config_path" := VStr jaas_config_path]> s)).
Proof.
  unfold _setup_kerberos, try_except, bind, get.
  destruct (GSSAPI_AVAILABLE h); unfold ret, logger_warning, modify.
  all: rewrite (environ_setitem_clean "KRB5_CONFIG") by (vm_compute; reflexivity).
  all: rewrite environ_KRB5CCNAME.
  all: cbn [config set_environ set_log].
  all: destruct (not_get (config s) "jaas_config_path") eqn:Enot.
  all: try (left; unfold config_getitem; cbn [config set_environ set_log];
            destruct (getitem (config s) "jaas_config_path") as [path|e];
            [|reflexivity];
            match goal with
            | |- context [environ_setitem ?k ?v ?s2] =>
                pose proof (environ_setitem_view k v s2) as E;
                destruct (environ_setitem k v s2) as [[[]|e] s3]; cbn [snd] in E
            end;
            unfold logger_info, modify, raise; cbn [snd]; exact E).
  all: match goal with
       | |- context [_create_jaas_config ?h' ?s2] =>
           destruct (create_jaas_config_effect h' s2) as [E|E];
           destruct (_create_jaas_config h' s2) as [[[]|e] s3]; cbn [snd] in E
       end.
  all: unfold logger_info, modify, raise; cbn [snd].
  all: first [left; exact E | right; split; [reflexivity|exact E]].
Qed.

Lemma not_get_false (cfg : gmap string value) key v :
  cfg !! key = Some v → truthy v = true → not_get cfg key = false.
Proof. unfold not_get. intros -> ->. reflexivity. Qed.

Lemma setup_kerberos_start h s :
  _setup_kerberos h s
  = try_except
      ((if not_get (config s) "jaas_config_path" then _create_jaas_config h
        else
          path <- config_getitem "jaas_config_path" ;;
          environ_setitem "JAVA_OPTS"
            ("-Djava.security.auth.login.config=" +:+ py_str path)) ;;
       logger_info "Kerberos authentication environment configured successfully")%M
      (λ e, raise (KafkaKerberosError
                     ("Failed to setup Kerberos authentication: " +:+ exc_str e)))
      (kerberos_environment h s).
Proof.
  unfold _setup_kerberos, kerberos_environment, try_except, bind, get.
  destruct (GSSAPI_AVAILABLE h); unfold ret, logger_warning, modify.
  all: rewrite (environ_setitem_clean "KRB5_CONFIG") by (vm_compute; reflexivity).
  all: rewrite environ_KRB5CCNAME.
  all: reflexivity.
Qed.

Lemma kerberos_environment_fields h s :
  config (kerberos_environment h s) = config s
  ∧ files (kerberos_environment h s) = files s
  ∧ session_view (kerberos_environment h s) = session_view s
  ∧ os_environ (kerberos_environment h s)
    = <["KRB5CCNAME" := "FILE:/tmp/krb5cc_" +:+ pretty (getuid h)]>
        (<["KRB5_CONFIG" := "/etc/krb5.conf"]> (os_environ s)).
Proof. unfold kerberos_environment. by destruct (GSSAPI_AVAILABLE h). Qed.

Lemma setup_kerberos_given h s p :
  config s !! "jaas_config_path" = Some p → truthy p = true →
  has_nul (py_str p) = false →
  _setup_kerberos h s
  = (Ok tt,
     set_log (λ l, (l ++ [INFO "Kerberos authentication environment configured successfully"])%list)
       (set_environ
          <["JAVA_OPTS" := "-Djava.security.auth.login.config=" +:+ py_str p]>
          (kerberos_environment h s))).
Proof.
  intros Hp Ht Hnul. rewrite setup_kerberos_start.
  destruct (kerberos_environment_fields h s) as (Hc & _).
  unfold try_except, bind. rewrite (not_get_false _ _ _ Hp Ht).
  unfold config_getitem, getitem. rewrite Hc, Hp.
  rewrite environ_setitem_clean by (by rewrite has_nul_app, Hnul).
  reflexivity.
Qed.

(** A NUL character in the configured path of the JAAS file makes the
    assignment to [JAVA_OPTS] fail. *)
Lemma setup_kerberos_nul h s p :
  config s !! "jaas_config_path" = Some p → truthy p = true →
  has_nul (py_str p) = true →
  _setup_kerberos h s
  = (Raise (KafkaKerberosError
              ("Failed to setup Kerberos authentication: " +:+ "embedded null byte")),
     kerberos_environment h s).
Proof.
  intros Hp Ht Hnul. rewrite setup_kerberos_start.
  destruct (kerberos_environment_fields h s) as (Hc & _).
  unfold try_except, bind. rewrite (not_get_false _ _ _ Hp Ht).
  unfold config_getitem, getitem. rewrite Hc, Hp.
  rewrite environ_setitem_nul by (rewrite has_nul_app, Hnul; apply orb_true_r).
  reflexivity.
Qed.

Lemma setup_kerberos_written h s keytab principal :
  not_get (config s) "jaas_config_path" = true →
  config s !! "keytab_path" = Some keytab →
  config s !! "principal" = Some principal →
  write_file h jaas_config_path (jaas_config_content keytab principal) = None →
  _setup_kerberos h s
  = (Ok tt,
     set_log (λ l, (l ++ [INFO ("Created JAAS configuration at: " +:+ jaas_config_path);
                          INFO "Kerberos authentication environment configured successfully"])%list)
       (set_config <["jaas_config_path" := VStr jaas_config_path]>
          (set_environ
             <["JAVA_OPTS" := "-Djava.security.auth.login.config=" +:+ jaas_config_path]>
             (set_files <[jaas_config_path := jaas_config_content keytab principal]>
                (kerberos_environment h s))))).
Proof.
  intros Hnot Hk Hp Hw. rewrite setup_kerberos_start.
  destruct (kerberos_environment_fields h s) as (Hc & _).
  unfold try_except, bind. rewrite Hnot.
  unfold _create_jaas_config, bind, try_except, config_getitem, getitem.
  rewrite Hc, Hk, Hp. unfold open_write. rewrite Hw.
  rewrite environ_setitem_clean by (vm_compute; reflexivity).
  unfold logger_info, modify, set_log. cbn. by rewrite <- app_assoc.
Qed.

(** Whatever goes wrong in [_setup_kerberos] goes wrong before a file or
    a setting is recorded, and is reported with the prefix of the method. *)
Lemma setup_kerberos_raises h s e s' :
  _setup_kerberos h s = (Raise e, s') →
  s' = kerberos_environment h s
  ∧ ∃ cause, e = KafkaKerberosError
                   ("Failed to setup Kerberos authentication: " +:+ cause).
Proof.
  rewrite setup_kerberos_start. unfold try_except, bind.
  destruct (not_get (config s) "jaas_config_path").
  - unfold _create_jaas_config, bind, try_except, config_getitem.
    destruct (getitem _ "keytab_path") as [keytab|e1].
    2: { unfold raise. intros [= <- <-]. split; [done|by eexists]. }
    destruct (getitem _ "principal") as [principal|e1].
    2: { unfold raise. intros [= <- <-]. split; [done|by eexists]. }
    unfold open_write.
    destruct (write_file h jaas_config_path _) as [e1|].
    + unfold raise. intros [= <- <-]. split; [done|by eexists].
    + rewrite environ_setitem_clean by (vm_compute; reflexivity).
      unfold logger_info, modify. discriminate.
  - unfold config_getitem.
    destruct (getitem _ "jaas_config_path") as [p|e1].
    + unfold environ_setitem. destruct (has_nul _).
      * unfold raise. intros [= <- <-]. split; [done|by eexists].
      * unfold modify, logger_info. discriminate.
    + unfold raise. intros [= <- <-]. split; [done|by eexists].
Qed.

Lemma setup_kerberos_unwritable h s keytab principal e :
  not_get (config s) "jaas_config_path" = true →
  config s !! "keytab_path" = Some keytab →
  config s !! "principal" = Some principal →
  write_file h jaas_config_path (jaas_config_content keytab principal) = Some e →
  _setup_kerberos h s
  = (Raise (KafkaKerberosError
              ("Failed to setup Kerberos authentication: "
               +:+ "Failed to create JAAS configuration: " +:+ exc_str e)),
     kerberos_environment h s).
Proof.
  intros Hnot Hk Hp Hw. rewrite setup_kerberos_start.
  destruct (kerberos_environment_fields h s) as (Hc & _).
  unfold try_except, bind. rewrite Hnot.
  unfold _create_jaas_config, bind, try_except, config_getitem, getitem.
  rewrite Hc, Hk, Hp. unfold open_write. rewrite Hw. reflexivity.
Qed.


Lemma close_each_view br kind cache :
  ∀ s, session_view (snd (close_each br kind cache s)) = session_view s.
Proof.
  induction cache as [|[topic c] rest IH]; intros s; [done|].
  cbn [close_each]. unfold bind.
  destruct (close_client br c); [done|].
  unfold logger_info, modify. by rewrite IH.
Qed.

Lemma close_config br s : config (snd (close br s)) = config s.
Proof.
  unfold close, try_except, bind, get.
  pose proof (close_each_view br "producer" (_producers s) s) as E1.
  destruct (close_each br "producer" (_producers s) s) as [[[]|e] s1]; cbn [snd] in E1;
    apply session_view_eq in E1 as (E1 & _).
  2: { exact E1. }
  pose proof (close_each_view br "consumer" (_consumers s) s1) as E2.
  destruct (close_each br "consumer" (_consumers s) s1) as [[[]|e] s2]; cbn [snd] in E2;
    apply session_view_eq in E2 as (E2 & _).
  - unfold modify. simpl. congruence.
  - unfold logger_error, modify. simpl. congruence.
Qed.




(** ** One client per role and topic *)

Lemma constructed_clients role topic settings s :
  clients (constructed role topic settings s)
  = (clients s ++ [{| client_role := role; client_topic := topic;
                      client_settings := settings |}])%list.
Proof. by destruct role. Qed.

Lemma constructed_cache_other role role' topic settings s :
  role' ≠ role →
  cache_of role' (constructed role topic settings s) = cache_of role' s.
Proof. by destruct role, role'. Qed.






(** ** The constructor, statement by statement *)

Lemma init_cases h config_file :
  __init__ h config_file (fresh h)
  = if DOTENV_AVAILABLE h then
      match _load_config h config_file with
      | Raise e => (Raise e, fresh h)
      | Ok cfg =>
          match open_append h log_file with
          | Some e => (Raise e, set_config (λ _, cfg) (fresh h))
          | None =>
              match _validate_config h cfg with
              | Raise e => (Raise e, loaded h cfg)
              | Ok _ => _setup_kerberos h (loaded h cfg)
              end
          end
      end
    else (Raise (Exc AttributeErrorT
                   "'KafkaKerberosUtility' object has no attribute 'logger'"), fresh h).
Proof.
  unfold __init__, bind, get, modify, lift, loaded, log_opened, _setup_logging,
    FileHandler.
  destruct (DOTENV_AVAILABLE h); [|reflexivity]. unfold ret.
  destruct (_load_config h config_file) as [cfg|e]; [|reflexivity].
  destruct (open_append h log_file) as [e|]; [reflexivity|].
  cbn [config set_config set_producers set_consumers set_files].
  destruct (_validate_config h cfg) as [[]|e]; reflexivity.
Qed.


(** * The rest of the class *)

(** * The configuration views *)

(** ** [str.split] and [str.join] *)

Lemma split_on_nonempty sep s : split_on sep s ≠ [].
Proof.
  destruct s as [|c r]; cbn [split_on]; [done|].
  destruct (Ascii.eqb c sep); [done|]. by destruct (split_on sep r).
Qed.

Lemma join_cons sep x y r :
  join sep (x :: y :: r) = x +:+ sep +:+ join sep (y :: r).
Proof. reflexivity. Qed.

Lemma split_on_join sep s : join (String sep EmptyString) (split_on sep s) = s.
Proof.
  induction s as [|c r IH]; cbn [split_on]; [reflexivity|].
  pose proof (split_on_nonempty sep r) as Hne.
  destruct (Ascii.eqb c sep) eqn:Ec.
  - apply Ascii.eqb_eq in Ec as ->.
    destruct (split_on sep r) as [|y ys]; [done|].
    rewrite join_cons, IH. reflexivity.
  - destruct (split_on sep r) as [|y ys]; [done|].
    destruct ys as [|z zs].
    + cbn [join] in *. by rewrite IH.
    + rewrite join_cons in *. rewrite <- IH. reflexivity.
Qed.

Lemma split_on_length sep s : length (split_on sep s) = S (occurrences sep s).
Proof.
  unfold occurrences.
  induction s as [|c r IH]; cbn [split_on list_ascii_of_string List.filter]; [reflexivity|].
  rewrite (Ascii.eqb_sym sep c).
  destruct (Ascii.eqb c sep).
  - cbn [length]. by rewrite IH.
  - pose proof (split_on_nonempty sep r) as Hne.
    destruct (split_on sep r) as [|y ys]; [done|]. exact IH.
Qed.

Lemma split_on_free sep s : Forall (λ x, free_of sep x = true) (split_on sep s).
Proof.
  induction s as [|c r IH]; cbn [split_on].
  - by repeat constructor.
  - destruct (Ascii.eqb c sep) eqn:Ec.
    + constructor; [reflexivity|exact IH].
    + pose proof (split_on_nonempty sep r) as Hne.
      destruct (split_on sep r) as [|y ys]; [done|].
      inversion IH as [|? ? Hy Hys]; subst.
      constructor; [|exact Hys].
      unfold free_of in *. cbn [list_ascii_of_string forallb]. by rewrite Ec, Hy.
Qed.

(** X1.  The broker list of the two views: splitting the configured text
    at its commas always succeeds, gives one entry more than there are
    commas (so never an empty list), no entry contains a comma, and
    joining the entries with commas gives the configured text back. *)
Theorem split_servers_round_trip s :
  ∃ servers, split_servers (VStr s) = Ok servers
             ∧ join "," servers = s
             ∧ length servers = S (occurrences "," s)
             ∧ Forall (λ x, free_of "," x = true) servers.
Proof.
  exists (split_on "," s). split; [reflexivity|].
  split; [apply split_on_join|]. split; [apply split_on_length|apply split_on_free].
Qed.

(** * Configuration: the file, keys the module does not know, the keytab *)

Lemma load_file_None h : load_file h None = Ok ∅.
Proof. reflexivity. Qed.

Lemma load_file_ignored h path :
  path = EmptyString
  ∨ path_exists h (VStr path) = false
  ∨ (∃ parser, parser_read h path = Ok parser ∧ parser !! "kafka" = None) →
  load_file h (Some path) = Ok ∅.
Proof.
  unfold load_file. intros [->|[Hp|(parser & Hr & Hk)]].
  - reflexivity.
  - rewrite Hp. by rewrite andb_false_r.
  - destruct (truthy (VStr path) && path_exists h (VStr path)); [|reflexivity].
    rewrite Hr. cbn [rbind]. by rewrite Hk.
Qed.

(** X2.  A configuration file is read only when its path is a non-empty
    string that names an existing file with a [kafka] section: otherwise
    the outcome of [_load_config] is the one without a file, and nothing
    is reported. *)
Theorem config_file_silently_ignored h path :
  path = EmptyString
  ∨ path_exists h (VStr path) = false
  ∨ (∃ parser, parser_read h path = Ok parser ∧ parser !! "kafka" = None) →
  _load_config h (Some path) = _load_config h None.
Proof.
  intros Hp. unfold _load_config.
  by rewrite (load_file_ignored h path Hp), load_file_None.
Qed.

Lemma config_file_silently_ignored_witness :
  path_exists demo_host (VStr "kafka_config.ini") = false
  ∧ _load_config demo_host (Some "kafka_config.ini") = _load_config demo_host None.
Proof.
  split; [reflexivity|].
  exact (config_file_silently_ignored demo_host "kafka_config.ini"
           (or_intror (or_introl eq_refl))).
Defined.

(** X3.  An option of the [kafka] section that is none of the eleven keys
    the module knows is kept in the configuration as the string the file
    gives, whatever the environment holds; a key that is neither known nor
    in the file is absent. *)
Theorem unknown_options_pass_through h config_file cfg key :
  _load_config h config_file = Ok cfg →
  key ∉ env_config.*1 →
  cfg !! key = VStr <$> kafka_section h config_file !! key.
Proof.
  intros Hload Hkey.
  destruct (load_config_stages h config_file cfg Hload) as (c0 & c1 & c2 & H0 & H1 & H2 & H3).
  rewrite (conversions_lookup _ c1 c2 cfg key H1 H2 H3).
  assert (key ∉ numeric_keys) as Hn.
  { intros Hin. apply Hkey. unfold numeric_keys in Hin.
    repeat (apply elem_of_cons in Hin as [->|Hin]);
      [apply (bool_decide_unpack _); vm_compute; reflexivity..|].
    by apply elem_of_nil in Hin. }
  rewrite (bool_decide_eq_false_2 _ Hn).
  rewrite set_defaults_lookup, (overlay_env_notin _ _ _ _ Hkey).
  rewrite (load_file_section h config_file c0 H0), lookup_fmap.
  destruct (kafka_section h config_file !! key) as [v|]; [reflexivity|].
  cbn [fmap option_fmap option_map].
  assert (default_value key = None) as ->; [|reflexivity].
  unfold default_value.
  repeat match goal with
         | |- context [decide (key = ?k)] =>
             destruct (decide (key = k)) as [Hk|_];
             [exfalso; apply Hkey; rewrite Hk; apply (bool_decide_unpack _);
              vm_compute; reflexivity|]
         end.
  reflexivity.
Qed.

Lemma unknown_options_pass_through_witness :
  _load_config file_host (Some "kafka_config.ini") = Ok file_config
  ∧ file_config !! "client_id" = Some (VStr "app-1").
Proof.
  assert ("client_id" ∉ env_config.*1) as Hkey.
  { apply (bool_decide_unpack _). vm_compute. reflexivity. }
  assert (_load_config file_host (Some "kafka_config.ini") = Ok file_config) as Hload
    by (apply (result_is_Ok _ ∅); vm_compute; reflexivity).
  split; [exact Hload|].
  rewrite (unknown_options_pass_through file_host (Some "kafka_config.ini") file_config
             "client_id" Hload Hkey).
  vm_compute. reflexivity.
Defined.

(** X4.  Once the four required settings are in order, [_validate_config]
    depends on the keytab file alone: it succeeds when the file exists and
    otherwise fails with the keytab error, which names the path.  It
    succeeds in no other case. *)
Theorem validate_checks_keytab h cfg :
  (missing_params cfg = [] →
   ∃ keytab, cfg !! "keytab_path" = Some keytab
             ∧ _validate_config h cfg
               = if path_exists h keytab then Ok tt else Raise (KeytabNotFound keytab))
  ∧ (_validate_config h cfg = Ok tt →
     missing_params cfg = []
     ∧ ∃ keytab, cfg !! "keytab_path" = Some keytab ∧ path_exists h keytab = true).
Proof.
  assert (missing_params cfg = [] →
          ∃ keytab, cfg !! "keytab_path" = Some keytab
                    ∧ _validate_config h cfg
                      = if path_exists h keytab then Ok tt
                        else Raise (KeytabNotFound keytab)) as Hfirst.
  { intros Hm. pose proof (proj1 (missing_params_nil cfg) Hm) as Hall.
    assert (not_get cfg "keytab_path" = false) as Hk.
    { apply Hall. apply (bool_decide_unpack _). vm_compute. reflexivity. }
    assert (not_get cfg "bootstrap_servers" = false) as Hb.
    { apply Hall. apply (bool_decide_unpack _). vm_compute. reflexivity. }
    unfold not_get in Hk, Hb.
    destruct (cfg !! "keytab_path") as [keytab|] eqn:Ek; [|discriminate Hk].
    destruct (cfg !! "bootstrap_servers") as [servers|] eqn:Eb; [|discriminate Hb].
    exists keytab. split; [reflexivity|].
    unfold _validate_config, getitem. rewrite Hm, Ek, Eb. cbn [rbind].
    destruct (path_exists h keytab); cbn [negb]; [|reflexivity].
    apply negb_false_iff in Hb. by rewrite Hb. }
  split; [exact Hfirst|].
  intros Hok.
  destruct (missing_params cfg) as [|p ps] eqn:Hm.
  - split; [reflexivity|].
    destruct (Hfirst eq_refl) as (keytab & Ek & Hv).
    exists keytab. split; [exact Ek|].
    rewrite Hv in Hok. by destruct (path_exists h keytab).
  - unfold _validate_config in Hok. rewrite Hm in Hok. discriminate Hok.
Qed.

Lemma validate_checks_keytab_witness :
  _validate_config lost_keytab_host demo_config
  = Raise (KeytabNotFound (VStr "/etc/security/app.keytab"))
  ∧ (∃ keytab, demo_config !! "keytab_path" = Some keytab
               ∧ path_exists demo_host keytab = true).
Proof.
  assert (missing_params demo_config = []) as Hm by (vm_compute; reflexivity).
  assert (_validate_config demo_host demo_config = Ok tt) as Hok
    by (vm_compute; reflexivity).
  assert (demo_config !! "keytab_path" = Some (VStr "/etc/security/app.keytab")) as Ek'
    by (vm_compute; reflexivity).
  assert (path_exists lost_keytab_host (VStr "/etc/security/app.keytab") = false) as Hp
    by reflexivity.
  split.
  - destruct (proj1 (validate_checks_keytab lost_keytab_host demo_config) Hm)
      as (keytab & Ek & Hv).
    rewrite Ek' in Ek. injection Ek as <-.
    rewrite Hp in Hv. cbv iota in Hv. exact Hv.
  - exact (proj2 (proj2 (validate_checks_keytab demo_host demo_config) Hok)).
Defined.

(** * Credential setup *)

(** X5.  With a JAAS file configured, [_setup_kerberos] writes no file
    and leaves the configuration and the caches as they are; it sets
    [KRB5_CONFIG] and [KRB5CCNAME] (from the user id) in the process
    environment.  When the configured path holds no NUL character it
    cannot fail, and sets [JAVA_OPTS] to point at the configured file.
    When the path holds one, the assignment to [JAVA_OPTS] fails and the
    failure is raised as a [KafkaKerberosError]. *)
Theorem setup_kerberos_with_given_jaas h s p :
  config s !! "jaas_config_path" = Some p → truthy p = true →
  (has_nul (py_str p) = false →
   ∃ s', _setup_kerberos h s = (Ok tt, s')
         ∧ os_environ s'
           = <["JAVA_OPTS" := "-Djava.security.auth.login.config=" +:+ py_str p]>
               (<["KRB5CCNAME" := "FILE:/tmp/krb5cc_" +:+ pretty (getuid h)]>
                  (<["KRB5_CONFIG" := "/etc/krb5.conf"]> (os_environ s)))
         ∧ files s' = files s
         ∧ session_view s' = session_view s)
  ∧ (has_nul (py_str p) = true →
     ∃ s', _setup_kerberos h s
           = (Raise (KafkaKerberosError
                       "Failed to setup Kerberos authentication: embedded null byte"),
              s')
           ∧ os_environ s'
             = <["KRB5CCNAME" := "FILE:/tmp/krb5cc_" +:+ pretty (getuid h)]>
                 (<["KRB5_CONFIG" := "/etc/krb5.conf"]> (os_environ s))
           ∧ files s' = files s
           ∧ session_view s' = session_view s).
Proof.
  intros Hp Ht.
  destruct (kerberos_environment_fields h s) as (_ & Hf & Hv & He).
  split; intros Hnul; eexists.
  - split; [exact (setup_kerberos_given h s p Hp Ht Hnul)|].
    cbn [os_environ files set_log set_environ]. rewrite He. split; [done|].
    split; [exact Hf|]. rewrite <- Hv. reflexivity.
  - split; [exact (setup_kerberos_nul h s p Hp Ht Hnul)|]. done.
Qed.

Lemma setup_kerberos_with_given_jaas_witness :
  (∃ s', _setup_kerberos jaas_host (set_config (λ _, jaas_config) (fresh jaas_host))
         = (Ok tt, s')
         ∧ os_environ s' !! "JAVA_OPTS"
           = Some "-Djava.security.auth.login.config=/etc/kafka/jaas.conf"
         ∧ files s' = ∅)
  ∧ (∃ s', _setup_kerberos nul_path_host
             (set_config (λ _, nul_path_config) (fresh nul_path_host))
           = (Raise (KafkaKerberosError
                       "Failed to setup Kerberos authentication: embedded null byte"),
              s')
           ∧ os_environ s' !! "JAVA_OPTS" = None).
Proof.
  assert (jaas_config !! "jaas_config_path" = Some (VStr "/etc/kafka/jaas.conf")) as Hp
    by (vm_compute; reflexivity).
  assert (nul_path_config !! "jaas_config_path"
          = Some (VStr ("/etc/kafka/jaas" +:+ String zero ".conf"))) as Hq
    by (vm_compute; reflexivity).
  split.
  - destruct (proj1 (setup_kerberos_with_given_jaas jaas_host
                       (set_config (λ _, jaas_config) (fresh jaas_host))
                       (VStr "/etc/kafka/jaas.conf") Hp eq_refl) eq_refl)
      as (s' & Hs & Henv & Hfiles & _).
    exists s'. split; [exact Hs|]. split; [|exact Hfiles].
    rewrite Henv. apply lookup_insert_eq.
  - destruct (proj2 (setup_kerberos_with_given_jaas nul_path_host
                       (set_config (λ _, nul_path_config) (fresh nul_path_host))
                       _ Hq eq_refl) eq_refl)
      as (s' & Hs & Henv & _).
    exists s'. split; [exact Hs|]. rewrite Henv. vm_compute. reflexivity.
Defined.



(** * The constructor *)



Lemma set_defaults_numeric (cfg : gmap string value) key :
  key ∈ numeric_keys → is_Some (set_defaults cfg !! key).
Proof.
  intros Hkey. rewrite set_defaults_lookup.
  destruct (cfg !! key); [by eexists|].
  unfold numeric_keys in Hkey.
  repeat (apply elem_of_cons in Hkey as [->|Hkey]);
    [by eexists..|by apply elem_of_nil in Hkey].
Qed.

(** After a successful [_load_config] the three numeric settings are
    integers. *)
Lemma load_config_numeric h config_file cfg key :
  _load_config h config_file = Ok cfg →
  key ∈ numeric_keys → ∃ z, cfg !! key = Some (VInt z).
Proof.
  intros Hload Hkey.
  destruct (load_config_stages h config_file cfg Hload)
    as (c0 & c1 & c2 & H0 & H1 & H2 & H3).
  set (pre := set_defaults (overlay_env (getenv h) env_config c0)) in *.
  assert (∀ k, k ∈ numeric_keys → is_Some (pre !! k)) as Hpre
    by (intros k Hk; apply set_defaults_numeric, Hk).
  clearbody pre.
  destruct (convert_int_Ok _ _ _ H1) as (O1 & K1).
  destruct (convert_int_Ok _ _ _ H2) as (O2 & K2).
  destruct (convert_int_Ok _ _ _ H3) as (O3 & K3).
  unfold numeric_keys in Hkey.
  repeat (apply elem_of_cons in Hkey as [->|Hkey]).
  - destruct (Hpre "max_poll_records") as [v Hv];
      [apply (bool_decide_unpack _); vm_compute; reflexivity|].
    rewrite Hv in K1. destruct K1 as (z & _ & K1). exists z.
    rewrite O3, O2 by discriminate. exact K1.
  - assert (is_Some (c1 !! "session_timeout_ms")) as [v Hv].
    { rewrite O1 by discriminate. apply Hpre.
      apply (bool_decide_unpack _). vm_compute. reflexivity. }
    rewrite Hv in K2. destruct K2 as (z & _ & K2). exists z.
    rewrite O3 by discriminate. exact K2.
  - assert (is_Some (c2 !! "heartbeat_interval_ms")) as [v Hv].
    { rewrite O2, O1 by discriminate. apply Hpre.
      apply (bool_decide_unpack _). vm_compute. reflexivity. }
    rewrite Hv in K3. destruct K3 as (z & _ & K3). exists z. exact K3.
  - by apply elem_of_nil in Hkey.
Qed.

(** What is not one of the numeric settings is a string. *)
Lemma load_config_string h config_file cfg key var v :
  _load_config h config_file = Ok cfg →
  (key, var) ∈ env_config → key ∉ numeric_keys →
  cfg !! key = Some v → ∃ s, v = VStr s ∧ chosen h config_file key var = Some s.
Proof.
  intros Hload Hin Hnum Hv.
  rewrite (load_config_lookup h config_file cfg key var Hload Hin) in Hv.
  destruct (chosen h config_file key var) as [s|]; [|discriminate Hv].
  change (coerce key s = Some v) in Hv. rewrite coerce_string in Hv by done.
  exists s. split; [congruence|reflexivity].
Qed.

Lemma load_config_defaulted h config_file cfg key :
  _load_config h config_file = Ok cfg →
  key ∈ ["service_name"; "consumer_group_id"; "auto_offset_reset"] →
  ∃ s, cfg !! key = Some (VStr s).
Proof.
  intros Hload Hkey.
  assert (∃ var d, (key, var) ∈ env_config ∧ (key ∉ numeric_keys)
                   ∧ default_value key = Some d) as (var & d & Hin & Hnum & Hd).
  { repeat (apply elem_of_cons in Hkey as [->|Hkey]);
      [ exists "KAFKA_SERVICE_NAME", "kafka"
      | exists "KAFKA_CONSUMER_GROUP_ID", "kafka-utility-group"
      | exists "KAFKA_AUTO_OFFSET_RESET", "earliest"
      | by apply elem_of_nil in Hkey ];
      (split; [apply (bool_decide_unpack _); by vm_compute|]);
      (split; [apply (bool_decide_unpack _); by vm_compute|reflexivity]). }
  rewrite (load_config_lookup h config_file cfg key var Hload Hin).
  unfold chosen.
  destruct (getenv h !! var) as [v|].
  { exists v. change (coerce key v = Some (VStr v)). by apply coerce_string. }
  destruct (kafka_section h config_file !! key) as [v|].
  { exists v. change (coerce key v = Some (VStr v)). by apply coerce_string. }
  rewrite Hd. exists d. change (coerce key d = Some (VStr d)). by apply coerce_string.
Qed.

(** A loaded configuration that [_validate_config] has nothing to report
    as missing is one a session can work with. *)
Lemma load_config_ready h config_file cfg :
  _load_config h config_file = Ok cfg → missing_params cfg = [] → ready cfg.
Proof.
  intros Hload Hm. split; [|split].
  - intros p Hp.
    pose proof (proj1 (missing_params_nil cfg) Hm p Hp) as Hnot.
    unfold not_get in Hnot.
    destruct (cfg !! p) as [v|] eqn:Ev; [|discriminate Hnot].
    destruct (required_is_string h config_file cfg p v Hload Hp Ev) as [s ->].
    exists s. split; [reflexivity|].
    intros ->. discriminate Hnot.
  - intros k Hk. exact (load_config_defaulted h config_file cfg k Hload Hk).
  - intros k Hk. exact (load_config_numeric h config_file cfg k Hload Hk).
Qed.

(** Recording the path of the JAAS file keeps a configuration ready. *)
Lemma ready_jaas cfg v :
  ready cfg → ready (<["jaas_config_path" := v]> cfg).
Proof.
  intros (Hr & Hd & Hn). split; [|split].
  - intros p Hp. rewrite lookup_insert_ne; [by apply Hr|].
    intros <-. revert Hp. apply (bool_decide_unpack _). by vm_compute.
  - intros k Hk. rewrite lookup_insert_ne; [by apply Hd|].
    intros <-. revert Hk. apply (bool_decide_unpack _). by vm_compute.
  - intros k Hk. rewrite lookup_insert_ne; [by apply Hn|].
    intros <-. revert Hk. apply (bool_decide_unpack _). by vm_compute.
Qed.

(** The state a successful [__init__] leaves. *)
Lemma init_Ok h config_file s :
  __init__ h config_file (fresh h) = (Ok tt, s) →
  ∃ cfg p,
    DOTENV_AVAILABLE h = true
    ∧ _load_config h config_file = Ok cfg
    ∧ open_append h log_file = None
    ∧ _validate_config h cfg = Ok tt
    ∧ ready cfg
    ∧ p ≠ EmptyString
    ∧ config s = <["jaas_config_path" := VStr p]> cfg
    ∧ (cfg !! "jaas_config_path" = Some (VStr p) ∧ has_nul p = false
       ∧ files s = {[ log_file := EmptyString ]}
       ∨ not_get cfg "jaas_config_path" = true ∧ p = jaas_config_path
         ∧ ∃ keytab principal,
             cfg !! "keytab_path" = Some keytab ∧ cfg !! "principal" = Some principal
             ∧ files s = <[jaas_config_path := jaas_config_content keytab principal]>
                           {[ log_file := EmptyString ]})
    ∧ os_environ s
      = <["JAVA_OPTS" := "-Djava.security.auth.login.config=" +:+ p]>
          (<["KRB5CCNAME" := "FILE:/tmp/krb5cc_" +:+ pretty (getuid h)]>
             (<["KRB5_CONFIG" := "/etc/krb5.conf"]> (getenv h)))
    ∧ _producers s = [] ∧ _consumers s = [] ∧ clients s = [] ∧ closed s = [].
Proof.
  rewrite init_cases.
  destruct (DOTENV_AVAILABLE h) eqn:Hdot; [|discriminate].
  destruct (_load_config h config_file) as [cfg|e0] eqn:Hl; [|discriminate].
  destruct (open_append h log_file) as [e0|] eqn:Ha; [discriminate|].
  destruct (_validate_config h cfg) as [[]|e0] eqn:Hv; [|discriminate].
  intros Hs.
  assert (missing_params cfg = []) as Hm.
  { destruct (missing_params cfg) eqn:Hm; [reflexivity|].
    unfold _validate_config in Hv. rewrite Hm in Hv. discriminate Hv. }
  pose proof (load_config_ready h config_file cfg Hl Hm) as Hready.
  destruct (kerberos_environment_fields h (loaded h cfg)) as (Hc & Hf & Hview & He).
  assert (files (loaded h cfg) = {[ log_file := EmptyString ]}) as Hlog
    by (cbn; by rewrite lookup_empty, insert_empty).
  destruct (not_get cfg "jaas_config_path") eqn:Hnot.
  - destruct Hready as (Hreq & Hrest).
    destruct (Hreq "keytab_path") as (keytab & Hk & _);
      [apply (bool_decide_unpack _); by vm_compute|].
    destruct (Hreq "principal") as (principal & Hp & _);
      [apply (bool_decide_unpack _); by vm_compute|].
    destruct (write_file h jaas_config_path
                (jaas_config_content (VStr keytab) (VStr principal))) as [e|] eqn:Hw.
    + rewrite (setup_kerberos_unwritable h (loaded h cfg) _ _ e Hnot Hk Hp Hw) in Hs.
      discriminate Hs.
    + rewrite (setup_kerberos_written h (loaded h cfg) _ _ Hnot Hk Hp Hw) in Hs.
      injection Hs as <-.
      exists cfg, jaas_config_path. split; [done|]. split; [done|].
      split; [done|]. split; [done|]. split; [exact (conj Hreq Hrest)|].
      split; [discriminate|].
      cbn [config files os_environ _producers _consumers clients closed
           set_log set_config set_environ set_files].
      rewrite Hc, Hf, He, Hlog.
      apply session_view_eq in Hview as (_ & -> & -> & ->).
      unfold kerberos_environment.
      split; [reflexivity|]. split; [|split; [reflexivity|]].
      * right. split; [exact Hnot|]. split; [reflexivity|].
        exists (VStr keytab), (VStr principal).
        split; [exact Hk|]. split; [exact Hp|]. reflexivity.
      * by destruct (GSSAPI_AVAILABLE h).
  - unfold not_get in Hnot.
    destruct (cfg !! "jaas_config_path") as [v|] eqn:Ej; [|discriminate Hnot].
    apply negb_false_iff in Hnot.
    destruct (load_config_string h config_file cfg "jaas_config_path"
                "KAFKA_JAAS_CONFIG_PATH" v Hl) as (p & -> & _);
      [apply (bool_decide_unpack _); by vm_compute
      |apply (bool_decide_unpack _); by vm_compute|exact Ej|].
    destruct (has_nul p) eqn:Hnul.
    { rewrite (setup_kerberos_nul h (loaded h cfg) (VStr p) Ej Hnot Hnul) in Hs.
      discriminate Hs. }
    rewrite (setup_kerberos_given h (loaded h cfg) (VStr p) Ej Hnot Hnul) in Hs.
    injection Hs as <-.
    exists cfg, p. split; [done|]. split; [done|].
    split; [done|]. split; [done|]. split; [exact Hready|].
    split; [by intros ->|].
    cbn [config files os_environ _producers _consumers clients closed
         set_log set_config set_environ set_files].
    rewrite Hc, Hf, He, Hlog.
    apply session_view_eq in Hview as (_ & -> & -> & ->).
    unfold kerberos_environment.
    split; [by rewrite insert_id|]. split; [|split; [reflexivity|]].
    + left. done.
    + by destruct (GSSAPI_AVAILABLE h).
Qed.

(** A constructed session has a configuration it can work with. *)
Lemma init_ready h config_file s :
  __init__ h config_file (fresh h) = (Ok tt, s) → ready (config s).
Proof.
  intros Hinit.
  destruct (init_Ok h config_file s Hinit)
    as (cfg & p & _ & _ & _ & _ & Hready & _ & Hc & _).
  rewrite Hc. by apply ready_jaas.
Qed.

(** X8.  A session that has been constructed has a configuration it can
    work with: the four required settings are non-empty strings, the
    keytab file exists, the three numeric settings are integers and the
    others have at least their defaults; apart from the JAAS path it is
    the configuration that [_load_config] resolved.  The JAAS path is set
    and [JAVA_OPTS] points at it, the two Kerberos variables are set, and
    the caches are empty: no client has been constructed yet. *)
Theorem constructor_postcondition h config_file s :
  __init__ h config_file (fresh h) = (Ok tt, s) →
  ready (config s)
  ∧ (∃ cfg, _load_config h config_file = Ok cfg
            ∧ ∀ key, key ≠ "jaas_config_path" → config s !! key = cfg !! key)
  ∧ (∃ keytab, config s !! "keytab_path" = Some keytab ∧ path_exists h keytab = true)
  ∧ (∃ p, p ≠ EmptyString
          ∧ config s !! "jaas_config_path" = Some (VStr p)
          ∧ os_environ s !! "JAVA_OPTS"
            = Some ("-Djava.security.auth.login.config=" +:+ p))
  ∧ os_environ s !! "KRB5_CONFIG" = Some "/etc/krb5.conf"
  ∧ os_environ s !! "KRB5CCNAME" = Some ("FILE:/tmp/krb5cc_" +:+ pretty (getuid h))
  ∧ _producers s = [] ∧ _consumers s = [] ∧ clients s = []
  ∧ DOTENV_AVAILABLE h = true.
Proof.
  intros Hinit.
  destruct (init_Ok h config_file s Hinit)
    as (cfg & p & Hdot & Hl & _ & Hv & Hready & Hp & Hc & _ & He & Hps & Hcs & Hcl & _).
  split; [rewrite Hc; by apply ready_jaas|].
  split.
  { exists cfg. split; [exact Hl|]. intros key Hkey.
    rewrite Hc. by apply lookup_insert_ne. }
  split.
  { assert (missing_params cfg = []) as Hm.
    { destruct (missing_params cfg) eqn:Hm; [reflexivity|].
      unfold _validate_config in Hv. rewrite Hm in Hv. discriminate Hv. }
    assert (not_get cfg "keytab_path" = false) as Hk.
    { apply (proj1 (missing_params_nil cfg) Hm).
      apply (bool_decide_unpack _). by vm_compute. }
    assert (not_get cfg "bootstrap_servers" = false) as Hb.
    { apply (proj1 (missing_params_nil cfg) Hm).
      apply (bool_decide_unpack _). by vm_compute. }
    unfold not_get in Hk, Hb.
    destruct (cfg !! "keytab_path") as [keytab|] eqn:Ek; [|discriminate Hk].
    destruct (cfg !! "bootstrap_servers") as [servers|] eqn:Eb; [|discriminate Hb].
    exists keytab. rewrite Hc, lookup_insert_ne by discriminate.
    split; [exact Ek|].
    unfold _validate_config, getitem in Hv. rewrite Hm, Ek, Eb in Hv.
    cbn [rbind] in Hv. by destruct (path_exists h keytab). }
  split.
  { exists p. split; [exact Hp|]. rewrite Hc, He.
    split; apply lookup_insert_eq. }
  rewrite He.
  split; [by rewrite !lookup_insert_ne, lookup_insert_eq by discriminate|].
  split; [by rewrite lookup_insert_ne, lookup_insert_eq by discriminate|].
  done.
Qed.

Lemma constructor_postcondition_witness :
  ready (config demo_session)
  ∧ os_environ demo_session !! "KRB5CCNAME" = Some "FILE:/tmp/krb5cc_1000"
  ∧ clients demo_session = [].
Proof.
  assert (fst (__init__ demo_host None (fresh demo_host)) = Ok tt) as Hf
    by (vm_compute; reflexivity).
  pose proof (pair_of_fst _ _ Hf
              : __init__ demo_host None (fresh demo_host) = (Ok tt, demo_session)) as Hinit.
  pose proof (constructor_postcondition demo_host None demo_session Hinit)
    as (Hready & _ & _ & _ & _ & Hcc & _ & _ & Hcl & _).
  exact (conj Hready (conj Hcc Hcl)).
Defined.

(** * The views of a session *)

Lemma close_view br s :
  config (snd (close br s)) = config s
  ∧ clients (snd (close br s)) = clients s
  ∧ (_producers (snd (close br s)) = [] ∧ _consumers (snd (close br s)) = []
     ∨ _producers (snd (close br s)) = _producers s
       ∧ _consumers (snd (close br s)) = _consumers s).
Proof.
  unfold close, try_except, bind, get.
  pose proof (close_each_view br "producer" (_producers s) s) as E1.
  destruct (close_each br "producer" (_producers s) s) as [[[]|e] s1]; cbn [snd] in E1;
    apply session_view_eq in E1 as (E1 & P1 & C1 & L1).
  2: { unfold logger_error, modify. cbn. by eauto. }
  pose proof (close_each_view br "consumer" (_consumers s) s1) as E2.
  destruct (close_each br "consumer" (_consumers s) s1) as [[[]|e] s2]; cbn [snd] in E2;
    apply session_view_eq in E2 as (E2 & P2 & C2 & L2).
  - unfold modify. cbn. split; [congruence|]. split; [congruence|]. by left.
  - unfold logger_error, modify. cbn.
    split; [congruence|]. split; [congruence|]. right. split; congruence.
Qed.

Lemma session_op_config br s s' : session_op br s s' → config s' = config s.
Proof.
  intros [s0 s1 Hstep|s0]; [by apply (session_step_config br)|apply close_config].
Qed.

Lemma session_ops_config br s s' : rtc (session_op br) s s' → config s' = config s.
Proof.
  induction 1 as [|s1 s2 s3 Hop _ IH]; [reflexivity|].
  rewrite IH. by apply (session_op_config br).
Qed.

Lemma producer_view_ready s :
  ready (config s) →
  ∃ servers service,
    config s !! "bootstrap_servers" = Some (VStr servers)
    ∧ config s !! "service_name" = Some (VStr service)
    ∧ _get_producer_config s
      = (Ok {| p_bootstrap_servers := split_on "," servers;
               p_security_protocol := "SASL_PLAINTEXT";
               p_sasl_mechanism := "GSSAPI";
               p_sasl_kerberos_service_name := VStr service;
               p_acks := "all";
               p_retries := 3;
               p_max_in_flight_requests_per_connection := 1 |}, s).
Proof.
  intros (Hreq & Hdef & _).
  destruct (Hreq "bootstrap_servers") as (servers & Hs & _);
    [apply (bool_decide_unpack _); by vm_compute|].
  destruct (Hdef "service_name") as (service & Hn);
    [apply (bool_decide_unpack _); by vm_compute|].
  exists servers, service. split; [exact Hs|]. split; [exact Hn|].
  unfold _get_producer_config, bind, config_getitem, getitem, lift, ret.
  rewrite Hs. cbn [split_servers]. rewrite Hn. reflexivity.
Qed.

Lemma consumer_view_ready s :
  ready (config s) →
  ∃ servers service group reset records session heartbeat,
    config s !! "bootstrap_servers" = Some (VStr servers)
    ∧ config s !! "service_name" = Some (VStr service)
    ∧ config s !! "consumer_group_id" = Some (VStr group)
    ∧ config s !! "auto_offset_reset" = Some (VStr reset)
    ∧ config s !! "max_poll_records" = Some (VInt records)
    ∧ config s !! "session_timeout_ms" = Some (VInt session)
    ∧ config s !! "heartbeat_interval_ms" = Some (VInt heartbeat)
    ∧ _get_consumer_config s
      = (Ok {| c_bootstrap_servers := split_on "," servers;
               c_security_protocol := "SASL_PLAINTEXT";
               c_sasl_mechanism := "GSSAPI";
               c_sasl_kerberos_service_name := VStr service;
               c_group_id := VStr group;
               c_auto_offset_reset := VStr reset;
               c_enable_auto_commit := true;
               c_auto_commit_interval_ms := 1000;
               c_max_poll_records := VInt records;
               c_session_timeout_ms := VInt session;
               c_heartbeat_interval_ms := VInt heartbeat |}, s).
Proof.
  intros (Hreq & Hdef & Hnum).
  destruct (Hreq "bootstrap_servers") as (servers & Hs & _);
    [apply (bool_decide_unpack _); by vm_compute|].
  destruct (Hdef "service_name") as (service & Hn);
    [apply (bool_decide_unpack _); by vm_compute|].
  destruct (Hdef "consumer_group_id") as (group & Hg);
    [apply (bool_decide_unpack _); by vm_compute|].
  destruct (Hdef "auto_offset_reset") as (reset & Hr);
    [apply (bool_decide_unpack _); by vm_compute|].
  destruct (Hnum "max_poll_records") as (records & Hm);
    [apply (bool_decide_unpack _); by vm_compute|].
  destruct (Hnum "session_timeout_ms") as (session & Ht);
    [apply (bool_decide_unpack _); by vm_compute|].
  destruct (Hnum "heartbeat_interval_ms") as (heartbeat & Hh);
    [apply (bool_decide_unpack _); by vm_compute|].
  exists servers, service, group, reset, records, session, heartbeat.
  do 7 (split; [done|]).
  unfold _get_consumer_config, bind, config_getitem, getitem, lift, ret.
  rewrite Hs. cbn [split_servers]. rewrite Hn, Hg, Hr, Hm, Ht, Hh. reflexivity.
Qed.

(** X9.  In every state of a constructed session, whatever has been
    obtained, produced, consumed or closed in between, both views can be
    computed and computing them changes nothing.  They hold the settings
    resolved at construction: the broker list is the configured text split
    at its commas, the same for producer and consumer, as is the service
    name; both ask for [SASL_PLAINTEXT] with [GSSAPI]; the three numeric
    settings reach the consumer as integers. *)
Theorem views_follow_configuration br h config_file s0 s :
  __init__ h config_file (fresh h) = (Ok tt, s0) →
  rtc (session_op br) s0 s →
  ∃ pc cc servers,
    _get_producer_config s = (Ok pc, s)
    ∧ _get_consumer_config s = (Ok cc, s)
    ∧ config s0 !! "bootstrap_servers" = Some (VStr servers)
    ∧ p_bootstrap_servers pc = split_on "," servers
    ∧ c_bootstrap_servers cc = split_on "," servers
    ∧ config s0 !! "service_name" = Some (p_sasl_kerberos_service_name pc)
    ∧ c_sasl_kerberos_service_name cc = p_sasl_kerberos_service_name pc
    ∧ config s0 !! "consumer_group_id" = Some (c_group_id cc)
    ∧ config s0 !! "auto_offset_reset" = Some (c_auto_offset_reset cc)
    ∧ config s0 !! "max_poll_records" = Some (c_max_poll_records cc)
    ∧ config s0 !! "session_timeout_ms" = Some (c_session_timeout_ms cc)
    ∧ config s0 !! "heartbeat_interval_ms" = Some (c_heartbeat_interval_ms cc)
    ∧ (∃ records session heartbeat,
         c_max_poll_records cc = VInt records
         ∧ c_session_timeout_ms cc = VInt session
         ∧ c_heartbeat_interval_ms cc = VInt heartbeat)
    ∧ p_security_protocol pc = "SASL_PLAINTEXT" ∧ p_sasl_mechanism pc = "GSSAPI"
    ∧ c_security_protocol cc = "SASL_PLAINTEXT" ∧ c_sasl_mechanism cc = "GSSAPI".
Proof.
  intros Hinit Hreach.
  pose proof (session_ops_config br s0 s Hreach) as Hcfg.
  assert (ready (config s)) as Hr.
  { rewrite Hcfg. exact (init_ready h config_file s0 Hinit). }
  destruct (producer_view_ready s Hr) as (servers & service & Hs & Hn & Hp).
  destruct (consumer_view_ready s Hr)
    as (servers' & service' & group & reset & records & session & heartbeat
        & Hs' & Hn' & Hg & Hre & Hm & Ht & Hh & Hcv).
  rewrite Hs in Hs'. injection Hs' as <-.
  rewrite Hn in Hn'. injection Hn' as <-.
  rewrite Hcfg in *.
  eexists _, _, servers. split; [exact Hp|]. split; [exact Hcv|].
  cbn. do 10 (split; [done|]).
  split; [by exists records, session, heartbeat|]. done.
Qed.

Lemma views_follow_configuration_witness :
  ∃ pc cc,
    _get_producer_config demo_both = (Ok pc, demo_both)
    ∧ _get_consumer_config demo_both = (Ok cc, demo_both)
    ∧ p_bootstrap_servers pc = ["broker1:9092"; "broker2:9092"]
    ∧ c_max_poll_records cc = VInt 500.
Proof.
  assert (fst (__init__ demo_host None (fresh demo_host)) = Ok tt) as Hf
    by (vm_compute; reflexivity).
  pose proof (pair_of_fst _ _ Hf
              : __init__ demo_host None (fresh demo_host) = (Ok tt, demo_session)) as Hinit.
  assert (config demo_session !! "bootstrap_servers"
          = Some (VStr "broker1:9092,broker2:9092")) as Hservers
    by (vm_compute; reflexivity).
  assert (config demo_session !! "max_poll_records" = Some (VInt 500)) as Hrecords
    by (vm_compute; reflexivity).
  assert (rtc (session_op (demo_broker [])) demo_session demo_both) as Hreach.
  { unfold demo_both, demo_producing.
    eapply rtc_l; [apply op_use, (step_get_handle _ Producer None)|].
    eapply rtc_l; [apply op_use, (step_get_handle _ Consumer None)|].
    apply rtc_refl. }
  destruct (views_follow_configuration (demo_broker []) demo_host None
              demo_session demo_both Hinit Hreach)
    as (pc & cc & servers & Hp & Hc & Hs & Hps & _ & _ & _ & _ & _ & Hm & _).
  exists pc, cc. split; [exact Hp|]. split; [exact Hc|].
  rewrite Hservers in Hs. injection Hs as <-.
  rewrite Hrecords in Hm. injection Hm as <-.
  split; [exact Hps|reflexivity].
Defined.

(** * Handles *)

Lemma topic_or_default_ready topic s :
  ready (config s) → ∃ t, topic_or_default topic s = (Ok t, s).
Proof.
  intros (Hreq & _).
  destruct (Hreq "topic") as (name & Ht & _);
    [apply (bool_decide_unpack _); by vm_compute|].
  unfold topic_or_default, config_getitem, getitem.
  destruct topic as [t|]; [destruct (truthy t)|]; rewrite ?Ht; by eexists.
Qed.

Lemma settings_of_config role s s' :
  config s' = config s → settings_of role s' = settings_of role s.
Proof.
  intros E. unfold settings_of, _get_producer_config, _get_consumer_config,
    bind, config_getitem, lift, ret.
  destruct role; rewrite E;
    repeat match goal with
           | |- context [getitem ?c ?k] => destruct (getitem c k)
           | |- context [split_servers ?v] => destruct (split_servers v)
           end; reflexivity.
Qed.

Lemma settings_of_ready role s :
  ready (config s) → ∃ settings, settings_of role s = Some settings.
Proof.
  intros Hr. unfold settings_of. destruct role.
  - destruct (producer_view_ready s Hr) as (? & ? & _ & _ & ->). by eexists.
  - destruct (consumer_view_ready s Hr)
      as (? & ? & ? & ? & ? & ? & ? & _ & _ & _ & _ & _ & _ & _ & ->). by eexists.
Qed.

(** The [try] statement of [get_producer] and of [get_consumer], when the
    view can be computed: the client is constructed with the view, or the
    exception of the constructor is wrapped and nothing has changed. *)
Lemma try_create_settings br role t s settings :
  settings_of role s = Some settings →
  match role with
  | Producer => try_create_producer br t s
  | Consumer => try_create_consumer br t s
  end
  = match connect br {| client_role := role; client_topic := t;
                        client_settings := settings |} (length (clients s)) with
    | None => (Ok tt, constructed role t settings s)
    | Some cause =>
        (Raise (KafkaKerberosError
                  ("Failed to create " +:+ role_name role +:+ " for topic "
                   +:+ py_str t +:+ ": " +:+ exc_str cause)), s)
    end.
Proof.
  unfold settings_of. destruct role.
  - pose proof (get_producer_config_state s) as Hs.
    unfold try_create_producer, try_except, bind.
    destruct (_get_producer_config s) as [[cfg|e] s0]; cbn [fst snd] in *;
      [|discriminate]. subst s0. intros [= <-].
    unfold KafkaProducer, new_client.
    destruct (connect br _ (length (clients s))); reflexivity.
  - pose proof (get_consumer_config_state s) as Hs.
    unfold try_create_consumer, try_except, bind.
    destruct (_get_consumer_config s) as [[cfg|e] s0]; cbn [fst snd] in *;
      [|discriminate]. subst s0. intros [= <-].
    unfold KafkaConsumer, new_client.
    destruct (connect br _ (length (clients s))); reflexivity.
Qed.

Lemma try_create_no_settings br role t s :
  settings_of role s = None →
  ∃ e, match role with
       | Producer => try_create_producer br t s
       | Consumer => try_create_consumer br t s
       end = (Raise e, s).
Proof.
  unfold settings_of. destruct role.
  - pose proof (get_producer_config_state s) as Hs.
    unfold try_create_producer, try_except, bind.
    destruct (_get_producer_config s) as [[cfg|e] s0]; cbn [fst snd] in *;
      [discriminate|]. subst s0. intros _. by eexists.
  - pose proof (get_consumer_config_state s) as Hs.
    unfold try_create_consumer, try_except, bind.
    destruct (_get_consumer_config s) as [[cfg|e] s0]; cbn [fst snd] in *;
      [discriminate|]. subst s0. intros _. by eexists.
Qed.

(** [get_handle] once its topic is resolved. *)
Lemma get_handle_resolved br role topic s t :
  topic_or_default topic s = (Ok t, s) →
  get_handle br role topic s
  = match cache_get (cache_of role s) t with
    | Some c => (Ok c, s)
    | None =>
        match match role with
              | Producer => try_create_producer br t s
              | Consumer => try_create_consumer br t s
              end with
        | (Ok _, s') => (cache_getitem (cache_of role s') t, s')
        | (Raise e, s') => (Raise e, s')
        end
    end.
Proof.
  intros Ht.
  destruct role; unfold get_handle, get_producer, get_consumer, bind, get;
    rewrite Ht; cbn [cache_of].
  - destruct (cache_get (_producers s) t) as [c|] eqn:Ec.
    + unfold ret, lift, cache_getitem. by rewrite Ec.
    + by destruct (try_create_producer br t s) as [[[]|e] s'].
  - destruct (cache_get (_consumers s) t) as [c|] eqn:Ec.
    + unfold ret, lift, cache_getitem. by rewrite Ec.
    + by destruct (try_create_consumer br t s) as [[[]|e] s'].
Qed.

Lemma get_handle_with_settings br role topic s t settings :
  topic_or_default topic s = (Ok t, s) →
  settings_of role s = Some settings →
  get_handle br role topic s
  = match cache_get (cache_of role s) t with
    | Some c => (Ok c, s)
    | None =>
        match connect br {| client_role := role; client_topic := t;
                            client_settings := settings |} (length (clients s)) with
        | None => (Ok (length (clients s)), constructed role t settings s)
        | Some cause =>
            (Raise (KafkaKerberosError
                      ("Failed to create " +:+ role_name role +:+ " for topic "
                       +:+ py_str t +:+ ": " +:+ exc_str cause)), s)
        end
    end.
Proof.
  intros Ht Hs. rewrite (get_handle_resolved br role topic s t Ht).
  destruct (cache_get (cache_of role s) t); [reflexivity|].
  rewrite (try_create_settings br role t s settings Hs).
  destruct (connect br _ (length (clients s))); [reflexivity|].
  unfold cache_getitem. by rewrite constructed_cache, cache_get_set.
Qed.

(** X10.  In a session, [get_handle] returns the cached handle when there
    is one.  Otherwise it constructs a client with the settings of the view
    and the resolved topic; it fails exactly when that constructor does,
    with a [KafkaKerberosError] that names the role, the topic and the
    cause, and then nothing has been cached or changed, so that the next
    call tries again. *)
Theorem get_handle_fails_only_on_connect br role topic s :
  ready (config s) →
  ∃ t settings,
    fst (topic_or_default topic s) = Ok t
    ∧ settings_of role s = Some settings
    ∧ get_handle br role topic s
      = match cache_get (cache_of role s) t with
        | Some c => (Ok c, s)
        | None =>
            match connect br {| client_role := role; client_topic := t;
                                client_settings := settings |} (length (clients s)) with
            | None => (Ok (length (clients s)), constructed role t settings s)
            | Some cause =>
                (Raise (KafkaKerberosError
                          ("Failed to create " +:+ role_name role +:+ " for topic "
                           +:+ py_str t +:+ ": " +:+ exc_str cause)), s)
            end
        end.
Proof.
  intros Hr.
  destruct (topic_or_default_ready topic s Hr) as (t & Ht).
  destruct (settings_of_ready role s Hr) as (settings & Hs).
  exists t, settings. split; [by rewrite Ht|]. split; [exact Hs|].
  exact (get_handle_with_settings br role topic s t settings Ht Hs).
Qed.

Lemma get_handle_fails_only_on_connect_witness :
  get_handle unreachable_broker Producer None demo_session
  = (Raise (KafkaKerberosError
              "Failed to create producer for topic events: NoBrokersAvailable"),
     demo_session).
Proof.
  assert (fst (__init__ demo_host None (fresh demo_host)) = Ok tt) as Hf
    by (vm_compute; reflexivity).
  pose proof (pair_of_fst _ _ Hf
              : __init__ demo_host None (fresh demo_host) = (Ok tt, demo_session)) as Hinit.
  pose proof (init_ready demo_host None demo_session Hinit) as Hr.
  assert (fst (topic_or_default None demo_session) = Ok (VStr "events")) as Ht0
    by (vm_compute; reflexivity).
  assert (cache_get (cache_of Producer demo_session) (VStr "events") = None) as Hmiss
    by (vm_compute; reflexivity).
  destruct (get_handle_fails_only_on_connect unreachable_broker Producer None
              demo_session Hr) as (t & settings & Ht & _ & Hget).
  rewrite Ht0 in Ht. injection Ht as <-.
  rewrite Hmiss in Hget. exact Hget.
Defined.

(** * Handles and the clients behind them *)

Lemma cache_sound_view s s' :
  session_view s' = session_view s → cache_sound s → cache_sound s'.
Proof.
  intros E Hs. apply session_view_eq in E as (Ec & Ep & Eco & Ecl).
  intros role topic c Hc.
  rewrite (settings_of_config role s s' Ec), Ecl.
  apply Hs. by destruct role; cbn [cache_of] in *; rewrite <- ?Ep, <- ?Eco.
Qed.

Lemma cache_sound_constructed role t settings s :
  settings_of role s = Some settings →
  cache_sound s → cache_sound (constructed role t settings s).
Proof.
  intros Hset Hs role' topic' c Hc.
  rewrite (settings_of_config role' s _ (constructed_config role t settings s)).
  rewrite constructed_clients.
  destruct (decide (role' = role)) as [->|Hrole].
  - rewrite constructed_cache in Hc.
    destruct (decide (t = topic')) as [<-|Ht].
    + rewrite cache_get_set in Hc. injection Hc as <-.
      exists settings. split; [exact Hset|].
      by rewrite lookup_app_r, Nat.sub_diag.
    + rewrite cache_get_set_ne in Hc by done.
      destruct (Hs role topic' c Hc) as (st & Hst & Hcl).
      exists st. split; [exact Hst|]. by apply lookup_app_l_Some.
  - rewrite constructed_cache_other in Hc by done.
    destruct (Hs role' topic' c Hc) as (st & Hst & Hcl).
    exists st. split; [exact Hst|]. by apply lookup_app_l_Some.
Qed.

(** What a successful [get_handle] has done. *)
Lemma get_handle_Ok_cases br role topic s c s1 :
  get_handle br role topic s = (Ok c, s1) →
  ∃ t, fst (topic_or_default topic s) = Ok t
       ∧ (cache_get (cache_of role s) t = Some c ∧ s1 = s
          ∨ cache_get (cache_of role s) t = None
            ∧ ∃ settings, settings_of role s = Some settings
                          ∧ c = length (clients s)
                          ∧ s1 = constructed role t settings s).
Proof.
  intros Hget.
  pose proof (topic_or_default_state topic s) as Hs.
  destruct (topic_or_default topic s) as [[t|e] s0] eqn:Ht; cbn [snd] in Hs; subst s0.
  2: { exfalso. destruct role;
         unfold get_handle, get_producer, get_consumer, bind in Hget;
         rewrite Ht in Hget; discriminate Hget. }
  exists t. split; [reflexivity|].
  destruct (cache_get (cache_of role s) t) as [c'|] eqn:Ec.
  - left. rewrite (get_handle_hit br role topic s t c') in Hget;
      [|by rewrite Ht|exact Ec]. by injection Hget as <- <-.
  - right. split; [reflexivity|].
    destruct (settings_of role s) as [settings|] eqn:Hset.
    + exists settings. split; [reflexivity|].
      rewrite (get_handle_with_settings br role topic s t settings Ht Hset), Ec in Hget.
      destruct (connect br _ (length (clients s))); [discriminate Hget|].
      by injection Hget as <- <-.
    + exfalso. rewrite (get_handle_resolved br role topic s t Ht), Ec in Hget.
      destruct (try_create_no_settings br role t s Hset) as [e He].
      rewrite He in Hget. discriminate Hget.
Qed.

Lemma get_handle_Raise br role topic s e s1 :
  get_handle br role topic s = (Raise e, s1) → s1 = s.
Proof.
  intros Hget.
  destruct (get_handle_cases br role topic s)
    as [[e' He]|[(t & c & _ & _ & He)|(t & st & _ & _ & He)]];
    rewrite He in Hget; [|discriminate..]. by injection Hget as _ <-.
Qed.

Lemma cache_sound_get_handle br role topic s :
  cache_sound s → cache_sound (snd (get_handle br role topic s)).
Proof.
  intros Hs.
  destruct (get_handle br role topic s) as [[c|e] s1] eqn:Hget; cbn [snd].
  - destruct (get_handle_Ok_cases br role topic s c s1 Hget)
      as (t & _ & [[_ ->]|(_ & settings & Hset & _ & ->)]); [exact Hs|].
    by apply cache_sound_constructed.
  - by rewrite (get_handle_Raise br role topic s e s1 Hget).
Qed.

Lemma cache_sound_empty s :
  _producers s = [] → _consumers s = [] → cache_sound s.
Proof.
  intros Hp Hc role topic c. by destruct role; cbn [cache_of]; rewrite ?Hp, ?Hc.
Qed.

Lemma cache_sound_op br s s' :
  session_op br s s' → cache_sound s → cache_sound s'.
Proof.
  intros [s0 s1 Hstep|s0] Hs.
  - destruct (session_step_view br s0 s1 Hstep) as [E|(role & topic & E)].
    + by apply (cache_sound_view s0).
    + apply (cache_sound_view _ _ E). by apply cache_sound_get_handle.
  - destruct (close_view br s0) as (Ec & Ecl & [[Ep Eco]|[Ep Eco]]).
    + by apply cache_sound_empty.
    + apply (cache_sound_view s0); [|exact Hs].
      apply session_view_eq. done.
Qed.

Lemma cache_sound_ops br s s' :
  rtc (session_op br) s s' → cache_sound s → cache_sound s'.
Proof.
  induction 1 as [|s1 s2 s3 Hop _ IH]; [done|].
  intros Hs. apply IH. by apply (cache_sound_op br s1).
Qed.

(** Whether it succeeds or not, [__init__] leaves the caches empty. *)
Lemma init_empty_caches h config_file :
  _producers (snd (__init__ h config_file (fresh h))) = []
  ∧ _consumers (snd (__init__ h config_file (fresh h))) = [].
Proof.
  rewrite init_cases.
  destruct (DOTENV_AVAILABLE h); [|done].
  destruct (_load_config h config_file) as [cfg|e]; [|done].
  destruct (open_append h log_file) as [e|]; [done|].
  destruct (_validate_config h cfg) as [[]|e]; [|done].
  destruct (setup_kerberos_effect h (loaded h cfg)) as [E|[_ E]];
    apply session_view_eq in E as (_ & -> & -> & _); done.
Qed.

(** An entry of a cache stays where it is when a handle is obtained. *)
Lemma get_handle_keeps br role topic s role' t c :
  cache_get (cache_of role' s) t = Some c →
  cache_get (cache_of role' (snd (get_handle br role topic s))) t = Some c.
Proof.
  intros Hc.
  destruct (get_handle_cases br role topic s)
    as [[e ->]|[(t' & c' & _ & _ & ->)|(t' & st & _ & Hmiss & ->)]];
    cbn [snd]; try exact Hc.
  destruct (decide (role' = role)) as [->|Hrole].
  - rewrite constructed_cache, cache_get_set_ne; [exact Hc|].
    intros ->. congruence.
  - by rewrite constructed_cache_other.
Qed.

(** X11.  In a session, two handles obtained one after the other are the
    same object exactly when they were asked for the same role and their
    topics resolve to the same topic; and the client behind a handle has
    been constructed for that role and topic with the settings of the
    view. *)
Theorem handles_identify_role_and_topic br h config_file s
    role1 topic1 c1 s1 role2 topic2 c2 s2 :
  rtc (session_op br) (snd (__init__ h config_file (fresh h))) s →
  get_handle br role1 topic1 s = (Ok c1, s1) →
  get_handle br role2 topic2 s1 = (Ok c2, s2) →
  (c1 = c2 ↔
   role1 = role2 ∧ fst (topic_or_default topic1 s) = fst (topic_or_default topic2 s))
  ∧ ∃ t settings,
      fst (topic_or_default topic1 s) = Ok t
      ∧ settings_of role1 s = Some settings
      ∧ clients s1 !! c1 = Some {| client_role := role1; client_topic := t;
                                   client_settings := settings |}.
Proof.
  intros Hreach H1 H2.
  assert (cache_sound s) as Hs.
  { apply (cache_sound_ops br _ _ Hreach).
    destruct (init_empty_caches h config_file). by apply cache_sound_empty. }
  pose proof (cache_sound_get_handle br role1 topic1 s Hs) as Hs1.
  rewrite H1 in Hs1. cbn [snd] in Hs1.
  pose proof (cache_sound_get_handle br role2 topic2 s1 Hs1) as Hs2.
  rewrite H2 in Hs2. cbn [snd] in Hs2.
  destruct (get_handle_Ok br role1 topic1 s c1 s1 H1) as (t1 & Ht1 & Hc1 & Hcfg1 & _).
  destruct (get_handle_Ok br role2 topic2 s1 c2 s2 H2) as (t2 & Ht2 & Hc2 & Hcfg2 & _).
  rewrite (topic_or_default_config_only topic2 s s1 Hcfg1) in Ht2.
  split.
  - rewrite Ht1, Ht2. split.
    + intros <-.
      pose proof (get_handle_keeps br role2 topic2 s1 role1 t1 c1 Hc1) as Hk.
      rewrite H2 in Hk. cbn [snd] in Hk.
      destruct (Hs2 role1 t1 c1 Hk) as (st1 & _ & Hcl1).
      destruct (Hs2 role2 t2 c1 Hc2) as (st2 & _ & Hcl2).
      rewrite Hcl1 in Hcl2. by injection Hcl2 as -> -> _.
    + intros [<- [= <-]].
      rewrite (get_handle_hit br role1 topic2 s1 t1 c1) in H2.
      * by injection H2 as ->.
      * by rewrite (topic_or_default_config_only topic2 s s1 Hcfg1).
      * exact Hc1.
  - destruct (Hs1 role1 t1 c1 Hc1) as (st & Hst & Hcl).
    exists t1, st. split; [exact Ht1|].
    split; [by rewrite <- (settings_of_config role1 s s1 Hcfg1)|exact Hcl].
Qed.

Lemma handles_identify_role_and_topic_witness :
  (0%nat = 1%nat ↔
   Producer = Consumer
   ∧ fst (topic_or_default None demo_session) = fst (topic_or_default None demo_session))
  ∧ ∃ t settings,
      fst (topic_or_default None demo_session) = Ok t
      ∧ settings_of Producer demo_session = Some settings
      ∧ clients demo_producing !! 0%nat
        = Some {| client_role := Producer; client_topic := t;
                  client_settings := settings |}.
Proof.
  assert (fst (get_handle (demo_broker []) Producer None demo_session) = Ok 0%nat)
    as Hf1 by (vm_compute; reflexivity).
  pose proof (pair_of_fst _ _ Hf1
              : get_handle (demo_broker []) Producer None demo_session
                = (Ok 0%nat, demo_producing)) as H1.
  assert (fst (get_handle (demo_broker []) Consumer None demo_producing) = Ok 1%nat)
    as Hf2 by (vm_compute; reflexivity).
  pose proof (pair_of_fst _ _ Hf2
              : get_handle (demo_broker []) Consumer None demo_producing
                = (Ok 1%nat, demo_both)) as H2.
  assert (rtc (session_op (demo_broker []))
            (snd (__init__ demo_host None (fresh demo_host))) demo_session) as Hreach.
  { unfold demo_session. apply rtc_refl. }
  exact (handles_identify_role_and_topic (demo_broker []) demo_host None demo_session
           Producer None 0%nat demo_producing Consumer None 1%nat demo_both
           Hreach H1 H2).
Defined.

(** * Producing *)

Lemma get_handle_same_topic br role topic s t :
  fst (topic_or_default topic s) = Ok t →
  get_handle br role (Some t) s = get_handle br role topic s.
Proof.
  intros Ht. pose proof (topic_or_default_idem topic s t Ht) as Hidem.
  pose proof (topic_or_default_state topic s) as Hs.
  destruct role; unfold get_handle, get_producer, get_consumer, bind; rewrite Hidem;
    destruct (topic_or_default topic s) as [r s0]; cbn [fst snd] in Ht, Hs;
    by subst r s0.
Qed.

(** Obtaining a handle touches neither the record of what was sent, nor
    the record of what was closed, nor the process around the session;
    what it logs is at most the line of the construction. *)
Lemma get_handle_frame br role topic s :
  sent (snd (get_handle br role topic s)) = sent s
  ∧ closed (snd (get_handle br role topic s)) = closed s
  ∧ polled (snd (get_handle br role topic s)) = polled s
  ∧ os_environ (snd (get_handle br role topic s)) = os_environ s
  ∧ files (snd (get_handle br role topic s)) = files s
  ∧ ∃ lines, log (snd (get_handle br role topic s)) = (log s ++ lines)%list.
Proof.
  destruct (get_handle_cases br role topic s)
    as [[e ->]|[(t & c & _ & _ & ->)|(t & st & _ & _ & ->)]]; cbn [snd].
  - do 5 (split; [reflexivity|]). exists []. by rewrite app_nil_r.
  - do 5 (split; [reflexivity|]). exists []. by rewrite app_nil_r.
  - destruct role; do 5 (split; [reflexivity|]); by eexists.
Qed.

Lemma produce_message_resolved br message key topic s t :
  topic_or_default topic s = (Ok t, s) →
  produce_message br message key topic s
  = match get_producer br (Some t) s with
    | (Raise e, s1) =>
        (Raise (KafkaKerberosError ("Message production failed: " +:+ exc_str e)),
         set_log (λ l, (l ++ [ERROR ("Failed to produce message to topic " +:+ py_str t
                                     +:+ ": " +:+ exc_str e)])%list) s1)
    | (Ok p, s1) =>
        let s2 := set_sent (λ l, (l ++ [(p, t, message, key)])%list) s1 in
        match send br p (length (sent s1)) t message key with
        | Raise e =>
            (Raise (KafkaKerberosError ("Message production failed: " +:+ exc_str e)),
             set_log (λ l, (l ++ [ERROR ("Failed to produce message to topic "
                                         +:+ py_str t +:+ ": " +:+ exc_str e)])%list) s2)
        | Ok md =>
            (Ok true,
             set_log (λ l, (l ++ [INFO ("Message sent successfully to topic "
                                        +:+ md_topic md
                                        +:+ " partition " +:+ pretty (md_partition md)
                                        +:+ " offset " +:+ pretty (md_offset md))])%list) s2)
        end
    end.
Proof.
  intros Ht. unfold produce_message, bind, try_except. rewrite Ht.
  destruct (get_producer br (Some t) s) as [[p|e] s1]; [|reflexivity].
  unfold get, modify, lift.
  destruct (send br p (length (sent s1)) t message key); reflexivity.
Qed.

(** X12.  Once its topic is resolved, [produce_message] has two outcomes.
    It returns [True]: the producer of the topic was obtained, the send of
    this message to it succeeded, and that send is the one thing added to
    what the session has sent.  Or it raises a [KafkaKerberosError] whose
    message is [Message production failed:] followed by the cause, after
    logging the cause as an error; the cause is the failure to obtain the
    producer, and then nothing was sent, or the failure of the send.  It
    never returns [False]. *)
Theorem produce_message_outcome br message key topic s t :
  fst (topic_or_default topic s) = Ok t →
  (∃ p md s',
     produce_message br message key topic s = (Ok true, s')
     ∧ fst (get_handle br Producer topic s) = Ok p
     ∧ send br p (length (sent s)) t message key = Ok md
     ∧ sent s' = (sent s ++ [(p, t, message, key)])%list
     ∧ session_view s' = session_view (snd (get_handle br Producer topic s)))
  ∨ (∃ cause s' logged,
       produce_message br message key topic s
       = (Raise (KafkaKerberosError ("Message production failed: " +:+ cause)), s')
       ∧ log s' = (logged ++ [ERROR ("Failed to produce message to topic "
                                     +:+ py_str t +:+ ": " +:+ cause)])%list
       ∧ session_view s' = session_view (snd (get_handle br Producer topic s))
       ∧ ((∃ e, fst (get_handle br Producer topic s) = Raise e ∧ cause = exc_str e
                ∧ sent s' = sent s)
          ∨ (∃ p e, fst (get_handle br Producer topic s) = Ok p
                    ∧ send br p (length (sent s)) t message key = Raise e
                    ∧ cause = exc_str e
                    ∧ sent s' = (sent s ++ [(p, t, message, key)])%list))).
Proof.
  intros Ht.
  pose proof (topic_or_default_state topic s) as Hs.
  assert (topic_or_default topic s = (Ok t, s)) as Ht'.
  { destruct (topic_or_default topic s) as [r s0]. cbn [fst snd] in *. by subst. }
  rewrite (produce_message_resolved br message key topic s t Ht').
  rewrite <- (get_handle_same_topic br Producer topic s t Ht).
  destruct (get_handle_frame br Producer (Some t) s) as (Hsent & _).
  cbn [get_handle] in *.
  destruct (get_producer br (Some t) s) as [[p|e] s1]; cbn [fst snd] in *.
  - rewrite Hsent.
    destruct (send br p (length (sent s)) t message key) as [md|e] eqn:Hsend.
    + left. exists p, md. eexists. split; [reflexivity|].
      split; [reflexivity|]. split; [exact Hsend|].
      cbn [sent set_log set_sent]. by rewrite Hsent.
    + right. exists (exc_str e). eexists _, _. split; [reflexivity|].
      split; [reflexivity|]. split; [reflexivity|].
      right. exists p, e. cbn [sent set_log set_sent]. rewrite Hsent.
      split; [reflexivity|]. split; [exact Hsend|]. done.
  - right. exists (exc_str e). eexists _, _. split; [reflexivity|].
    split; [reflexivity|]. split; [reflexivity|].
    left. exists e. done.
Qed.

Lemma produce_message_outcome_witness :
  (∃ p md s',
     produce_message (demo_broker []) "{}" (Some "user_123") None demo_session
     = (Ok true, s')
     ∧ fst (get_handle (demo_broker []) Producer None demo_session) = Ok p
     ∧ send (demo_broker []) p (length (sent demo_session)) (VStr "events") "{}"
         (Some "user_123") = Ok md
     ∧ sent s' = (sent demo_session ++ [(p, VStr "events", "{}", Some "user_123")])%list
     ∧ session_view s'
       = session_view (snd (get_handle (demo_broker []) Producer None demo_session))).
Proof.
  assert (fst (topic_or_default None demo_session) = Ok (VStr "events")) as Ht
    by (vm_compute; reflexivity).
  assert (fst (produce_message (demo_broker []) "{}" (Some "user_123") None demo_session)
          = Ok true) as Hok by (vm_compute; reflexivity).
  destruct (produce_message_outcome (demo_broker []) "{}" (Some "user_123") None
              demo_session (VStr "events") Ht) as [Hsent|(cause & s' & lg & Hr & _)].
  - exact Hsent.
  - exfalso. rewrite Hr in Hok. discriminate Hok.
Defined.

(** * Consuming: failures, the cap, the handler *)

Lemma topic_or_default_Ok topic s t :
  fst (topic_or_default topic s) = Ok t → topic_or_default topic s = (Ok t, s).
Proof.
  intros Ht. pose proof (topic_or_default_state topic s) as Hs.
  destruct (topic_or_default topic s) as [r s0]. cbn [fst snd] in *. by subst.
Qed.

Lemma consume_messages_resolved {H} br (handler : option (Handler H)) max_messages
    fuel topic timeout_ms hs s t :
  topic_or_default topic s = (Ok t, s) →
  consume_messages br handler max_messages fuel topic timeout_ms hs s
  = match get_consumer br (Some t) s with
    | (Raise e, s1) =>
        Some (Raise (KafkaKerberosError ("Message consumption failed: " +:+ exc_str e)),
              hs,
              set_log (λ l, (l ++ [ERROR ("Failed to consume messages from topic "
                                          +:+ py_str t +:+ ": " +:+ exc_str e)])%list) s1)
    | (Ok c, s1) =>
        match consume_loop br handler max_messages fuel c timeout_ms
                {| messages := []; message_count := 0 |} hs s1 with
        | None => None
        | Some (Ok l, hs', s2) => Some (Ok (messages l), hs', s2)
        | Some (Raise e, hs', s2) =>
            Some (Raise (KafkaKerberosError
                           ("Message consumption failed: " +:+ exc_str e)),
                  hs',
                  set_log (λ l, (l ++ [ERROR ("Failed to consume messages from topic "
                                              +:+ py_str t +:+ ": " +:+ exc_str e)])%list)
                    s2)
        end
    end.
Proof.
  intros Ht. unfold consume_messages. rewrite Ht.
  destruct (get_consumer br (Some t) s) as [[c|e] s1]; [|reflexivity].
  destruct (consume_loop br handler max_messages fuel c timeout_ms _ hs s1)
    as [[[[l|e] hs'] s2]|]; reflexivity.
Qed.

(** X13.  When the polls of a schedule return batches, none of them
    empty and not enough to reach the cap, and the next poll fails,
    [consume_messages] raises a [KafkaKerberosError] whose message is
    [Message consumption failed:] followed by the cause, after logging the
    cause as an error: the messages read until then are not returned.  The
    failing poll is the last one made. *)
Theorem consume_fails_when_a_poll_fails {H} br (handler : option (Handler H))
    max_messages fuel topic timeout_ms hs s c s1 (batches : list Batch) e :
  get_consumer br topic s = (Ok c, s1) →
  (∀ i, (i < length batches)%nat →
        poll br c (polls_made s1 c + i) timeout_ms = Ok (nth i batches [])) →
  Forall (λ b, b ≠ []) batches →
  (∀ j, 0 ≤ j ≤ Z.of_nat (length (records_of batches)) →
        cap_reached max_messages j = false) →
  poll br c (polls_made s1 c + length batches) timeout_ms = Raise e →
  (length batches < fuel)%nat →
  ∃ t hs' s' logged,
    fst (topic_or_default topic s) = Ok t
    ∧ consume_messages br handler max_messages fuel topic timeout_ms hs s
      = Some (Raise (KafkaKerberosError
                       ("Message consumption failed: " +:+ exc_str e)), hs', s')
    ∧ log s' = (logged ++ [ERROR ("Failed to consume messages from topic "
                                  +:+ py_str t +:+ ": " +:+ exc_str e)])%list
    ∧ polls_made s' c = (polls_made s1 c + S (length batches))%nat.
Proof.
  intros Hget Hpoll Hne Hcap Hfail Hfuel.
  destruct (get_handle_Ok br Consumer topic s c s1 Hget) as (t & Ht & _).
  pose proof (topic_or_default_Ok topic s t Ht) as Ht'.
  rewrite (consume_messages_resolved br handler max_messages fuel topic timeout_ms
             hs s t Ht').
  pose proof (get_handle_same_topic br Consumer topic s t Ht) as Hsame.
  cbn [get_handle] in Hsame. rewrite Hsame, Hget.
  destruct (consume_loop_prefix br handler max_messages c timeout_ms batches
              (Z.of_nat (length (records_of batches)) + 1)
              {| messages := []; message_count := 0 |} hs s1
              (S (fuel - S (length batches))))
    as (hs' & s' & Eloop & Hpolls & _).
  { exact Hpoll. }
  { exact Hne. }
  { intros j Hj. cbn [message_count]. rewrite Z.add_0_l. apply Hcap. lia. }
  { intros k Hk. pose proof (records_of_take_le batches k). lia. }
  { lia. }
  replace (length batches + S (fuel - S (length batches)))%nat with fuel in Eloop by lia.
  rewrite Eloop.
  rewrite (consume_loop_S br handler max_messages _ c timeout_ms _ hs' s').
  cbn [message_count messages].
  rewrite Z.add_0_l, Hcap by lia.
  destruct (consumer_poll_spec br c timeout_ms s') as (s2 & Ep & Hp2 & _).
  rewrite Ep, Hpolls, Hfail.
  exists t, hs'. eexists _, _. split; [exact Ht|]. split; [reflexivity|].
  split; [reflexivity|]. unfold polls_made in *. cbn [polled set_log]. lia.
Qed.

Lemma consume_fails_when_a_poll_fails_witness :
  ∃ t hs' s' logged,
    fst (topic_or_default None demo_session) = Ok t
    ∧ consume_messages (failing_broker two_records) (None : option (Handler unit))
        (Some 5) 2 None 1000 tt demo_session
      = Some (Raise (KafkaKerberosError
                       ("Message consumption failed: " +:+ "KafkaTimeoutError")), hs', s')
    ∧ log s' = (logged ++ [ERROR ("Failed to consume messages from topic "
                                  +:+ py_str t +:+ ": " +:+ "KafkaTimeoutError")])%list
    ∧ polls_made s' 0%nat
      = (polls_made (snd (get_consumer (failing_broker two_records) None demo_session))
           0%nat + 2)%nat.
Proof.
  assert (Forall (λ b : Batch, b ≠ []) two_records) as Hne.
  { unfold two_records.
    repeat apply Forall_cons_2; try apply Forall_nil_2; intros E; inversion E. }
  assert (∀ j, 0 ≤ j ≤ Z.of_nat (length (records_of two_records)) →
               cap_reached (Some 5) j = false) as Hcap.
  { intros j Hj. destruct (cap_reached (Some 5) j) eqn:E; [|reflexivity].
    apply cap_reached_Some in E. cbn in Hj. lia. }
  assert (fst (get_consumer (failing_broker two_records) None demo_session) = Ok 0%nat)
    as Hf by (vm_compute; reflexivity).
  pose proof (pair_of_fst _ _ Hf) as Hget.
  assert (polls_made (snd (get_consumer (failing_broker two_records) None demo_session))
            0%nat = 0%nat) as Hp by (vm_compute; reflexivity).
  assert (∀ i, (i < length two_records)%nat →
               poll (failing_broker two_records) 0%nat
                 (polls_made (snd (get_consumer (failing_broker two_records) None
                                     demo_session)) 0%nat + i) 1000
               = Ok (nth i two_records [])) as Hpoll.
  { intros i Hi. rewrite Hp. cbn [poll failing_broker]. by rewrite decide_True. }
  assert (poll (failing_broker two_records) 0%nat
            (polls_made (snd (get_consumer (failing_broker two_records) None
                                demo_session)) 0%nat + length two_records) 1000
          = Raise (Exc KafkaErrorT "KafkaTimeoutError")) as Hfail.
  { rewrite Hp. reflexivity. }
  assert (length two_records < 2)%nat as Hfuel by (cbn; lia).
  exact (consume_fails_when_a_poll_fails (failing_broker two_records) None (Some 5) 2
           None 1000 tt demo_session 0%nat _ two_records _
           Hget Hpoll Hne Hcap Hfail Hfuel).
Defined.

Lemma try_create_raises br role t s e s' :
  match role with
  | Producer => try_create_producer br t s
  | Consumer => try_create_consumer br t s
  end = (Raise e, s') →
  exc_type e = KafkaKerberosErrorT.
Proof.
  destruct role.
  - unfold try_create_producer, try_except, bind.
    destruct (_get_producer_config s) as [[cfg|e0] s0].
    2: { unfold raise. by intros [= <- _]. }
    destruct (KafkaProducer br t cfg s0) as [[c|e0] s1].
    + unfold modify, logger_info. discriminate.
    + unfold raise. by intros [= <- _].
  - unfold try_create_consumer, try_except, bind.
    destruct (_get_consumer_config s) as [[cfg|e0] s0].
    2: { unfold raise. by intros [= <- _]. }
    destruct (KafkaConsumer br t cfg s0) as [[c|e0] s1].
    + unfold modify, logger_info. discriminate.
    + unfold raise. by intros [= <- _].
Qed.

Lemma get_handle_raises br role topic s t e s' :
  fst (topic_or_default topic s) = Ok t →
  get_handle br role topic s = (Raise e, s') →
  exc_type e = KafkaKerberosErrorT.
Proof.
  intros Ht Hget.
  rewrite (get_handle_resolved br role topic s t (topic_or_default_Ok _ _ _ Ht)) in Hget.
  destruct (cache_get (cache_of role s) t) as [c|]; [discriminate Hget|].
  destruct (match role with
            | Producer => try_create_producer br t s
            | Consumer => try_create_consumer br t s
            end) as [[[]|e0] s0] eqn:Htry.
  - exfalso.
    assert (∃ settings, s0 = constructed role t settings s) as [settings ->].
    { destruct role.
      - destruct (try_create_producer_cases br t s) as [[e1 He]|[cfg He]];
          rewrite He in Htry; [discriminate Htry|]. injection Htry as <-. by eexists.
      - destruct (try_create_consumer_cases br t s) as [[e1 He]|[cfg He]];
          rewrite He in Htry; [discriminate Htry|]. injection Htry as <-. by eexists. }
    unfold cache_getitem in Hget.
    rewrite constructed_cache, cache_get_set in Hget. discriminate Hget.
  - injection Hget as <- _. exact (try_create_raises br role t s e0 s0 Htry).
Qed.

Lemma topic_or_default_Raise topic s e :
  fst (topic_or_default topic s) = Raise e →
  e = KeyError "topic" ∧ config s !! "topic" = None
  ∧ topic_or_default topic s = (Raise e, s).
Proof.
  unfold topic_or_default, config_getitem, getitem.
  destruct topic as [t|]; [destruct (truthy t); [discriminate|]|];
    cbn [fst]; destruct (config s !! "topic"); try discriminate;
    by intros [= <-].
Qed.

(** X14.  What [get_handle], [produce_message] and [consume_messages]
    raise depends on the topic alone.  When the topic is given, or is in
    the configuration, every exception of the three is a
    [KafkaKerberosError].  When it is neither, all three raise the
    [KeyError] of the lookup of [topic], unwrapped and unlogged, and change
    nothing. *)
Theorem errors_are_wrapped_once_the_topic_resolves br topic s :
  (∀ t, fst (topic_or_default topic s) = Ok t →
        (∀ role e s',
           get_handle br role topic s = (Raise e, s') →
           exc_type e = KafkaKerberosErrorT)
        ∧ (∀ message key e s',
             produce_message br message key topic s = (Raise e, s') →
             exc_type e = KafkaKerberosErrorT)
        ∧ (∀ H (handler : option (Handler H)) max_messages fuel timeout_ms hs e hs' s',
             consume_messages br handler max_messages fuel topic timeout_ms hs s
             = Some (Raise e, hs', s') →
             exc_type e = KafkaKerberosErrorT))
  ∧ (∀ e, fst (topic_or_default topic s) = Raise e →
          e = KeyError "topic"
          ∧ (∀ role, get_handle br role topic s = (Raise e, s))
          ∧ (∀ message key, produce_message br message key topic s = (Raise e, s))
          ∧ (∀ H (handler : option (Handler H)) max_messages fuel timeout_ms hs,
               consume_messages br handler max_messages fuel topic timeout_ms hs s
               = Some (Raise e, hs, s))).
Proof.
  split.
  - intros t Ht. pose proof (topic_or_default_Ok topic s t Ht) as Ht'.
    split; [|split].
    + intros role e s' Hget. exact (get_handle_raises br role topic s t e s' Ht Hget).
    + intros message key e s'.
      rewrite (produce_message_resolved br message key topic s t Ht').
      destruct (get_producer br (Some t) s) as [[p|e0] s1].
      * destruct (send br p (length (sent s1)) t message key);
          [discriminate|by intros [= <- _]].
      * by intros [= <- _].
    + intros H handler max_messages fuel timeout_ms hs e hs' s'.
      rewrite (consume_messages_resolved br handler max_messages fuel topic
                 timeout_ms hs s t Ht').
      destruct (get_consumer br (Some t) s) as [[c|e0] s1].
      * destruct (consume_loop br handler max_messages fuel c timeout_ms _ hs s1)
          as [[[[l|e0] hs1] s2]|]; [discriminate|by intros [= <- _ _]|discriminate].
      * by intros [= <- _ _].
  - intros e He. destruct (topic_or_default_Raise topic s e He) as (-> & _ & Hr).
    split; [reflexivity|]. split; [|split].
    + intros role. destruct role;
        unfold get_handle, get_producer, get_consumer, bind; by rewrite Hr.
    + intros message key. unfold produce_message, bind. by rewrite Hr.
    + intros H handler max_messages fuel timeout_ms hs.
      unfold consume_messages. by rewrite Hr.
Qed.

Lemma errors_are_wrapped_once_the_topic_resolves_witness :
  exc_type (KafkaKerberosError
              "Failed to create producer for topic events: NoBrokersAvailable")
  = KafkaKerberosErrorT
  ∧ produce_message unreachable_broker "{}" None None (fresh demo_host)
    = (Raise (KeyError "topic"), fresh demo_host).
Proof.
  assert (fst (topic_or_default None demo_session) = Ok (VStr "events")) as Ht
    by (vm_compute; reflexivity).
  assert (fst (get_handle unreachable_broker Producer None demo_session)
          = Raise (KafkaKerberosError
                     "Failed to create producer for topic events: NoBrokersAvailable"))
    as Hf by (vm_compute; reflexivity).
  assert (fst (topic_or_default None (fresh demo_host)) = Raise (KeyError "topic")) as Hn
    by (vm_compute; reflexivity).
  split.
  - exact (proj1 (proj1 (errors_are_wrapped_once_the_topic_resolves
                           unreachable_broker None demo_session) _ Ht)
             Producer _ _ (pair_of_fst _ _ Hf)).
  - exact (proj1 (proj2 (proj2 (proj2 (errors_are_wrapped_once_the_topic_resolves
                                         unreachable_broker None (fresh demo_host))
                                  _ Hn))) "{}" None).
Defined.

(** ** The cap, when every poll carries one partition *)

Lemma returned_Ok {H} (o : option (result (list Message) * H * State)) msgs :
  returned o = Some (Ok msgs) → ∃ hs' s', o = Some (Ok msgs, hs', s').
Proof.
  destruct o as [[[r hs'] s']|]; [|discriminate].
  cbn [returned]. intros [= ->]. by eexists _, _.
Qed.

Section one_partition.
Context {H : Type}.
Variable br : Broker.
Variable message_handler : option (Handler H).
Variable m : Z.
Variable timeout_ms : Z.
Hypothesis positive : 0 < m.
Hypothesis one_partition :
  ∀ c n batch, poll br c n timeout_ms = Ok batch → (length batch ≤ 1)%nat.

Lemma cap_not_reached count :
  cap_reached (Some m) count = false → count < m.
Proof.
  intros Hc. destruct (decide (count < m)) as [|Hn]; [done|].
  assert (cap_reached (Some m) count = true) as Ht
    by (apply cap_reached_Some; lia).
  congruence.
Qed.

Lemma consume_records_within_cap records :
  ∀ l hs s,
    message_count l < m →
    message_count l = Z.of_nat (length (messages l)) →
    ∃ l' hs' s',
      consume_records message_handler (Some m) records l hs s = (l', hs', s')
      ∧ message_count l' ≤ m
      ∧ message_count l' = Z.of_nat (length (messages l')).
Proof.
  induction records as [|record rest IH]; intros l hs s Hlt Hlen.
  - eexists _, _, _. split; [reflexivity|]. split; [lia|exact Hlen].
  - cbn [consume_records].
    destruct (consume_record_spec message_handler record l hs s) as (hs1 & s1 & -> & _).
    cbn [message_count].
    destruct (cap_reached (Some m) (message_count l + 1)) eqn:Hcap.
    + eexists _, _, _. split; [reflexivity|]. cbn [message_count messages].
      rewrite length_app. cbn [length]. lia.
    + apply IH; cbn [message_count messages].
      * apply cap_not_reached, Hcap.
      * rewrite length_app. cbn [length]. lia.
Qed.

Lemma consume_loop_within_cap fuel consumer :
  ∀ l hs s l' hs' s',
    message_count l ≤ m →
    message_count l = Z.of_nat (length (messages l)) →
    consume_loop br message_handler (Some m) fuel consumer timeout_ms l hs s
    = Some (Ok l', hs', s') →
    message_count l' ≤ m ∧ message_count l' = Z.of_nat (length (messages l')).
Proof.
  induction fuel as [|fuel IH]; intros l hs s l' hs' s' Hle Hlen; [discriminate|].
  rewrite consume_loop_S.
  destruct (cap_reached (Some m) (message_count l)) eqn:Hcap.
  { intros [= <- _ _]. done. }
  apply cap_not_reached in Hcap.
  destruct (consumer_poll_spec br consumer timeout_ms s) as (s1 & -> & _).
  destruct (poll br consumer (polls_made s consumer) timeout_ms) as [batch|e] eqn:Hpoll;
    [|discriminate].
  pose proof (one_partition _ _ _ Hpoll) as Hone.
  destruct batch as [|[tp records] [|second rest]].
  - cbn [consume_batch]. intros [= <- _ _]. split; [lia|exact Hlen].
  - cbn [consume_batch].
    destruct (consume_records_within_cap records l hs s1 Hcap Hlen)
      as (l1 & hs1 & s2 & -> & Hle1 & Hlen1).
    apply IH; assumption.
  - cbn [length] in Hone. lia.
Qed.
End one_partition.

(** X15.  When every poll returns records of at most one partition, a
    positive [max_messages] is a bound: [consume_messages] returns at most
    that many messages, for every schedule, handler and amount of work. *)
Theorem cap_holds_when_polls_carry_one_partition {H} br (handler : option (Handler H))
    m fuel topic timeout_ms hs s msgs hs' s' :
  0 < m →
  (∀ c n batch, poll br c n timeout_ms = Ok batch → (length batch ≤ 1)%nat) →
  consume_messages br handler (Some m) fuel topic timeout_ms hs s
  = Some (Ok msgs, hs', s') →
  Z.of_nat (length msgs) ≤ m.
Proof.
  intros Hm Hone.
  destruct (topic_or_default topic s) as [[t|e] s0] eqn:Ht.
  2: { unfold consume_messages. rewrite Ht. discriminate. }
  assert (fst (topic_or_default topic s) = Ok t) as Ht' by (by rewrite Ht).
  rewrite (consume_messages_resolved br handler (Some m) fuel topic timeout_ms hs s t
             (topic_or_default_Ok _ _ _ Ht')).
  destruct (get_consumer br (Some t) s) as [[c|e] s1]; [|discriminate].
  destruct (consume_loop br handler (Some m) fuel c timeout_ms _ hs s1)
    as [[[[l|e] hs1] s2]|] eqn:Hloop; [|discriminate..].
  intros [= <- _ _].
  destruct (consume_loop_within_cap br handler m timeout_ms Hm Hone fuel c
              {| messages := []; message_count := 0 |} hs s1 l hs1 s2)
    as (Hle & Hlen); [cbn; lia|reflexivity|exact Hloop|].
  lia.
Qed.

Lemma cap_holds_when_polls_carry_one_partition_witness :
  ∃ msgs,
    returned (consume_messages (demo_broker three_polls) (None : option (Handler unit))
                (Some 2) 4 None 1000 tt demo_session)
    = Some (Ok msgs)
    ∧ Z.of_nat (length msgs) ≤ 2.
Proof.
  assert (0 < 2) as Hm by lia.
  assert (∀ c n batch, poll (demo_broker three_polls) c n 1000 = Ok batch →
                       (length batch ≤ 1)%nat) as Hone.
  { intros c n batch. cbn [poll demo_broker]. intros [= <-].
    destruct n as [|[|[|[|n]]]]; cbn; lia. }
  assert (returned (consume_messages (demo_broker three_polls)
                      (None : option (Handler unit)) (Some 2) 4 None 1000 tt
                      demo_session)
          = Some (Ok ["a"; "b"])) as Hret by (vm_compute; reflexivity).
  destruct (returned_Ok _ _ Hret) as (hs' & s' & E).
  exists ["a"; "b"]. split; [exact Hret|].
  exact (cap_holds_when_polls_carry_one_partition (demo_broker three_polls) None 2 4
           None 1000 tt demo_session _ hs' s' Hm Hone E).
Defined.

(** ** The handler is called on every message *)

Section recording.
Variable br : Broker.
Variable fails : Message → option Exception.
Variable max_messages : option Z.

Lemma consume_record_recorded record l seen s :
  ∃ s',
    consume_record (Some (recording_handler fails)) record l seen s
    = ({| messages := (messages l ++ [rec_value record])%list;
          message_count := message_count l + 1 |},
       (seen ++ [rec_value record])%list, s').
Proof.
  unfold consume_record, recording_handler.
  destruct (fails (rec_value record)); by eexists.
Qed.

Lemma consume_records_recorded records :
  ∀ l seen s,
    ∃ added l' s',
      consume_records (Some (recording_handler fails)) max_messages records l seen s
      = (l', (seen ++ added)%list, s')
      ∧ messages l' = (messages l ++ added)%list.
Proof.
  induction records as [|record rest IH]; intros l seen s.
  - exists [], l, s. by rewrite !app_nil_r.
  - cbn [consume_records].
    destruct (consume_record_recorded record l seen s) as (s1 & ->).
    destruct (cap_reached max_messages _).
    + by eexists [_], _, _.
    + destruct (IH {| messages := (messages l ++ [rec_value record])%list;
                      message_count := message_count l + 1 |}
                  (seen ++ [rec_value record])%list s1)
        as (added & l' & s' & -> & Hm).
      exists (rec_value record :: added), l', s'.
      cbn [messages] in Hm. rewrite Hm, <- !app_assoc. done.
Qed.

Lemma consume_batch_recorded (b : Batch) :
  ∀ l seen s,
    ∃ added l' s',
      consume_batch (Some (recording_handler fails)) max_messages b l seen s
      = (l', (seen ++ added)%list, s')
      ∧ messages l' = (messages l ++ added)%list.
Proof.
  induction b as [|[tp records] rest IH]; intros l seen s.
  - exists [], l, s. by rewrite !app_nil_r.
  - cbn [consume_batch].
    destruct (consume_records_recorded records l seen s) as (a1 & l1 & s1 & -> & Hm1).
    destruct (IH l1 (seen ++ a1)%list s1) as (a2 & l2 & s2 & -> & Hm2).
    exists (a1 ++ a2)%list, l2, s2. rewrite Hm2, Hm1, <- !app_assoc. done.
Qed.

Lemma consume_loop_recorded fuel consumer timeout_ms :
  ∀ l seen s r seen' s',
    consume_loop br (Some (recording_handler fails)) max_messages fuel consumer
      timeout_ms l seen s = Some (r, seen', s') →
    ∃ added, seen' = (seen ++ added)%list
             ∧ ∀ l', r = Ok l' → messages l' = (messages l ++ added)%list.
Proof.
  induction fuel as [|fuel IH]; intros l seen s r seen' s'; [discriminate|].
  rewrite consume_loop_S.
  destruct (cap_reached max_messages (message_count l)).
  { intros [= <- <- _]. exists []. rewrite !app_nil_r.
    split; [done|]. by intros ? [= <-]. }
  destruct (consumer_poll br consumer timeout_ms s) as [[batch|e] s1].
  2: { intros [= <- <- _]. exists []. rewrite !app_nil_r. split; [done|]. discriminate. }
  destruct (consume_batch_recorded batch l seen s1) as (a1 & l1 & s2 & -> & Hm1).
  destruct batch as [|first rest].
  - intros [= <- <- _]. exists a1. split; [done|]. by intros ? [= <-].
  - intros Hloop. destruct (IH _ _ _ _ _ _ Hloop) as (a2 & -> & Hm2).
    exists (a1 ++ a2)%list. rewrite <- !app_assoc. split; [done|].
    intros l' Hr. rewrite (Hm2 l' Hr), Hm1, <- !app_assoc. done.
Qed.
End recording.

(** X16.  A handler that records what it is called with shows how
    [consume_messages] calls a handler: when the call returns, the handler
    has been called exactly once on each message that is returned, in the
    order of the result, also on the messages after one on which it
    failed. *)
Theorem handler_is_called_on_every_message br fails max_messages fuel topic
    timeout_ms seen s msgs seen' s' :
  consume_messages br (Some (recording_handler fails)) max_messages fuel topic
    timeout_ms seen s = Some (Ok msgs, seen', s') →
  seen' = (seen ++ msgs)%list.
Proof.
  destruct (topic_or_default topic s) as [[t|e] s0] eqn:Ht.
  2: { unfold consume_messages. rewrite Ht. discriminate. }
  assert (fst (topic_or_default topic s) = Ok t) as Ht' by (by rewrite Ht).
  rewrite (consume_messages_resolved br _ max_messages fuel topic timeout_ms seen s t
             (topic_or_default_Ok _ _ _ Ht')).
  destruct (get_consumer br (Some t) s) as [[c|e] s1]; [|discriminate].
  destruct (consume_loop br _ max_messages fuel c timeout_ms _ seen s1)
    as [[[[l|e] hs1] s2]|] eqn:Hloop; [|discriminate..].
  intros [= <- <- _].
  destruct (consume_loop_recorded br fails max_messages fuel c timeout_ms
              _ seen s1 _ _ _ Hloop) as (added & -> & Hm).
  by rewrite (Hm l eq_refl).
Qed.

Lemma handler_is_called_on_every_message_witness :
  ∃ seen' s',
    consume_messages (demo_broker two_records)
      (Some (recording_handler
               (λ m, if decide (m = "a") then Some (Exc ValueErrorT "cannot process")
                     else None)))
      (Some 5) 2 None 1000 [] demo_session
    = Some (Ok ["a"; "b"], seen', s')
    ∧ seen' = ["a"; "b"].
Proof.
  set (handler := recording_handler
                    (λ m, if decide (m = "a") then Some (Exc ValueErrorT "cannot process")
                          else None)).
  assert (returned (consume_messages (demo_broker two_records) (Some handler)
                      (Some 5) 2 None 1000 [] demo_session)
          = Some (Ok ["a"; "b"])) as Hret by (vm_compute; reflexivity).
  destruct (returned_Ok _ _ Hret) as (seen' & s' & E).
  exists seen', s'. split; [exact E|].
  exact (handler_is_called_on_every_message _ _ _ _ _ _ _ _ _ _ _ E).
Defined.

(** * Closing *)

Lemma close_each_ok br kind cache :
  ∀ s,
    (∀ entry, entry ∈ cache → close_client br entry.2 = None) →
    ∃ s', close_each br kind cache s = (Ok tt, s')
          ∧ closed s' = (closed s ++ cache.*2)%list
          ∧ log s' = (log s ++ closing_lines kind cache)%list
          ∧ session_view s' = session_view s.
Proof.
  induction cache as [|[topic c] rest IH]; intros s Hok.
  - exists s. cbn. by rewrite !app_nil_r.
  - cbn [close_each]. unfold bind.
    pose proof (Hok (topic, c) (list_elem_of_here _ _)) as Hfirst.
    cbn [snd] in Hfirst. rewrite Hfirst.
    unfold logger_info, modify.
    match goal with
    | |- context [close_each br kind rest ?s0] =>
        destruct (IH s0) as (s' & -> & Hc & Hl & Hv)
    end.
    { intros entry Hin. apply Hok. by apply list_elem_of_further. }
    exists s'. split; [reflexivity|].
    cbn [closed log set_log set_closed] in Hc, Hl.
    rewrite Hc, Hl, Hv, <- !app_assoc. done.
Qed.

Lemma close_each_fails br kind pre topic c post e :
  ∀ s,
    (∀ entry, entry ∈ pre → close_client br entry.2 = None) →
    close_client br c = Some e →
    ∃ s', close_each br kind (pre ++ (topic, c) :: post) s = (Raise e, s')
          ∧ closed s' = (closed s ++ pre.*2)%list
          ∧ log s' = (log s ++ closing_lines kind pre)%list
          ∧ session_view s' = session_view s.
Proof.
  induction pre as [|[topic' c'] rest IH]; intros s Hok Hfail.
  - exists s. cbn [app close_each]. unfold bind. rewrite Hfail.
    cbn. by rewrite !app_nil_r.
  - cbn [app close_each]. unfold bind.
    pose proof (Hok (topic', c') (list_elem_of_here _ _)) as Hfirst.
    cbn [snd] in Hfirst. rewrite Hfirst.
    unfold logger_info, modify.
    match goal with
    | |- context [close_each br kind _ ?s0] =>
        destruct (IH s0) as (s' & -> & Hc & Hl & Hv)
    end.
    { intros entry Hin. apply Hok. by apply list_elem_of_further. }
    { exact Hfail. }
    exists s'. split; [reflexivity|].
    cbn [closed log set_log set_closed] in Hc, Hl.
    rewrite Hc, Hl, Hv, <- !app_assoc. done.
Qed.

(** [close] when every client closes: the two loops, then the caches. *)
Lemma close_all_ok br s :
  (∀ entry, entry ∈ (_producers s ++ _consumers s)%list →
            close_client br entry.2 = None) →
  ∃ s1 s2,
    close_each br "producer" (_producers s) s = (Ok tt, s1)
    ∧ close_each br "consumer" (_consumers s) s1 = (Ok tt, s2)
    ∧ close br s = (Ok tt, set_consumers (λ _, []) (set_producers (λ _, []) s2))
    ∧ closed s2 = (closed s ++ (_producers s).*2 ++ (_consumers s).*2)%list
    ∧ log s2 = (log s ++ closing_lines "producer" (_producers s)
                ++ closing_lines "consumer" (_consumers s))%list
    ∧ config s2 = config s ∧ clients s2 = clients s.
Proof.
  intros Hok.
  destruct (close_each_ok br "producer" (_producers s) s) as (s1 & H1 & Hc1 & Hl1 & Hv1).
  { intros entry Hin. apply Hok, elem_of_app. by left. }
  destruct (close_each_ok br "consumer" (_consumers s) s1) as (s2 & H2 & Hc2 & Hl2 & Hv2).
  { intros entry Hin. apply Hok, elem_of_app. by right. }
  exists s1, s2. split; [exact H1|]. split; [exact H2|].
  apply session_view_eq in Hv1 as (Ec1 & _ & _ & El1).
  apply session_view_eq in Hv2 as (Ec2 & _ & _ & El2).
  split.
  { unfold close, try_except, bind, get. rewrite H1, H2. reflexivity. }
  rewrite Hc2, Hc1, Hl2, Hl1, Ec2, Ec1, El2, El1, <- !app_assoc. done.
Qed.

Lemma close_first_failure br s pre topic c post e :
  (_producers s ++ _consumers s)%list = (pre ++ (topic, c) :: post)%list →
  (∀ entry, entry ∈ pre → close_client br entry.2 = None) →
  close_client br c = Some e →
  ∃ s', close br s = (Ok tt, s')
        ∧ _producers s' = _producers s ∧ _consumers s' = _consumers s
        ∧ closed s' = (closed s ++ pre.*2)%list
        ∧ (∃ logged, log s' = (logged ++ [ERROR ("Error closing connections: "
                                                 +:+ exc_str e)])%list)
        ∧ config s' = config s ∧ clients s' = clients s.
Proof.
  intros Hsplit Hok Hfail. unfold close, try_except, bind, get.
  destruct (app_eq_inv _ _ _ _ Hsplit) as [(k & Hp & Hk)|(k & Hpre & Hc)].
  - destruct k as [|entry k].
    + (* the first consumer fails *)
      rewrite app_nil_r in Hp. cbn [app] in Hk.
      destruct (close_each_ok br "producer" (_producers s) s)
        as (s1 & -> & Hc1 & Hl1 & Hv1).
      { intros entry Hin. apply Hok. by rewrite <- Hp. }
      rewrite <- Hk.
      destruct (close_each_fails br "consumer" [] topic c post e s1)
        as (s2 & Hs2 & Hc2 & Hl2 & Hv2); [by intros ? ?%elem_of_nil|exact Hfail|].
      cbn [app] in Hs2. rewrite Hs2.
      unfold logger_error, modify. eexists. split; [reflexivity|].
      apply session_view_eq in Hv1 as (Ec1 & Ep1 & Eco1 & El1).
      apply session_view_eq in Hv2 as (Ec2 & Ep2 & Eco2 & El2).
      cbn [_producers _consumers closed log config clients set_log].
      rewrite Ep2, Ep1, Eco2, Eco1, Hc2, Hc1, Ec2, Ec1, El2, El1, Hp.
      cbn [fmap list_fmap]. rewrite app_nil_r.
      split; [done|]. split; [done|]. split; [done|]. split; [by eexists|]. done.
    + (* a producer fails *)
      cbn [app] in Hk. injection Hk as <- Hpost.
      rewrite Hp.
      destruct (close_each_fails br "producer" pre topic c k e s)
        as (s1 & -> & Hc1 & Hl1 & Hv1); [exact Hok|exact Hfail|].
      unfold logger_error, modify. eexists. split; [reflexivity|].
      apply session_view_eq in Hv1 as (Ec1 & Ep1 & Eco1 & El1).
      cbn [_producers _consumers closed log config clients set_log].
      rewrite Ep1, Eco1, Hc1, Ec1, El1, Hp.
      split; [done|]. split; [done|]. split; [done|]. split; [by eexists|]. done.
  - (* a later consumer fails *)
    destruct (close_each_ok br "producer" (_producers s) s)
      as (s1 & -> & Hc1 & Hl1 & Hv1).
    { intros entry Hin. apply Hok. rewrite Hpre. apply elem_of_app. by left. }
    rewrite Hc.
    destruct (close_each_fails br "consumer" k topic c post e s1)
      as (s2 & -> & Hc2 & Hl2 & Hv2); [|exact Hfail|].
    { intros entry Hin. apply Hok. rewrite Hpre. apply elem_of_app. by right. }
    unfold logger_error, modify. eexists. split; [reflexivity|].
    apply session_view_eq in Hv1 as (Ec1 & Ep1 & Eco1 & El1).
    apply session_view_eq in Hv2 as (Ec2 & Ep2 & Eco2 & El2).
    cbn [_producers _consumers closed log config clients set_log].
    rewrite Ep2, Ep1, Eco2, Eco1, Hc2, Hc1, Ec2, Ec1, El2, El1, Hpre, Hc.
    rewrite fmap_app, <- !app_assoc.
    split; [done|]. split; [done|]. split; [done|]. split; [by eexists|]. done.
Qed.

Lemma close_never_raises br s : fst (close br s) = Ok tt.
Proof.
  unfold close, try_except, bind, get.
  destruct (close_each br "producer" (_producers s) s) as [[[]|e] s1]; [|reflexivity].
  destruct (close_each br "consumer" (_consumers s) s1) as [[[]|e] s2]; reflexivity.
Qed.

(** X17.  When every cached client can be closed, [close] closes the
    producers and then the consumers, each once and in the order in which
    they were cached, logs a line for each, and empties both caches; the
    configuration and the clients constructed stay as they are.  Closing
    again then changes nothing at all. *)
Theorem close_closes_every_cached_client br s :
  (∀ entry, entry ∈ (_producers s ++ _consumers s)%list →
            close_client br entry.2 = None) →
  ∃ s', close br s = (Ok tt, s')
        ∧ _producers s' = [] ∧ _consumers s' = []
        ∧ closed s' = (closed s ++ (_producers s).*2 ++ (_consumers s).*2)%list
        ∧ log s' = (log s ++ closing_lines "producer" (_producers s)
                    ++ closing_lines "consumer" (_consumers s))%list
        ∧ config s' = config s ∧ clients s' = clients s
        ∧ close br s' = (Ok tt, s').
Proof.
  intros Hok.
  destruct (close_all_ok br s Hok) as (s1 & s2 & _ & _ & Hclose & Hc & Hl & Hcfg & Hcl).
  eexists. split; [exact Hclose|].
  cbn [_producers _consumers closed log config clients set_producers set_consumers].
  split; [reflexivity|]. split; [reflexivity|].
  split; [exact Hc|]. split; [exact Hl|]. split; [exact Hcfg|]. split; [exact Hcl|].
  reflexivity.
Qed.

Lemma close_closes_every_cached_client_witness :
  ∃ s', close (demo_broker []) demo_both = (Ok tt, s')
        ∧ _producers s' = [] ∧ _consumers s' = []
        ∧ closed s' = [0%nat; 1%nat].
Proof.
  assert (closed demo_both = []) as Hc by (vm_compute; reflexivity).
  assert ((_producers demo_both).*2 = [0%nat]) as Hp by (vm_compute; reflexivity).
  assert ((_consumers demo_both).*2 = [1%nat]) as Hco by (vm_compute; reflexivity).
  destruct (close_closes_every_cached_client (demo_broker []) demo_both)
    as (s' & Hs & Hp' & Hc' & Hcl & _).
  { intros entry _. reflexivity. }
  exists s'. split; [exact Hs|]. split; [exact Hp'|]. split; [exact Hc'|].
  rewrite Hcl, Hc, Hp, Hco. reflexivity.
Defined.

(** X18.  [close] never raises.  When a cached client fails to close,
    the clients before it (producers first) have been closed, those after
    it have not, the failure is logged as an error, and neither cache is
    emptied: every cached handle, closed or not, is still what
    [get_handle] returns for its topic. *)
Theorem close_failure_keeps_the_caches br s pre topic c post e :
  (_producers s ++ _consumers s)%list = (pre ++ (topic, c) :: post)%list →
  (∀ entry, entry ∈ pre → close_client br entry.2 = None) →
  close_client br c = Some e →
  ∃ s', close br s = (Ok tt, s')
        ∧ _producers s' = _producers s ∧ _consumers s' = _consumers s
        ∧ closed s' = (closed s ++ pre.*2)%list
        ∧ (∃ logged, log s' = (logged ++ [ERROR ("Error closing connections: "
                                                 +:+ exc_str e)])%list)
        ∧ ∀ role t c',
            cache_get (cache_of role s) t = Some c' → truthy t = true →
            get_handle br role (Some t) s' = (Ok c', s').
Proof.
  intros Hsplit Hok Hfail.
  destruct (close_first_failure br s pre topic c post e Hsplit Hok Hfail)
    as (s' & Hs & Hp & Hc & Hcl & Hlog & _).
  exists s'. split; [exact Hs|]. split; [exact Hp|]. split; [exact Hc|].
  split; [exact Hcl|]. split; [exact Hlog|].
  intros role t c' Hget Ht.
  apply (get_handle_hit br role (Some t) s' t c').
  - unfold topic_or_default. by rewrite Ht.
  - by destruct role; cbn [cache_of] in *; rewrite ?Hp, ?Hc.
Qed.

Lemma close_failure_keeps_the_caches_witness :
  ∃ s', close stuck_broker demo_both = (Ok tt, s')
        ∧ _producers s' = _producers demo_both
        ∧ _consumers s' = _consumers demo_both
        ∧ get_handle stuck_broker Producer (Some (VStr "events")) s' = (Ok 0%nat, s').
Proof.
  assert ((_producers demo_both ++ _consumers demo_both)%list
          = ([] ++ (VStr "events", 0%nat) :: [(VStr "events", 1%nat)])%list) as Hsplit
    by (vm_compute; reflexivity).
  assert (cache_get (cache_of Producer demo_both) (VStr "events") = Some 0%nat) as Hget
    by (vm_compute; reflexivity).
  destruct (close_failure_keeps_the_caches stuck_broker demo_both []
              (VStr "events") 0%nat [(VStr "events", 1%nat)]
              (Exc KafkaErrorT "close timed out") Hsplit)
    as (s' & Hs & Hp & Hc & _ & _ & Hstale).
  { intros entry Hin. exfalso. exact (proj1 (elem_of_nil _) Hin). }
  { reflexivity. }
  exists s'. split; [exact Hs|]. split; [exact Hp|]. split; [exact Hc|].
  exact (Hstale Producer (VStr "events") 0%nat Hget eq_refl).
Defined.

(** * The context manager *)

Lemma close_pair br s : close br s = (Ok tt, snd (close br s)).
Proof. apply pair_of_fst, close_never_raises. Qed.

(** X19.  A [with] block on the utility runs its body only when the
    constructor succeeded.  Whether the body returns or raises, the
    session is closed once afterwards, and the outcome of the block is the
    outcome of the body: its value, or its own exception, which [__exit__]
    never suppresses and [close] never replaces. *)
Theorem with_block_closes_and_reraises {A} h br config_file (body : M A) :
  (∀ s, with_statement br body s
        = (match fst (body s) with
           | Ok a => Ok (Some a)
           | Raise e => Raise e
           end,
           snd (close br (snd (body s)))))
  ∧ with_utility h br config_file body (fresh h)
    = match __init__ h config_file (fresh h) with
      | (Ok _, s) =>
          (match fst (body s) with
           | Ok a => Ok (Some a)
           | Raise e => Raise e
           end,
           snd (close br (snd (body s))))
      | (Raise e, s) => (Raise e, s)
      end.
Proof.
  assert (∀ s, with_statement br body s
               = (match fst (body s) with
                  | Ok a => Ok (Some a)
                  | Raise e => Raise e
                  end,
                  snd (close br (snd (body s))))) as Hwith.
  { intros s. unfold with_statement, __enter__, __exit__, bind, ret, raise.
    destruct (body s) as [[a|e] s1]; cbn [fst snd];
      rewrite (close_pair br s1); reflexivity. }
  split; [exact Hwith|].
  unfold with_utility, bind.
  destruct (__init__ h config_file (fresh h)) as [[[]|e] s]; [apply Hwith|reflexivity].
Qed.

(** * Handles that are live *)

Lemma cache_get_elem cache topic c :
  cache_get cache topic = Some c → (topic, c) ∈ cache.
Proof.
  induction cache as [|[k c'] rest IH]; cbn [cache_get]; [discriminate|].
  destruct (decide (k = topic)) as [->|_].
  - intros [= ->]. apply list_elem_of_here.
  - intros Hc. apply list_elem_of_further, IH, Hc.
Qed.

Lemma cache_set_elem cache topic c entry :
  entry ∈ cache_set cache topic c → entry = (topic, c) ∨ entry ∈ cache.
Proof.
  induction cache as [|[k c'] rest IH]; cbn [cache_set].
  - intros Hin. apply elem_of_cons in Hin as [->|Hin]; [by left|by right].
  - destruct (decide (k = topic)) as [->|_]; intros Hin;
      apply elem_of_cons in Hin as [->|Hin].
    + by left.
    + right. by apply list_elem_of_further.
    + right. apply list_elem_of_here.
    + destruct (IH Hin) as [->|Hr]; [by left|].
      right. by apply list_elem_of_further.
Qed.

Lemma constructed_closed role topic settings s :
  closed (constructed role topic settings s) = closed s.
Proof. by destruct role. Qed.

Lemma cache_live_view s s' :
  session_view s' = session_view s → closed s' = closed s →
  cache_live s → cache_live s'.
Proof.
  intros E Ecl (Hc & Hk). apply session_view_eq in E as (_ & Ep & Eco & El).
  split.
  - intros role topic c Hin. rewrite Ecl, El. apply (Hc role topic).
    by destruct role; cbn [cache_of] in *; rewrite <- ?Ep, <- ?Eco.
  - intros c Hin. rewrite El. apply Hk. by rewrite <- Ecl.
Qed.

Lemma cache_live_constructed role t settings s :
  cache_live s → cache_live (constructed role t settings s).
Proof.
  intros (Hc & Hk). split.
  - intros role' topic' c Hin.
    rewrite constructed_closed, constructed_clients, length_app. cbn [length].
    assert (c = length (clients s) ∨ (topic', c) ∈ cache_of role' s) as [->|Hold].
    { destruct (decide (role' = role)) as [->|Hrole].
      - rewrite constructed_cache in Hin.
        destruct (cache_set_elem _ _ _ _ Hin) as [[= _ ->]|Hr]; [by left|by right].
      - rewrite constructed_cache_other in Hin by done. by right. }
    + split; [|lia]. intros Hin'. apply Hk in Hin'. lia.
    + destruct (Hc role' topic' c Hold). split; [done|lia].
  - intros c Hin. rewrite constructed_closed in Hin.
    rewrite constructed_clients, length_app. cbn [length]. apply Hk in Hin. lia.
Qed.

Lemma cache_live_get_handle br role topic s :
  cache_live s → cache_live (snd (get_handle br role topic s)).
Proof.
  intros Hs.
  destruct (get_handle_cases br role topic s)
    as [[e ->]|[(t & c & _ & _ & ->)|(t & st & _ & _ & ->)]]; cbn [snd]; try exact Hs.
  by apply cache_live_constructed.
Qed.

Lemma consume_loop_closed {H} br (handler : option (Handler H)) max_messages
    fuel consumer timeout_ms :
  ∀ l hs s r hs' s',
    consume_loop br handler max_messages fuel consumer timeout_ms l hs s
    = Some (r, hs', s') →
    closed s' = closed s.
Proof.
  induction fuel as [|fuel IH]; intros l hs s r hs' s'; [discriminate|].
  rewrite consume_loop_S.
  destruct (cap_reached max_messages (message_count l)).
  { by intros [= _ _ <-]. }
  unfold consumer_poll.
  destruct (poll br consumer _ timeout_ms) as [batch|e].
  2: { by intros [= _ _ <-]. }
  match goal with
  | |- context [consume_batch handler max_messages batch l hs ?s0] =>
      destruct (consume_batch_any handler max_messages batch l hs s0)
        as (l1 & hs1 & s1 & -> & Her & _)
  end.
  apply (f_equal closed) in Her. cbn in Her.
  destruct batch as [|first rest].
  - intros [= _ _ <-]. exact Her.
  - intros Hloop. rewrite (IH _ _ _ _ _ _ Hloop). exact Her.
Qed.

Lemma session_step_closed br s s' : session_step br s s' → closed s' = closed s.
Proof.
  intros [role topic s0|message key topic s0|H handler mx fuel topic tm hs s0 r hs' s1 Hc].
  - apply get_handle_frame.
  - pose proof (topic_or_default_state topic s0) as Hst.
    destruct (topic_or_default topic s0) as [[t|e] s2] eqn:Ht; cbn [snd] in Hst; subst s2.
    2: { unfold produce_message, bind. by rewrite Ht. }
    assert (fst (topic_or_default topic s0) = Ok t) as Ht' by (by rewrite Ht).
    rewrite (produce_message_resolved br message key topic s0 t
               (topic_or_default_Ok _ _ _ Ht')).
    destruct (get_handle_frame br Producer (Some t) s0) as (_ & Hcl & _).
    cbn [get_handle] in Hcl.
    destruct (get_producer br (Some t) s0) as [[p|e] s3]; cbn [snd] in *; [|exact Hcl].
    destruct (send br p (length (sent s3)) t message key); exact Hcl.
  - pose proof (topic_or_default_state topic s0) as Hst.
    destruct (topic_or_default topic s0) as [[t|e] s2] eqn:Ht; cbn [snd] in Hst; subst s2.
    2: { unfold consume_messages in Hc. rewrite Ht in Hc. by injection Hc as _ _ <-. }
    assert (fst (topic_or_default topic s0) = Ok t) as Ht' by (by rewrite Ht).
    rewrite (consume_messages_resolved br handler mx fuel topic tm hs s0 t
               (topic_or_default_Ok _ _ _ Ht')) in Hc.
    destruct (get_handle_frame br Consumer (Some t) s0) as (_ & Hcl & _).
    cbn [get_handle] in Hcl.
    destruct (get_consumer br (Some t) s0) as [[c|e] s3]; cbn [snd] in *.
    2: { by injection Hc as _ _ <-. }
    destruct (consume_loop br handler mx fuel c tm _ hs s3)
      as [[[[l|e] hs1] s4]|] eqn:Hloop; [| |discriminate Hc].
    + injection Hc as _ _ <-.
      by rewrite (consume_loop_closed br handler mx fuel c tm _ _ _ _ _ _ Hloop).
    + injection Hc as _ _ <-. cbn [closed set_log].
      by rewrite (consume_loop_closed br handler mx fuel c tm _ _ _ _ _ _ Hloop).
Qed.

Lemma cache_live_op br s s' :
  (∀ c, close_client br c = None) →
  session_op br s s' → cache_live s → cache_live s'.
Proof.
  intros Hclose [s0 s1 Hstep|s0] Hs.
  - pose proof (session_step_closed br s0 s1 Hstep) as Hcl.
    destruct (session_step_view br s0 s1 Hstep) as [E|(role & topic & E)].
    + by apply (cache_live_view s0).
    + apply (cache_live_view _ _ E).
      * rewrite Hcl. symmetry. apply get_handle_frame.
      * by apply cache_live_get_handle.
  - destruct (close_all_ok br s0) as (s2 & s3 & _ & _ & Hs3 & Hcl & _ & _ & El).
    { intros entry _. apply Hclose. }
    rewrite Hs3. cbn [snd]. destruct Hs as (Hin & Hk). split.
    + intros role topic c. by destruct role; cbn [cache_of _producers _consumers
        set_producers set_consumers]; intros ?%elem_of_nil.
    + intros c. cbn [closed clients set_producers set_consumers].
      rewrite Hcl, El, !elem_of_app.
      intros [Hold|[Hnew|Hnew]]; [by apply Hk| |];
        apply list_elem_of_fmap in Hnew as ([t c'] & -> & Hnew).
      * by destruct (Hin Producer t c' Hnew).
      * by destruct (Hin Consumer t c' Hnew).
Qed.

Lemma cache_live_ops br s s' :
  (∀ c, close_client br c = None) →
  rtc (session_op br) s s' → cache_live s → cache_live s'.
Proof.
  intros Hclose. induction 1 as [|s1 s2 s3 Hop _ IH]; [done|].
  intros Hs. apply IH. by apply (cache_live_op br s1).
Qed.

Lemma setup_kerberos_closed h s : closed (snd (_setup_kerberos h s)) = closed s.
Proof.
  destruct (_setup_kerberos h s) as [[[]|e] s'] eqn:Hs; cbn [snd].
  - rewrite setup_kerberos_start in Hs. unfold try_except, bind in Hs.
    assert (closed (kerberos_environment h s) = closed s) as Hk.
    { unfold kerberos_environment. by destruct (GSSAPI_AVAILABLE h). }
    destruct (not_get (config s) "jaas_config_path").
    + unfold _create_jaas_config, bind, try_except, config_getitem in Hs.
      destruct (getitem _ "keytab_path"); [|discriminate Hs].
      destruct (getitem _ "principal"); [|discriminate Hs].
      unfold open_write in Hs.
      destruct (write_file h jaas_config_path _); [discriminate Hs|].
      rewrite environ_setitem_clean in Hs by (vm_compute; reflexivity).
      unfold logger_info, modify in Hs. injection Hs as <-. exact Hk.
    + unfold config_getitem in Hs.
      destruct (getitem _ "jaas_config_path"); [|discriminate Hs].
      unfold environ_setitem in Hs.
      destruct (has_nul _); [discriminate Hs|].
      unfold logger_info, modify in Hs. injection Hs as <-. exact Hk.
  - destruct (setup_kerberos_raises h s e s' Hs) as (-> & _).
    unfold kerberos_environment. by destruct (GSSAPI_AVAILABLE h).
Qed.

Lemma init_cache_live h config_file :
  cache_live (snd (__init__ h config_file (fresh h))).
Proof.
  destruct (init_empty_caches h config_file) as (Hp & Hc).
  assert (closed (snd (__init__ h config_file (fresh h))) = []) as Hcl.
  { rewrite init_cases.
    destruct (DOTENV_AVAILABLE h); [|done].
    destruct (_load_config h config_file) as [cfg|e]; [|done].
    destruct (open_append h log_file) as [e|]; [done|].
    destruct (_validate_config h cfg) as [[]|e]; [|done].
    by rewrite setup_kerberos_closed. }
  split.
  - intros role topic c. by destruct role; cbn [cache_of]; rewrite ?Hp, ?Hc;
      intros ?%elem_of_nil.
  - intros c. rewrite Hcl. by intros ?%elem_of_nil.
Qed.

(** X20.  With a broker whose clients can always be closed, a session
    never hands out a closed client: whatever has been obtained, produced,
    consumed and closed since the constructor, the handle that
    [get_handle] returns has not been closed; after a [close] it is a
    client constructed anew. *)
Theorem get_handle_returns_a_live_client br h config_file s role topic c s1 :
  (∀ c, close_client br c = None) →
  rtc (session_op br) (snd (__init__ h config_file (fresh h))) s →
  get_handle br role topic s = (Ok c, s1) →
  (c ∉ closed s1) ∧ (c < length (clients s1))%nat.
Proof.
  intros Hclose Hreach Hget.
  pose proof (cache_live_ops br _ _ Hclose Hreach (init_cache_live h config_file)) as Hs.
  pose proof (cache_live_get_handle br role topic s Hs) as (Hin & _).
  rewrite Hget in Hin. cbn [snd] in Hin.
  destruct (get_handle_Ok br role topic s c s1 Hget) as (t & _ & Hc & _).
  exact (Hin role t c (cache_get_elem _ _ _ Hc)).
Qed.

Lemma get_handle_returns_a_live_client_witness :
  ∃ c s1,
    get_handle (demo_broker []) Producer None (snd (close (demo_broker []) demo_both))
    = (Ok c, s1)
    ∧ c = 2%nat
    ∧ closed s1 = [0%nat; 1%nat]
    ∧ c ∉ closed s1.
Proof.
  assert (fst (get_handle (demo_broker []) Producer None
                 (snd (close (demo_broker []) demo_both))) = Ok 2%nat) as Hf
    by (vm_compute; reflexivity).
  pose proof (pair_of_fst _ _ Hf) as Hget.
  assert (closed (snd (get_handle (demo_broker []) Producer None
                         (snd (close (demo_broker []) demo_both))))
          = [0%nat; 1%nat]) as Hcl by (vm_compute; reflexivity).
  assert (rtc (session_op (demo_broker []))
            (snd (__init__ demo_host None (fresh demo_host)))
            (snd (close (demo_broker []) demo_both))) as Hreach.
  { unfold demo_both, demo_producing, demo_session.
    eapply rtc_l; [apply op_use, (step_get_handle _ Producer None)|].
    eapply rtc_l; [apply op_use, (step_get_handle _ Consumer None)|].
    eapply rtc_l; [apply op_close|]. apply rtc_refl. }
  eexists _, _. split; [exact Hget|]. split; [reflexivity|]. split; [exact Hcl|].
  exact (proj1 (get_handle_returns_a_live_client (demo_broker []) demo_host None _
                  Producer None _ _ (λ _, eq_refl) Hreach Hget)).
Defined.

(** * One client per role and topic *)





(** * Values of the environment: the empty string, integers *)

(** X21.  An environment variable that is set to the empty string still
    counts as set: it overrides the file and the default.  A setting that
    is not numeric then resolves to the empty string, and a required one
    is reported as missing whatever the file gives for it; a numeric
    setting makes [_load_config] fail with the [ValueError] of [int()]
    instead of taking its default. *)
Theorem empty_environment_value_still_overrides h config_file key var :
  (key, var) ∈ env_config →
  getenv h !! var = Some EmptyString →
  (key ∉ numeric_keys →
   ∀ cfg, _load_config h config_file = Ok cfg →
          cfg !! key = Some (VStr EmptyString)
          ∧ (key ∈ required_params → key ∈ missing_params cfg))
  ∧ (key ∈ numeric_keys →
     ∀ c0, load_file h config_file = Ok c0 →
           ∃ s', py_int s' = None
                 ∧ _load_config h config_file = Raise (ValueError s')).
Proof.
  intros Hin Henv.
  assert (chosen h config_file key var = Some EmptyString) as Hch.
  { unfold chosen. by rewrite Henv. }
  split.
  - intros Hnum cfg Hload.
    assert (cfg !! key = Some (VStr EmptyString)) as Hk.
    { rewrite (load_config_lookup h config_file cfg key var Hload Hin), Hch.
      change (coerce key EmptyString = Some (VStr EmptyString)).
      by apply coerce_string. }
    split; [exact Hk|].
    intros Hreq. apply missing_params_elem. split; [exact Hreq|].
    unfold not_get. by rewrite Hk.
  - intros Hnum c0 H0.
    rewrite (load_config_conversions h config_file c0 H0).
    apply (conversions_raise _ key EmptyString Hnum).
    + by rewrite (before_conversion h config_file c0 key var H0 Hin), Hch.
    + vm_compute. reflexivity.
Qed.

Lemma empty_environment_value_still_overrides_witness :
  (empty_broker_config !! "bootstrap_servers" = Some (VStr EmptyString)
   ∧ "bootstrap_servers" ∈ missing_params empty_broker_config)
  ∧ ∃ s', py_int s' = None
          ∧ _load_config blank_numeric_host None = Raise (ValueError s').
Proof.
  assert (("bootstrap_servers", "KAFKA_BOOTSTRAP_SERVERS") ∈ env_config) as Hin1
    by (apply (bool_decide_unpack _); vm_compute; reflexivity).
  assert (("max_poll_records", "KAFKA_MAX_POLL_RECORDS") ∈ env_config) as Hin2
    by (apply (bool_decide_unpack _); vm_compute; reflexivity).
  assert ("bootstrap_servers" ∉ numeric_keys) as Hn1
    by (apply (bool_decide_unpack _); vm_compute; reflexivity).
  assert ("max_poll_records" ∈ numeric_keys) as Hn2
    by (apply (bool_decide_unpack _); vm_compute; reflexivity).
  assert ("bootstrap_servers" ∈ required_params) as Hreq
    by (apply (bool_decide_unpack _); vm_compute; reflexivity).
  assert (getenv empty_broker_host !! "KAFKA_BOOTSTRAP_SERVERS" = Some EmptyString)
    as He1 by (vm_compute; reflexivity).
  assert (getenv blank_numeric_host !! "KAFKA_MAX_POLL_RECORDS" = Some EmptyString)
    as He2 by (vm_compute; reflexivity).
  assert (_load_config empty_broker_host None = Ok empty_broker_config) as Hload
    by (apply (result_is_Ok _ ∅); vm_compute; reflexivity).
  split.
  - destruct (proj1 (empty_environment_value_still_overrides empty_broker_host None
                       _ _ Hin1 He1) Hn1 empty_broker_config Hload) as [Hk Hm].
    exact (conj Hk (Hm Hreq)).
  - exact (proj2 (empty_environment_value_still_overrides blank_numeric_host None
                    _ _ Hin2 He2) Hn2 ∅ eq_refl).
Defined.

(** ** [int] reads back what [str] writes *)

Lemma pretty_N_char_digit d :
  (d < 10)%N →
  digit_val (pretty_N_char d) = Some (Z.of_N d).
Proof.
  intros Hd.
  assert (d = 0 ∨ d = 1 ∨ d = 2 ∨ d = 3 ∨ d = 4 ∨ d = 5 ∨ d = 6 ∨ d = 7 ∨ d = 8
          ∨ d = 9)%N as Hcases by lia.
  repeat (destruct Hcases as [->|Hcases]); [..|subst d]; by vm_compute.
Qed.

(** A character that [str] writes for a natural number is not white
    space, a sign or an underscore. *)
Lemma pretty_N_char_plain d :
  is_space (pretty_N_char d) = false
  ∧ Ascii.eqb (pretty_N_char d) "-" = false
  ∧ Ascii.eqb (pretty_N_char d) "+" = false
  ∧ Ascii.eqb (pretty_N_char d) "_" = false.
Proof.
  apply (pretty_N_char_cases
           (λ c, is_space c = false ∧ Ascii.eqb c "-" = false
                 ∧ Ascii.eqb c "+" = false ∧ Ascii.eqb c "_" = false));
    by vm_compute.
Qed.

(** Scanning the digits that [str] writes for a natural number gives the
    number back, and counts as many digits as the number has. *)
Lemma scan_pretty_N_go x :
  (0 < x)%N →
  ∀ s, ∃ count,
    (0 < count)%N ∧ (10 ^ (count - 1) ≤ x)%N
    ∧ scan 0 0 false (list_ascii_of_string (pretty_N_go x s))
      = scan (Z.of_N x) count false (list_ascii_of_string s).
Proof.
  induction (N.lt_wf_0 x) as [x _ IH]; intros Hx s.
  rewrite pretty_N_go_step by lia.
  pose proof (pretty_N_char_digit (x `mod` 10)) as Hd.
  pose proof (N.div_mod x 10) as Hdm.
  pose proof (N.mod_lt x 10) as Hmod.
  destruct (decide ((x `div` 10)%N = 0%N)) as [Hz|Hz].
  - rewrite Hz, pretty_N_go_0. exists 1%N.
    split; [lia|]. split; [change (10 ^ (1 - 1))%N with 1%N; lia|].
    cbn [list_ascii_of_string scan]. rewrite Hd by lia. f_equal. lia.
  - destruct (IH (x `div` 10)%N) with (s := String (pretty_N_char (x `mod` 10)) s)
      as (count & Hpos & Hlow & Hscan); [apply N.div_lt; lia|lia|].
    exists (count + 1)%N. split; [lia|]. split.
    + replace (count + 1 - 1)%N with (N.succ (count - 1)) by lia.
      rewrite N.pow_succ_r'.
      apply N.le_trans with (10 * (x `div` 10))%N;
        [by apply N.mul_le_mono_l|apply N.Div0.mul_div_le].
    + rewrite Hscan. cbn [list_ascii_of_string scan]. rewrite Hd by lia.
      f_equal. lia.
Qed.

Lemma first_pretty_N_go x s :
  (0 < x)%N →
  ∃ d r, list_ascii_of_string (pretty_N_go x s) = pretty_N_char d :: r.
Proof.
  revert s. induction (N.lt_wf_0 x) as [x _ IH]; intros s Hx.
  rewrite pretty_N_go_step by lia.
  destruct (decide ((x `div` 10)%N = 0%N)) as [->|Hz].
  - rewrite pretty_N_go_0. cbn [list_ascii_of_string]. by eexists _, _.
  - apply IH; [apply N.div_lt; lia|by apply N.neq_0_lt_0].
Qed.

(** The digits of a positive number below [10 ^ 4300] are read back. *)
Lemma int_unsigned_pretty_N_go p negative :
  (N.pos p < 10 ^ 4300)%N →
  int_unsigned negative (list_ascii_of_string (pretty_N_go (N.pos p) EmptyString))
  = IntValue (if negative then Z.neg p else Z.pos p).
Proof.
  intros Hbound. unfold int_unsigned.
  destruct (scan_pretty_N_go (N.pos p)) with (s := EmptyString)
    as (count & Hpos & Hlow & ->); [lia|].
  assert (count - 1 < 4300)%N as Hcount.
  { apply (N.pow_lt_mono_r_iff 10); [lia|].
    by apply N.le_lt_trans with (N.pos p). }
  clear Hbound Hlow.
  destruct (first_pretty_N_go (N.pos p) EmptyString) as (d & r & ->); [lia|].
  destruct (pretty_N_char_plain d) as (_ & _ & _ & ->).
  cbn [list_ascii_of_string scan].
  assert ((int_max_str_digits <? count)%N = false) as ->
    by (apply N.ltb_ge; unfold int_max_str_digits; lia).
  assert ((count =? 0)%N = false) as -> by (apply N.eqb_neq; lia).
  cbn [lstrip]. by destruct negative.
Qed.

Lemma py_int_pretty z : Z.abs z < 10 ^ 4300 → py_int (pretty z) = Some z.
Proof.
  intros Hz.
  assert (∀ p, Z.pos p < 10 ^ 4300 → (N.pos p < 10 ^ 4300)%N) as Hbound.
  { intros p Hp. apply N2Z.inj_lt. rewrite N2Z.inj_pow. exact Hp. }
  destruct z as [|p|p]; [by vm_compute| |].
  - unfold pretty, pretty_Z, pretty, pretty_positive, pretty, pretty_N.
    rewrite decide_False by done. unfold py_int, int_outcome.
    pose proof (int_unsigned_pretty_N_go p false (Hbound p Hz)) as Hint.
    destruct (first_pretty_N_go (N.pos p) EmptyString) as (d & r & Hl); [lia|].
    destruct (pretty_N_char_plain d) as (Hs & Hm & Hp & _).
    rewrite Hl in *. cbn [lstrip]. by rewrite Hs, Hm, Hp, Hint.
  - unfold pretty, pretty_Z, pretty, pretty_positive, pretty, pretty_N.
    rewrite decide_False by done. unfold py_int, int_outcome.
    change (list_ascii_of_string ("-" +:+ ?s))
      with ("-"%char :: list_ascii_of_string s).
    change (lstrip ("-"%char :: ?l)) with ("-"%char :: l).
    change (Ascii.eqb "-" "-") with true. cbv iota.
    by rewrite (int_unsigned_pretty_N_go p true (Hbound p Hz)).
Qed.

(** X22.  [int] reads back what [str] writes: for every integer of at
    most 4300 digits, the text Python prints for it is accepted by the
    conversion of the numeric settings and gives that integer.  So a
    numeric environment variable set to such a text resolves to the
    integer it denotes, whatever the file and the default say. *)
Theorem numeric_settings_read_back_integers z :
  Z.abs z < 10 ^ 4300 →
  int_of_value (VStr (py_str (VInt z))) = Ok z
  ∧ ∀ h config_file key var cfg,
      (key, var) ∈ env_config → key ∈ numeric_keys →
      getenv h !! var = Some (py_str (VInt z)) →
      _load_config h config_file = Ok cfg →
      cfg !! key = Some (VInt z).
Proof.
  intros Hz. split.
  - cbn [py_str int_of_value]. by rewrite py_int_pretty.
  - intros h config_file key var cfg Hin Hnum Henv Hload.
    rewrite (load_config_lookup h config_file cfg key var Hload Hin).
    unfold chosen. rewrite Henv.
    change (coerce key (py_str (VInt z)) = Some (VInt z)).
    rewrite coerce_numeric by done. cbn [py_str]. by rewrite py_int_pretty.
Qed.

Lemma numeric_settings_read_back_integers_witness :
  _load_config tuned_host None = Ok tuned_config
  ∧ tuned_config !! "max_poll_records" = Some (VInt 250).
Proof.
  assert (("max_poll_records", "KAFKA_MAX_POLL_RECORDS") ∈ env_config) as Hin
    by (apply (bool_decide_unpack _); vm_compute; reflexivity).
  assert ("max_poll_records" ∈ numeric_keys) as Hnum
    by (apply (bool_decide_unpack _); vm_compute; reflexivity).
  assert (getenv tuned_host !! "KAFKA_MAX_POLL_RECORDS" = Some (py_str (VInt 250)))
    as Henv by (vm_compute; reflexivity).
  assert (_load_config tuned_host None = Ok tuned_config) as Hload
    by (apply (result_is_Ok _ ∅); vm_compute; reflexivity).
  assert (Z.abs 250 < 10 ^ 4300) as Hz by (vm_compute; reflexivity).
  split; [exact Hload|].
  exact (proj2 (numeric_settings_read_back_integers 250 Hz) tuned_host None
           "max_poll_records" "KAFKA_MAX_POLL_RECORDS" tuned_config
           Hin Hnum Henv Hload).
Defined.
